(** * rose.opengl.kernel: handle ownership and fallible initialization

    A shallow embedding of the kernel module of the OpenGL template
    (the generic [object] handle wrapper and the five [initialize]
    overloads), together with the properties the specification states
    about resource release, binding restoration, the mipmap chain and
    error propagation.

    The OpenGL implementation is not part of the repository.  It is
    modelled as an arbitrary deterministic [backend]: every call is
    answered as a function of the calls issued so far, and may record
    any number of error flags.  Every call the module issues is kept in
    a trace, newest first. *)

From Stdlib Require Import ZArith List Bool String Lia.
Import ListNotations.
Open Scope Z_scope.

(** ** C integer types *)

Module CTypes.

Definition wrap_unsigned (bits x : Z) : Z := x mod 2 ^ bits.

Definition wrap_signed (bits x : Z) : Z :=
  (x + 2 ^ (bits - 1)) mod 2 ^ bits - 2 ^ (bits - 1).

(** [GLuint], [GLenum] and [uint32_t] are 32-bit unsigned; [GLint] and
    [GLsizei] are 32-bit signed; [size_t] and [GLsizeiptr] are the
    64-bit unsigned and signed pointer-sized types of the LP64 targets
    the makefile builds for. *)
Definition to_GLuint : Z -> Z := wrap_unsigned 32.
Definition to_GLenum : Z -> Z := wrap_unsigned 32.
Definition to_GLint : Z -> Z := wrap_signed 32.
Definition to_GLsizei : Z -> Z := wrap_signed 32.
Definition to_size_t : Z -> Z := wrap_unsigned 64.
Definition to_GLsizeiptr : Z -> Z := wrap_signed 64.

(** [std::span<std::byte const>]: a pointer and a length.  The bytes
    themselves stay in the caller's memory; [nullptr] is address 0. *)
Record span := { sp_data : Z; sp_size : Z }.

Definition nullptr : Z := 0.

(** [s.subspan(offset)] *)
Definition subspan (s : span) (offset : Z) : span :=
  {| sp_data := sp_data s + offset; sp_size := sp_size s - offset |}.

(** A span a program can really hold: the length is a [size_t], the
    viewed bytes lie inside the address space, and only an empty span
    may have a null data pointer. *)
Definition span_wf (s : span) : Prop :=
  0 <= sp_size s /\ 0 <= sp_data s /\ sp_data s + sp_size s < 2 ^ 64 /\
  (0 < sp_size s -> sp_data s <> nullptr).

End CTypes.
Export CTypes.

(** ** Constants of <GL/glew.h> *)

Module GL.

Definition GL_NO_ERROR : Z := 0.
Definition GL_FALSE : Z := 0.
Definition GL_TEXTURE_2D : Z := 0x0DE1.
Definition GL_UNSIGNED_BYTE : Z := 0x1401.
Definition GL_RGBA : Z := 0x1908.
Definition GL_RGBA8 : Z := 0x8058.
Definition GL_TEXTURE_MAG_FILTER : Z := 0x2800.
Definition GL_TEXTURE_MIN_FILTER : Z := 0x2801.
Definition GL_TEXTURE_WRAP_S : Z := 0x2802.
Definition GL_TEXTURE_WRAP_T : Z := 0x2803.
Definition GL_FRAGMENT_SHADER : Z := 0x8B30.
Definition GL_VERTEX_SHADER : Z := 0x8B31.
Definition GL_COMPILE_STATUS : Z := 0x8B81.
Definition GL_LINK_STATUS : Z := 0x8B82.
Definition GL_FRAMEBUFFER_COMPLETE : Z := 0x8CD5.
Definition GL_COLOR_ATTACHMENT0 : Z := 0x8CE0.
Definition GL_DEPTH_ATTACHMENT : Z := 0x8D00.
Definition GL_FRAMEBUFFER : Z := 0x8D40.

End GL.
Export GL.

(** ** The backend and its state *)

(** The OpenGL entry points the module calls, with their arguments.
    Pointer arguments that receive a result ([glGenBuffers(1, &h)],
    [glGetShaderiv(.., &succeeded)]) are left out: what the backend
    stores there is the call's answer. *)
Inductive call : Type :=
| GetError
| GenBuffers (n : Z)
| BindBuffer (target buffer : Z)
| BufferData (target size data usage : Z)
| DeleteBuffers (n buffer : Z)
| GenTextures (n : Z)
| BindTexture (target texture : Z)
| TexParameteri (target pname param : Z)
| TexImage2D (target level internalformat width height border format type
              pixels : Z)
| DeleteTextures (n texture : Z)
| GenFramebuffers (n : Z)
| BindFramebuffer (target framebuffer : Z)
| FramebufferTexture2D (target attachment textarget texture level : Z)
| CheckFramebufferStatus (target : Z)
| DeleteFramebuffers (n framebuffer : Z)
| CreateShader (type : Z)
| ShaderSource (shader count : Z) (code : string) (length : Z)
| CompileShader (shader : Z)
| GetShaderiv (shader pname : Z)
| DeleteShader (shader : Z)
| CreateProgram
| AttachShader (program shader : Z)
| LinkProgram (program : Z)
| GetProgramiv (program pname : Z)
| DeleteProgram (program : Z).

(** One issued call and the backend's answer (0 for [void] calls). *)
Record event := { ev_call : call; ev_ret : Z }.

(** A backend answers a call and records error flags, both depending on
    everything issued before. *)
Record backend := {
  be_respond : list event -> call -> Z;
  be_raise : list event -> call -> list Z
}.

(** The binding points the module touches. *)
Inductive binding_point : Type :=
| BufferBinding (target : Z)
| TextureBinding (target : Z)
| FramebufferBinding (target : Z).

Definition binding_point_eqb (a b : binding_point) : bool :=
  match a, b with
  | BufferBinding x, BufferBinding y => x =? y
  | TextureBinding x, TextureBinding y => x =? y
  | FramebufferBinding x, FramebufferBinding y => x =? y
  | _, _ => false
  end.

Definition bindings := binding_point -> Z.

Definition bind_to (bp : binding_point) (id : Z) (b : bindings) : bindings :=
  fun bp' => if binding_point_eqb bp' bp then id else b bp'.

(** Deleting a bound object reverts every binding that holds it. *)
Definition unbind_deleted (same_kind : binding_point -> bool) (id : Z)
    (b : bindings) : bindings :=
  fun bp => if same_kind bp && (b bp =? id) then 0 else b bp.

Definition is_BufferBinding (bp : binding_point) : bool :=
  match bp with BufferBinding _ => true | _ => false end.
Definition is_TextureBinding (bp : binding_point) : bool :=
  match bp with TextureBinding _ => true | _ => false end.
Definition is_FramebufferBinding (bp : binding_point) : bool :=
  match bp with FramebufferBinding _ => true | _ => false end.

(** Effect of a call on the binding table. *)
Definition rebind (c : call) (b : bindings) : bindings :=
  match c with
  | BindBuffer target id => bind_to (BufferBinding target) id b
  | BindTexture target id => bind_to (TextureBinding target) id b
  | BindFramebuffer target id => bind_to (FramebufferBinding target) id b
  | DeleteBuffers _ id => unbind_deleted is_BufferBinding id b
  | DeleteTextures _ id => unbind_deleted is_TextureBinding id b
  | DeleteFramebuffers _ id => unbind_deleted is_FramebufferBinding id b
  | _ => b
  end.

(** The ambient context: the backend driving it, the trace of issued
    calls (newest first), the error flags recorded and not yet fetched,
    and the binding table. *)
Record gl_state := {
  driver : backend;
  trace : list event;
  pending : list Z;
  bound : bindings
}.

(** ** A state monad over the context *)

Definition M (A : Type) : Type := gl_state -> A * gl_state.

Definition ret {A : Type} (a : A) : M A := fun st => (a, st).

Definition bind {A B : Type} (m : M A) (k : A -> M B) : M B :=
  fun st => let (a, st') := m st in k a st'.

Declare Scope gl_scope.
Delimit Scope gl_scope with gl.
Notation "x <- m ;; k" := (bind m (fun x => k))
  (at level 100, m at next level, right associativity) : gl_scope.
Notation "m ;; k" := (bind m (fun _ => k))
  (at level 100, right associativity) : gl_scope.
Open Scope gl_scope.

(** ** Observations on traces *)

Definition count_calls (f : call -> bool) (tr : list event) : nat :=
  List.length (filter (fun e => f (ev_call e)) tr).

Definition is_GetError (c : call) : bool :=
  match c with GetError => true | _ => false end.
Definition is_GenBuffers (c : call) : bool :=
  match c with GenBuffers _ => true | _ => false end.
Definition is_GenFramebuffers (c : call) : bool :=
  match c with GenFramebuffers _ => true | _ => false end.
Definition is_CreateShader (c : call) : bool :=
  match c with CreateShader _ => true | _ => false end.
Definition is_CompileShader (c : call) : bool :=
  match c with CompileShader _ => true | _ => false end.
Definition is_DeleteShader (c : call) : bool :=
  match c with DeleteShader _ => true | _ => false end.
Definition is_DeleteProgram (c : call) : bool :=
  match c with DeleteProgram _ => true | _ => false end.
Definition is_TexImage2D (c : call) : bool :=
  match c with TexImage2D _ _ _ _ _ _ _ _ _ => true | _ => false end.
Definition is_delete (c : call) : bool :=
  match c with
  | DeleteBuffers _ _ | DeleteTextures _ _ | DeleteFramebuffers _ _
  | DeleteShader _ | DeleteProgram _ => true
  | _ => false
  end.

(** ** Issuing calls *)

Definition issue (c : call) (r : Z) (st : gl_state) : gl_state :=
  {| driver := driver st;
     trace := {| ev_call := c; ev_ret := r |} :: trace st;
     pending := pending st ++ be_raise (driver st) (trace st) c;
     bound := rebind c (bound st) |}.

(** A call whose result the module ignores or that returns [void]. *)
Definition gl_void (c : call) : M unit :=
  fun st => (tt, issue c 0 st).

(** A call whose answer is read back as a value of a C type. *)
Definition gl_value (conv : Z -> Z) (c : call) : M Z :=
  fun st =>
    let r := conv (be_respond (driver st) (trace st) c) in (r, issue c r st).

(** [glGetError()] returns one recorded flag and clears it, or
    [GL_NO_ERROR] when none is recorded; it records no flag itself. *)
Definition glGetError : M Z :=
  fun st =>
    match pending st with
    | [] =>
        (GL_NO_ERROR,
         {| driver := driver st;
            trace := {| ev_call := GetError; ev_ret := GL_NO_ERROR |}
                       :: trace st;
            pending := [];
            bound := bound st |})
    | flag :: rest =>
        (to_GLenum flag,
         {| driver := driver st;
            trace := {| ev_call := GetError; ev_ret := to_GLenum flag |}
                       :: trace st;
            pending := rest;
            bound := bound st |})
    end.

(** [discard_errors()]: [while(glGetError() != GL_NO_ERROR) {}].  The
    loop fetches one recorded flag per round, so it is written by
    recursion on the recorded flags; [discard_errors_unfold] below shows
    it is the loop. *)
Fixpoint discard_errors_loop (flags : list Z) (tr : list event)
    : list Z * list event :=
  match flags with
  | [] => ([], {| ev_call := GetError; ev_ret := GL_NO_ERROR |} :: tr)
  | flag :: rest =>
      let tr' := {| ev_call := GetError; ev_ret := to_GLenum flag |} :: tr in
      if to_GLenum flag =? GL_NO_ERROR then (rest, tr')
      else discard_errors_loop rest tr'
  end.

Definition discard_errors : M unit :=
  fun st =>
    let (flags, tr) := discard_errors_loop (pending st) (trace st) in
    (tt, {| driver := driver st; trace := tr; pending := flags;
            bound := bound st |}).

(** ** Generic object definition *)

(** The five instantiations of [object<Deleter>]. *)
Inductive kind : Type := Buffer | Texture | Framebuffer | Shader | Program.

(** The deleter each instantiation is bound to. *)
Definition Deleter (k : kind) (handle : Z) : call :=
  match k with
  | Buffer => DeleteBuffers 1 handle
  | Texture => DeleteTextures 1 handle
  | Framebuffer => DeleteFramebuffers 1 handle
  | Shader => DeleteShader handle
  | Program => DeleteProgram handle
  end.

Record object (k : kind) : Type := { handle : Z }.
Arguments handle {k} _.

(** [object(GLuint handle = 0)] *)
Definition object_new (k : kind) (h : Z) : object k := {| handle := h |}.

(** [~object()] *)
Definition destroy {k : kind} (this : object k) : M unit :=
  if negb (handle this =? 0) then gl_void (Deleter k (handle this))
  else ret tt.

(** [object(object&& other)]: the new object and [other] afterwards;
    [std::exchange(other.handle, 0)]. *)
Definition move_construct {k : kind} (other : object k)
    : object k * object k :=
  ({| handle := handle other |}, {| handle := 0 |}).

(** [operator GLuint()] *)
Definition to_name {k : kind} (this : object k) : Z := handle this.

(** *** Objects in memory

    Move-assignment names two objects that may be the same one, so it is
    modelled on a store of objects indexed by address. *)
Definition loc := nat.
Definition store (k : kind) := loc -> object k.

Definition store_set {k : kind} (s : store k) (l : loc) (o : object k)
    : store k :=
  fun l' => if Nat.eqb l' l then o else s l'.

(** [object(object&& other)] constructing the object at [this]. *)
Definition move_construct_at {k : kind} (this other : loc) (s : store k)
    : store k :=
  let (fresh, emptied) := move_construct (s other) in
  store_set (store_set s other emptied) this fresh.

(** [std::swap(this->handle, other.handle)] *)
Definition swap_handles {k : kind} (this other : loc) (s : store k)
    : store k :=
  let tmp := handle (s this) in
  let s := store_set s this {| handle := handle (s other) |} in
  store_set s other {| handle := tmp |}.

(** [~object()] of the object at [this]. *)
Definition destroy_at {k : kind} (this : loc) (s : store k) : M unit :=
  destroy (s this).

(** [a = std::move(b)]: the by-value parameter [other] of [operator=]
    is move-constructed from [b] at a fresh address [tmp], the handles
    of [a] and [other] are swapped, and [other] is destroyed when the
    assignment expression ends. *)
Definition move_assign {k : kind} (a b tmp : loc) (s : store k)
    : M (store k) :=
  let s := move_construct_at tmp b s in
  let s := swap_handles a tmp s in
  destroy_at tmp s ;;
  ret s.

(** ** Error definition *)

Record error := { line : Z; code : Z }.

(** [std::expected<T, error>] *)
Inductive expected (T : Type) : Type :=
| value (t : T)
| unexpected (e : error).
Arguments value {T} _.
Arguments unexpected {T} _.

(** Destructor of a [std::expected<object, error>]. *)
Definition destroy_expected {k : kind} (e : expected (object k)) : M unit :=
  match e with
  | value o => destroy o
  | unexpected _ => ret tt
  end.

Definition is_value {T : Type} (e : expected T) : bool :=
  match e with value _ => true | unexpected _ => false end.

(** ** The kernel module (the revision that attaches a depth buffer)

    Failure records carry the line of the [return] that built them.

    A [return] builds the returned value and then destroys the locals
    in scope in reverse order of declaration: the guard first, where it
    has been declared, then [result].  [return result;] move-constructs
    the returned handle from [result], which is then destroyed holding
    zero. *)

Module Kernel.

(** *** Buffer *)

Record buffer_parameters := {
  buffer_type : Z;
  usage : Z;
  bytes : span
}.

(** [~guard()] of [initialize(buffer_parameters)] *)
Definition buffer_guard (type : Z) : M unit :=
  gl_void (BindBuffer type 0).

Definition initialize_buffer (parameters : buffer_parameters)
    : M (expected (object Buffer)) :=
  (* Prepare GL context. *)
  discard_errors ;;
  (* Obtain the size. *)
  let size := to_GLsizeiptr (sp_size (bytes parameters)) in
  if (size <=? 0) || negb (to_size_t size =? sp_size (bytes parameters)) then
    ret (unexpected {| line := 125; code := 0 |})
  else
    (* Create a new buffer object. *)
    name <- gl_value to_GLuint (GenBuffers 1) ;;
    let result := object_new Buffer name in
    code <- glGetError ;;
    if negb (code =? GL_NO_ERROR) then
      destroy result ;;
      ret (unexpected {| line := 134; code := code |})
    else
      (* The guard is alive from here on.  Specify buffer data. *)
      gl_void (BindBuffer (buffer_type parameters) (to_name result)) ;;
      gl_void (BufferData (buffer_type parameters) size
                 (sp_data (bytes parameters)) (usage parameters)) ;;
      (* Check for errors. *)
      code <- glGetError ;;
      if negb (code =? GL_NO_ERROR) then
        buffer_guard (buffer_type parameters) ;;
        destroy result ;;
        ret (unexpected {| line := 153; code := code |})
      else
        let (returned, result) := move_construct result in
        buffer_guard (buffer_type parameters) ;;
        destroy result ;;
        ret (value returned).

(** *** Texture *)

Record texture_parameters := {
  width : Z;
  height : Z;
  mipmap_count : Z;
  pixels : span
}.

(** [~guard()] of [initialize(texture_parameters)] *)
Definition texture_guard : M unit :=
  gl_void (BindTexture GL_TEXTURE_2D 0).

(** The byte size of the current level, in [int] arithmetic. *)
Definition level_size (parameters : texture_parameters) : Z :=
  to_GLsizei (to_GLsizei (width parameters * height parameters) * 4).

(** The pointer given to [glTexImage2D]; the [GLuint] is compared with
    the [size_t] length after promotion to [size_t]. *)
Definition level_pixel_data (parameters : texture_parameters) : Z :=
  if to_size_t (to_GLuint (level_size parameters))
       >? sp_size (pixels parameters)
  then nullptr
  else sp_data (pixels parameters).

(** The parameters at the end of one round of the loop. *)
Definition next_level (parameters : texture_parameters)
    : texture_parameters :=
  let size := level_size parameters in
  {| width := Z.max 1 (Z.quot (width parameters) 2);
     height := Z.max 1 (Z.quot (height parameters) 2);
     mipmap_count := mipmap_count parameters;
     pixels :=
       subspan (pixels parameters)
         (Z.min (sp_size (pixels parameters)) (to_size_t size)) |}.

(** The [for] loop over the mipmap levels.  [None]: the rounds allowed
    by [fuel] did not reach the exit; [Some None]: the loop ran to its
    end; [Some (Some e)]: a round returned the failure [e]. *)
Fixpoint specify_levels (fuel : nat) (i : Z) (parameters : texture_parameters)
    : M (option (option error)) :=
  match fuel with
  | O => ret None
  | S fuel =>
      if negb (i =? mipmap_count parameters) then
        (* Specify mipmap level data. *)
        gl_void (TexImage2D GL_TEXTURE_2D i GL_RGBA8 (width parameters)
                   (height parameters) 0 GL_RGBA GL_UNSIGNED_BYTE
                   (level_pixel_data parameters)) ;;
        (* Check for errors. *)
        code <- glGetError ;;
        if negb (code =? GL_NO_ERROR) then
          ret (Some (Some {| line := 245; code := code |}))
        else
          specify_levels fuel (to_GLint (i + 1)) (next_level parameters)
      else ret (Some None)
  end.

Definition initialize_texture (parameters : texture_parameters)
    : M (option (expected (object Texture))) :=
  (* Prepare GL context. *)
  discard_errors ;;
  (* Check texture parameters. *)
  if ((width parameters <=? 0) || (width parameters >=? 16384)) ||
     ((height parameters <=? 0) || (height parameters >=? 16384)) ||
     ((mipmap_count parameters <=? 0) || (mipmap_count parameters >=? 16384))
  then ret (Some (unexpected {| line := 201; code := 0 |}))
  else
    (* Create a new texture object. *)
    name <- gl_value to_GLuint (GenTextures 1) ;;
    let result := object_new Texture name in
    code <- glGetError ;;
    if negb (code =? GL_NO_ERROR) then
      destroy result ;;
      ret (Some (unexpected {| line := 210; code := code |}))
    else
      (* The guard is alive from here on.  Bind the texture. *)
      gl_void (BindTexture GL_TEXTURE_2D (to_name result)) ;;
      (* Check for errors. *)
      code <- glGetError ;;
      if negb (code =? GL_NO_ERROR) then
        texture_guard ;;
        destroy result ;;
        ret (Some (unexpected {| line := 225; code := code |}))
      else
        (* Specify texture data. *)
        outcome <- specify_levels (S (Z.to_nat (mipmap_count parameters))) 0
                     parameters ;;
        match outcome with
        | None => ret None
        | Some (Some e) =>
            texture_guard ;;
            destroy result ;;
            ret (Some (unexpected e))
        | Some None =>
            let (returned, result) := move_construct result in
            texture_guard ;;
            destroy result ;;
            ret (Some (value returned))
        end.

(** *** Framebuffer *)

Record framebuffer_parameters := {
  render_target : Z;
  depth_buffer : Z
}.

(** [~guard()] of [initialize(framebuffer_parameters)] *)
Definition framebuffer_guard : M unit :=
  gl_void (BindFramebuffer GL_FRAMEBUFFER 0).

Definition initialize_framebuffer (parameters : framebuffer_parameters)
    : M (expected (object Framebuffer)) :=
  (* Prepare GL context. *)
  discard_errors ;;
  (* Create a new framebuffer object. *)
  name <- gl_value to_GLuint (GenFramebuffers 1) ;;
  let result := object_new Framebuffer name in
  code <- glGetError ;;
  if negb (code =? GL_NO_ERROR) then
    destroy result ;;
    ret (unexpected {| line := 301; code := code |})
  else
    (* The guard is alive from here on.  Specify framebuffer attachments. *)
    gl_void (BindFramebuffer GL_FRAMEBUFFER (to_name result)) ;;
    (if negb (render_target parameters =? 0) then
       gl_void (FramebufferTexture2D GL_FRAMEBUFFER GL_COLOR_ATTACHMENT0
                  GL_TEXTURE_2D (render_target parameters) 0)
     else ret tt) ;;
    (if negb (depth_buffer parameters =? 0) then
       gl_void (FramebufferTexture2D GL_FRAMEBUFFER GL_DEPTH_ATTACHMENT
                  GL_TEXTURE_2D (depth_buffer parameters) 0)
     else ret tt) ;;
    (* Check framebuffer status. *)
    status <- gl_value to_GLenum (CheckFramebufferStatus GL_FRAMEBUFFER) ;;
    if negb (status =? GL_FRAMEBUFFER_COMPLETE) then
      framebuffer_guard ;;
      destroy result ;;
      ret (unexpected {| line := 329; code := status |})
    else
      (* Check for errors. *)
      code <- glGetError ;;
      if negb (code =? GL_NO_ERROR) then
        framebuffer_guard ;;
        destroy result ;;
        ret (unexpected {| line := 334; code := code |})
      else
        let (returned, result) := move_construct result in
        framebuffer_guard ;;
        destroy result ;;
        ret (value returned).

(** *** Shader *)

Record shader_parameters := {
  shader_type : Z;
  shader_code : string
}.

Definition initialize_shader (parameters : shader_parameters)
    : M (expected (object Shader)) :=
  (* Prepare GL context. *)
  discard_errors ;;
  (* Initialize a new shader object. *)
  name <- gl_value to_GLuint (CreateShader (shader_type parameters)) ;;
  let result := object_new Shader name in
  if handle result =? 0 then
    destroy result ;;
    ret (unexpected {| line := 378; code := 0 |})
  else
    (* Compile the shader. *)
    gl_void (ShaderSource (to_name result) 1 (shader_code parameters)
               nullptr) ;;
    gl_void (CompileShader (to_name result)) ;;
    (* Check compilation status. *)
    succeeded <- gl_value to_GLint
                   (GetShaderiv (to_name result) GL_COMPILE_STATUS) ;;
    if succeeded =? 0 then
      destroy result ;;
      ret (unexpected {| line := 388; code := 0 |})
    else
      (* Check for errors. *)
      code <- glGetError ;;
      if negb (code =? GL_NO_ERROR) then
        destroy result ;;
        ret (unexpected {| line := 394; code := code |})
      else
        let (returned, result) := move_construct result in
        destroy result ;;
        ret (value returned).

(** *** Program *)

Record program_parameters := {
  vertex_shader_code : string;
  fragment_shader_code : string
}.

Definition initialize_program (parameters : program_parameters)
    : M (expected (object Program)) :=
  (* Initialize vertex shader. *)
  vertex_shader <- initialize_shader
                     {| shader_type := GL_VERTEX_SHADER;
                        shader_code := vertex_shader_code parameters |} ;;
  match vertex_shader with
  | unexpected e =>
      destroy_expected vertex_shader ;;
      ret (unexpected e)
  | value vertex =>
      (* Initialize fragment shader. *)
      fragment_shader <- initialize_shader
                           {| shader_type := GL_FRAGMENT_SHADER;
                              shader_code :=
                                fragment_shader_code parameters |} ;;
      match fragment_shader with
      | unexpected e =>
          destroy_expected fragment_shader ;;
          destroy_expected vertex_shader ;;
          ret (unexpected e)
      | value fragment =>
          (* Locals leave scope in reverse order of declaration. *)
          let leave (result : object Program) : M unit :=
            destroy result ;;
            destroy_expected fragment_shader ;;
            destroy_expected vertex_shader in
          (* Initialize a new program object. *)
          name <- gl_value to_GLuint CreateProgram ;;
          let result := object_new Program name in
          if handle result =? 0 then
            leave result ;;
            ret (unexpected {| line := 452; code := 0 |})
          else
            (* Link the program. *)
            gl_void (AttachShader (to_name result) (to_name vertex)) ;;
            gl_void (AttachShader (to_name result) (to_name fragment)) ;;
            gl_void (LinkProgram (to_name result)) ;;
            (* Check linking status. *)
            succeeded <- gl_value to_GLint
                           (GetProgramiv (to_name result) GL_LINK_STATUS) ;;
            if succeeded =? 0 then
              leave result ;;
              ret (unexpected {| line := 463; code := 0 |})
            else
              (* Check for errors. *)
              code <- glGetError ;;
              if negb (code =? GL_NO_ERROR) then
                leave result ;;
                ret (unexpected {| line := 469; code := code |})
              else
                let (returned, result) := move_construct result in
                leave result ;;
                ret (value returned)
      end
  end.

End Kernel.

(** ** The kernel module, src/rose.opengl.kernel.ccm

    This revision differs in the texture and framebuffer sections only;
    [object], [error], [discard_errors] and the buffer, shader and
    program sections read as above.  Its texture sets filters and wrap
    modes before the levels; its framebuffer takes a color target alone
    and checks it before anything else. *)

Module KernelCcm.

(** *** Texture *)

Record texture_parameters := {
  w : Z;
  h : Z;
  n_mipmaps : Z;
  min_filter : Z;
  mag_filter : Z;
  wrap_s : Z;
  wrap_t : Z;
  pixels : span
}.

Definition texture_guard : M unit :=
  gl_void (BindTexture GL_TEXTURE_2D 0).

(** The byte size of the current level: the [int] product, cast to
    [uint32_t]. *)
Definition level_size (parameters : texture_parameters) : Z :=
  to_GLuint (to_GLsizei (to_GLsizei (w parameters * h parameters) * 4)).

Definition level_pixel_data (parameters : texture_parameters) : Z :=
  if to_size_t (level_size parameters) >? sp_size (pixels parameters)
  then nullptr
  else sp_data (pixels parameters).

Definition next_level (parameters : texture_parameters)
    : texture_parameters :=
  let size := level_size parameters in
  {| w := Z.max 1 (Z.quot (w parameters) 2);
     h := Z.max 1 (Z.quot (h parameters) 2);
     n_mipmaps := n_mipmaps parameters;
     min_filter := min_filter parameters;
     mag_filter := mag_filter parameters;
     wrap_s := wrap_s parameters;
     wrap_t := wrap_t parameters;
     pixels :=
       subspan (pixels parameters)
         (Z.min (sp_size (pixels parameters)) (to_size_t size)) |}.

Fixpoint specify_levels (fuel : nat) (i : Z) (parameters : texture_parameters)
    : M (option (option error)) :=
  match fuel with
  | O => ret None
  | S fuel =>
      if negb (i =? n_mipmaps parameters) then
        (* Specify mipmap level. *)
        gl_void (TexImage2D GL_TEXTURE_2D i GL_RGBA8 (w parameters)
                   (h parameters) 0 GL_RGBA GL_UNSIGNED_BYTE
                   (level_pixel_data parameters)) ;;
        (* Check for errors. *)
        code <- glGetError ;;
        if negb (code =? GL_NO_ERROR) then
          ret (Some (Some {| line := 272; code := code |}))
        else
          specify_levels fuel (to_GLint (i + 1)) (next_level parameters)
      else ret (Some None)
  end.

Definition initialize_texture (parameters : texture_parameters)
    : M (option (expected (object Texture))) :=
  (* Prepare GL context. *)
  discard_errors ;;
  (* Check texture parameters. *)
  if ((w parameters <=? 0) || (w parameters >=? 16384)) ||
     ((h parameters <=? 0) || (h parameters >=? 16384)) ||
     ((n_mipmaps parameters <=? 0) || (n_mipmaps parameters >=? 16384))
  then ret (Some (unexpected {| line := 215; code := 0 |}))
  else
    (* Create a new texture object. *)
    name <- gl_value to_GLuint (GenTextures 1) ;;
    let result := object_new Texture name in
    code <- glGetError ;;
    if negb (code =? GL_NO_ERROR) then
      destroy result ;;
      ret (Some (unexpected {| line := 224; code := code |}))
    else
      (* The guard is alive from here on.  Set texture filtering. *)
      gl_void (BindTexture GL_TEXTURE_2D (to_name result)) ;;
      gl_void (TexParameteri GL_TEXTURE_2D GL_TEXTURE_MAG_FILTER
                 (to_GLint (mag_filter parameters))) ;;
      gl_void (TexParameteri GL_TEXTURE_2D GL_TEXTURE_MIN_FILTER
                 (to_GLint (min_filter parameters))) ;;
      code <- glGetError ;;
      if negb (code =? GL_NO_ERROR) then
        texture_guard ;;
        destroy result ;;
        ret (Some (unexpected {| line := 244; code := code |}))
      else
        (* Set texture wrap mode. *)
        gl_void (TexParameteri GL_TEXTURE_2D GL_TEXTURE_WRAP_S
                   (to_GLint (wrap_s parameters))) ;;
        gl_void (TexParameteri GL_TEXTURE_2D GL_TEXTURE_WRAP_T
                   (to_GLint (wrap_t parameters))) ;;
        code <- glGetError ;;
        if negb (code =? GL_NO_ERROR) then
          texture_guard ;;
          destroy result ;;
          ret (Some (unexpected {| line := 252; code := code |}))
        else
          (* Specify texture data. *)
          outcome <- specify_levels (S (Z.to_nat (n_mipmaps parameters))) 0
                       parameters ;;
          match outcome with
          | None => ret None
          | Some (Some e) =>
              texture_guard ;;
              destroy result ;;
              ret (Some (unexpected e))
          | Some None =>
              let (returned, result) := move_construct result in
              texture_guard ;;
              destroy result ;;
              ret (Some (value returned))
          end.

(** The parameters the two revisions have in common. *)
Definition common (parameters : texture_parameters)
    : Kernel.texture_parameters :=
  {| Kernel.width := w parameters;
     Kernel.height := h parameters;
     Kernel.mipmap_count := n_mipmaps parameters;
     Kernel.pixels := pixels parameters |}.

(** *** Framebuffer *)

Record framebuffer_parameters := {
  render_target : Z
}.

Definition framebuffer_guard : M unit :=
  gl_void (BindFramebuffer GL_FRAMEBUFFER 0).

Definition initialize_framebuffer (parameters : framebuffer_parameters)
    : M (expected (object Framebuffer)) :=
  (* Prepare GL context. *)
  discard_errors ;;
  (* Check framebuffer parameters. *)
  if render_target parameters =? 0 then
    ret (unexpected {| line := 323; code := 0 |})
  else
    (* Create a new framebuffer object. *)
    name <- gl_value to_GLuint (GenFramebuffers 1) ;;
    let result := object_new Framebuffer name in
    code <- glGetError ;;
    if negb (code =? GL_NO_ERROR) then
      destroy result ;;
      ret (unexpected {| line := 332; code := code |})
    else
      (* The guard is alive from here on.  Specify framebuffer attachments. *)
      gl_void (BindFramebuffer GL_FRAMEBUFFER (to_name result)) ;;
      gl_void (FramebufferTexture2D GL_FRAMEBUFFER GL_COLOR_ATTACHMENT0
                 GL_TEXTURE_2D (render_target parameters) 0) ;;
      (* Check framebuffer status. *)
      status <- gl_value to_GLenum (CheckFramebufferStatus GL_FRAMEBUFFER) ;;
      if negb (status =? GL_FRAMEBUFFER_COMPLETE) then
        framebuffer_guard ;;
        destroy result ;;
        ret (unexpected {| line := 351; code := status |})
      else
        (* Check for errors. *)
        code <- glGetError ;;
        if negb (code =? GL_NO_ERROR) then
          framebuffer_guard ;;
          destroy result ;;
          ret (unexpected {| line := 356; code := code |})
        else
          let (returned, result) := move_construct result in
          framebuffer_guard ;;
          destroy result ;;
          ret (value returned).

End KernelCcm.

(** ** The mipmap chain as the specification words it

    Level byte size [width * height * 4]; a null pointer when the
    remaining span is smaller than that, otherwise the start of the
    remaining span; the span advances by the consumed bytes, clamped to
    what remains; width and height are halved, flooring at 1. *)

Module MipChain.

Record level := {
  lv_index : Z;
  lv_width : Z;
  lv_height : Z;
  lv_size : Z;
  lv_remaining : Z;
  lv_data : Z
}.

Definition halve (n : Z) : Z := Z.max 1 (n / 2).

Fixpoint chain (count : nat) (index w h : Z) (remaining : span)
    : list level :=
  match count with
  | O => []
  | S count =>
      let size := w * h * 4 in
      {| lv_index := index; lv_width := w; lv_height := h; lv_size := size;
         lv_remaining := sp_size remaining;
         lv_data := if sp_size remaining <? size then nullptr
                    else sp_data remaining |}
      :: chain count (index + 1) (halve w) (halve h)
           (subspan remaining (Z.min size (sp_size remaining)))
  end.

(** The [glTexImage2D] call that specifies a level. *)
Definition upload (l : level) : call :=
  TexImage2D GL_TEXTURE_2D (lv_index l) GL_RGBA8 (lv_width l) (lv_height l)
    0 GL_RGBA GL_UNSIGNED_BYTE (lv_data l).

End MipChain.

(** The shader objects a trace shows being created: [glCreateShader]
    calls answered with a name other than zero. *)
Definition shaders_created (tr : list event) : nat :=
  List.length
    (filter (fun e => is_CreateShader (ev_call e) && negb (ev_ret e =? 0))
       tr).

(** The calls of a trace that satisfy [f], oldest first. *)
Definition calls_of (f : call -> bool) (tr : list event) : list call :=
  rev (filter f (map ev_call tr)).

(** ** A scripted backend

    Answers every call with [answer] and records the flags [flags]
    after the calls selected by [faulty]. *)

Module Fake.

Definition scripted (answer : call -> Z) (faulty : call -> bool)
    (flags : list Z) : backend :=
  {| be_respond := fun _ c => answer c;
     be_raise := fun _ c => if faulty c then flags else [] |}.

Definition fresh (b : backend) : gl_state :=
  {| driver := b; trace := []; pending := []; bound := fun _ => 0 |}.

(** Generated objects get name 7, the vertex shader 11, the fragment
    shader 12 and the program 13; every status query succeeds, the
    framebuffer is complete, and no error is ever recorded. *)
Definition healthy_answer (c : call) : Z :=
  match c with
  | CheckFramebufferStatus _ => GL_FRAMEBUFFER_COMPLETE
  | GetShaderiv _ _ | GetProgramiv _ _ => 1
  | CreateShader type => if type =? GL_VERTEX_SHADER then 11 else 12
  | CreateProgram => 13
  | _ => 7
  end.

Definition healthy : backend := scripted healthy_answer (fun _ => false) [].

(** As [healthy], but every framebuffer is reported as having an
    incomplete attachment (status 0x8CD6). *)
Definition incomplete_answer (c : call) : Z :=
  match c with
  | CheckFramebufferStatus _ => 0x8CD6
  | _ => healthy_answer c
  end.

Definition incomplete : backend :=
  scripted incomplete_answer (fun _ => false) [].

(** As [healthy], but the shader named [bad] fails to compile. *)
Definition rejecting_answer (bad : Z) (c : call) : Z :=
  match c with
  | GetShaderiv shader _ => if shader =? bad then 0 else 1
  | _ => healthy_answer c
  end.

Definition rejecting (bad : Z) : backend :=
  scripted (rejecting_answer bad) (fun _ => false) [].

End Fake.

(** The events a run from [st] to [st'] added to the trace. *)
Definition new_events (st st' : gl_state) : list event :=
  firstn (List.length (trace st') - List.length (trace st)) (trace st').

(** ** Predicates used in the statements *)

(** Events that are all [glGetError] calls. *)
Definition only_GetError (l : list event) : Prop :=
  Forall (fun e => ev_call e = GetError) l.

(** The reading of move assignment under which the previous identifier
    of the target is released once whatever the operands are. *)
Definition releases_previous_once {k : kind} (a b tmp : loc) (s : store k)
    (st : gl_state) : Prop :=
  let r := move_assign a b tmp s st in
  handle (fst r a) = handle (s b) /\
  trace (snd r) =
    {| ev_call := Deleter k (handle (s a)); ev_ret := 0 |} :: trace st.

(** Events all of whose calls satisfy [f]. *)
Definition only_calls (f : call -> bool) (l : list event) : Prop :=
  Forall (fun e => f (ev_call e) = true) l.

Definition validated (p : Kernel.texture_parameters) : Prop :=
  1 <= Kernel.width p <= 16383 /\
  1 <= Kernel.height p <= 16383 /\
  1 <= Kernel.mipmap_count p <= 16383.

Definition upload_or_GetError (c : call) : bool :=
  is_TexImage2D c || is_GetError c.

Definition is_BindBuffer (c : call) : bool :=
  match c with BindBuffer _ _ => true | _ => false end.
Definition is_BindTexture (c : call) : bool :=
  match c with BindTexture _ _ => true | _ => false end.
Definition is_BindFramebuffer (c : call) : bool :=
  match c with BindFramebuffer _ _ => true | _ => false end.

(** What a run from [st] to [st'] did to a binding point: when it got
    as far as binding its object, it issued exactly two binds, the
    object and then zero, and the binding point holds zero at the end;
    otherwise it issued no bind at all. *)
Definition binding_outcome (bp : binding_point) (f : call -> bool)
    (bind_call : Z -> call) (reached : bool) (st st' : gl_state) : Prop :=
  if reached then
    bound st' bp = 0 /\
    exists name,
      calls_of f (new_events st st') = [bind_call name; bind_call 0]
  else calls_of f (new_events st st') = [].

(** The exits of each function that lie after its bind: success and the
    failures built after the guard was declared. *)
Definition buffer_bind_reached (r : expected (object Buffer)) : bool :=
  match r with
  | value _ => true
  | unexpected e => negb ((line e =? 125) || (line e =? 134))
  end.

Definition texture_bind_reached (r : expected (object Texture)) : bool :=
  match r with
  | value _ => true
  | unexpected e => negb ((line e =? 201) || (line e =? 210))
  end.

Definition ccm_texture_bind_reached (r : expected (object Texture)) : bool :=
  match r with
  | value _ => true
  | unexpected e => negb ((line e =? 215) || (line e =? 224))
  end.

Definition ccm_framebuffer_bind_reached (r : expected (object Framebuffer))
    : bool :=
  match r with
  | value _ => true
  | unexpected e => negb ((line e =? 323) || (line e =? 332))
  end.

Definition framebuffer_bind_reached (r : expected (object Framebuffer))
    : bool :=
  match r with
  | value _ => true
  | unexpected e => negb (line e =? 301)
  end.

(** Not rejecting absent attachments locally: the call gets as
    far as asking the backend for a framebuffer name. *)
Definition allocates_a_name (st st' : gl_state) : Prop :=
  count_calls is_GenFramebuffers (new_events st st') = 1%nat.

(** Where a failure of [initialize(framebuffer_parameters)] comes from:
    the error flag after [glGenFramebuffers], the completeness query,
    or the final error flag.  Each is an answer of the backend found in
    the trace. *)
Definition reported_by_backend (e : error) (new : list event) : Prop :=
  (line e = 301 /\ code e <> GL_NO_ERROR /\
   In {| ev_call := GetError; ev_ret := code e |} new) \/
  (line e = 329 /\ code e <> GL_FRAMEBUFFER_COMPLETE /\
   In {| ev_call := CheckFramebufferStatus GL_FRAMEBUFFER;
         ev_ret := code e |} new) \/
  (line e = 334 /\ code e <> GL_NO_ERROR /\
   In {| ev_call := GetError; ev_ret := code e |} new).

Definition vertex_parameters (p : Kernel.program_parameters)
    : Kernel.shader_parameters :=
  {| Kernel.shader_type := GL_VERTEX_SHADER;
     Kernel.shader_code := Kernel.vertex_shader_code p |}.

Definition fragment_parameters (p : Kernel.program_parameters)
    : Kernel.shader_parameters :=
  {| Kernel.shader_type := GL_FRAGMENT_SHADER;
     Kernel.shader_code := Kernel.fragment_shader_code p |}.

(** The outcome of the level loop with its failure, if any, marked with
    another line. *)
Definition relabel (marker : Z) (r : option (option error) * gl_state)
    : option (option error) * gl_state :=
  match fst r with
  | Some (Some e) => (Some (Some {| line := marker; code := code e |}), snd r)
  | _ => r
  end.

Definition ccm_validated (p : KernelCcm.texture_parameters) : Prop :=
  validated (KernelCcm.common p).

(** A level as the specification describes it: its byte size is
    [width * height * 4]; its data pointer is null exactly when the
    remaining span is shorter than that; a pointer that is not null is
    the address of the first remaining byte of the span that ends at
    [span_end]. *)
Definition level_ok (span_end : Z) (l : MipChain.level) : Prop :=
  MipChain.lv_size l = MipChain.lv_width l * MipChain.lv_height l * 4 /\
  (MipChain.lv_data l = nullptr <->
   MipChain.lv_size l > MipChain.lv_remaining l) /\
  (MipChain.lv_data l <> nullptr ->
   MipChain.lv_data l + MipChain.lv_remaining l = span_end).

(** How a level follows from the one before. *)
Definition follows (l l' : MipChain.level) : Prop :=
  MipChain.lv_index l' = MipChain.lv_index l + 1 /\
  MipChain.lv_width l' = Z.max 1 (MipChain.lv_width l / 2) /\
  MipChain.lv_height l' = Z.max 1 (MipChain.lv_height l / 2) /\
  MipChain.lv_remaining l' =
    MipChain.lv_remaining l
    - Z.min (MipChain.lv_size l) (MipChain.lv_remaining l).

Fixpoint chained (levels : list MipChain.level) : Prop :=
  match levels with
  | l :: ((l' :: _) as rest) => follows l l' /\ chained rest
  | _ => True
  end.

Definition extent (l : MipChain.level) : Z * Z :=
  (MipChain.lv_width l, MipChain.lv_height l).

(** The events of a walk over [levels], oldest first: each level
    reached is specified by its [glTexImage2D] call and [glGetError] is
    asked after it; [answers] holds what [glGetError] answered, one
    answer per level reached. *)
Fixpoint walk_events (answers : list Z) (levels : list MipChain.level)
    : list event :=
  match answers, levels with
  | answer :: answers, l :: levels =>
      {| ev_call := MipChain.upload l; ev_ret := 0 |}
      :: {| ev_call := GetError; ev_ret := answer |}
      :: walk_events answers levels
  | _, _ => []
  end.

(** An event that is no [glTexImage2D] call. *)
Definition no_upload (e : event) : Prop :=
  is_TexImage2D (ev_call e) = false.

(** An event that is neither a [glTexImage2D] nor a [glGetError] call. *)
Definition no_upload_no_check (e : event) : Prop :=
  upload_or_GetError (ev_call e) = false.

(** ** Further observations on traces *)

(** The events of a trace whose call satisfies [f], oldest first, with
    the answers they got. *)
Definition events_of (f : call -> bool) (tr : list event) : list event :=
  rev (filter (fun e => f (ev_call e)) tr).

Definition is_GenTextures (c : call) : bool :=
  match c with GenTextures _ => true | _ => false end.
Definition is_FramebufferTexture2D (c : call) : bool :=
  match c with FramebufferTexture2D _ _ _ _ _ => true | _ => false end.
Definition is_CreateProgram (c : call) : bool :=
  match c with CreateProgram => true | _ => false end.
Definition is_TexParameteri (c : call) : bool :=
  match c with TexParameteri _ _ _ => true | _ => false end.

(** The calls that build a program out of shaders. *)
Definition is_linking (c : call) : bool :=
  match c with
  | AttachShader _ _ | LinkProgram _ => true
  | _ => false
  end.


(** ** Observations on the level uploads *)

(** The data pointer a [glTexImage2D] call was given. *)
Definition pixels_argument (c : call) : Z :=
  match c with
  | TexImage2D _ _ _ _ _ _ _ _ pixels => pixels
  | _ => nullptr
  end.

(** The level and extent a [glTexImage2D] call specifies. *)
Definition upload_extent (c : call) : Z * Z * Z :=
  match c with
  | TexImage2D _ level _ width height _ _ _ _ => (level, width, height)
  | _ => (0, 0, 0)
  end.

(** Level [j] of a [w] x [h] texture, in closed form. *)
Definition level_extent (w h : Z) (j : nat) : Z * Z * Z :=
  (Z.of_nat j, Z.max 1 (w / 2 ^ Z.of_nat j), Z.max 1 (h / 2 ^ Z.of_nat j)).

(** The bytes the backend reads for a [glTexImage2D] call (RGBA8: four
    bytes a texel, from the given pointer) lie inside the span [s], or
    the pointer is null and nothing is read. *)
Definition reads_within (s : span) (c : call) : Prop :=
  match c with
  | TexImage2D _ _ _ width height _ _ _ pixels =>
      pixels = nullptr \/
      (sp_data s <= pixels /\
       pixels + width * height * 4 <= sp_data s + sp_size s)
  | _ => True
  end.

(** The bytes of the first [count] levels of a [w] x [h] texture. *)
Fixpoint mip_chain_bytes (count : nat) (w h : Z) : Z :=
  match count with
  | O => 0
  | S count =>
      w * h * 4 + mip_chain_bytes count (MipChain.halve w) (MipChain.halve h)
  end.


Definition is_BufferData (c : call) : bool :=
  match c with BufferData _ _ _ _ => true | _ => false end.

(** The calls issued on a framebuffer while it is bound. *)
Definition is_framebuffer_setup (c : call) : bool :=
  match c with
  | BindFramebuffer _ _ | FramebufferTexture2D _ _ _ _ _
  | CheckFramebufferStatus _ => true
  | _ => false
  end.



(** The four [glTexParameteri] calls of the texture initialization in
    src/rose.opengl.kernel.ccm: the filters, then the wrap modes. *)
Definition ccm_filter_calls (p : KernelCcm.texture_parameters) : list call :=
  [TexParameteri GL_TEXTURE_2D GL_TEXTURE_MAG_FILTER
     (to_GLint (KernelCcm.mag_filter p));
   TexParameteri GL_TEXTURE_2D GL_TEXTURE_MIN_FILTER
     (to_GLint (KernelCcm.min_filter p))].

Definition ccm_wrap_calls (p : KernelCcm.texture_parameters) : list call :=
  [TexParameteri GL_TEXTURE_2D GL_TEXTURE_WRAP_S
     (to_GLint (KernelCcm.wrap_s p));
   TexParameteri GL_TEXTURE_2D GL_TEXTURE_WRAP_T
     (to_GLint (KernelCcm.wrap_t p))].

Definition is_texture_setup (c : call) : bool :=
  match c with
  | TexParameteri _ _ _ | TexImage2D _ _ _ _ _ _ _ _ _ => true
  | _ => false
  end.


(** ** The program entry point, src/main.cc

    SDL, GLEW and the clock are outside the repository.  Their answers
    during one run are given by a script: the result of [SDL_Init], the
    window and context pointers, the result of [glewInit], and for each
    pass of the event loop the events [SDL_PollEvent] delivers, the
    window size and the milliseconds the pass took.  A run yields the
    exit code and the calls it issued, oldest first. *)

Module Main.

Definition EXIT_SUCCESS : Z := 0.
Definition EXIT_FAILURE : Z := 1.
Definition GLEW_OK : Z := 0.
Definition SDLK_q : Z := 113.

(** The event types the loop tells apart; every other type goes to
    [default]. *)
Inductive event_type : Type :=
| SDL_QUIT
| SDL_KEYDOWN
| SDL_KEYUP
| SDL_MOUSEBUTTONDOWN
| SDL_MOUSEBUTTONUP
| SDL_MOUSEMOTION
| SDL_OTHER (code : Z).

(** The fields of [SDL_Event] the loop reads: [event.type],
    [event.key.keysym.sym] and [event.button.button]. *)
Record SDL_Event := {
  type : event_type;
  key_sym : Z;
  button : Z
}.

Record frame := {
  polled : list SDL_Event;
  window_size : Z * Z;
  elapsed : Z
}.

Record script := {
  init_result : Z;
  window_pointer : Z;
  context_pointer : Z;
  glew_result : Z;
  frames : list frame
}.

Definition endl : string := String (Ascii.ascii_of_nat 10) EmptyString.

Inductive action : Type :=
| SDL_Init (flags : string)
| SDL_Quit
| SDL_CreateWindow (title : string) (x y w h : Z) (flags : string)
| SDL_DestroyWindow (window : Z)
| SDL_GL_SetAttribute (attribute : string) (value : string)
| SDL_GL_CreateContext (window : Z)
| SDL_GL_DeleteContext (context : Z)
| SDL_GL_MakeCurrent (window context : Z)
| glewInit
| glDisable (capability : string)
| glClearColor (red green blue alpha : string)
| glActiveTexture (texture : string)
| glEnableVertexAttribArray (index : Z)
| SDL_PollEvent (pending : bool)
| SDL_GetWindowSize (window : Z)
| glViewport (x y w h : Z)
| glClear (mask : string)
| SDL_GL_SwapWindow (window : Z)
| now
| sleep_for (milliseconds : Z)
| print (text : string).

(** [detail::window_deleter] *)
Definition window_deleter (window : Z) : list action :=
  if negb (window =? nullptr) then
    [print ("Deleting SDL window" ++ endl); SDL_DestroyWindow window]
  else [].

(** [detail::opengl_context_deleter] *)
Definition opengl_context_deleter (context : Z) : list action :=
  if negb (context =? nullptr) then
    [print ("Deleting OpenGL context" ++ endl); SDL_GL_DeleteContext context]
  else [].

(** Destructor of a [std::unique_ptr]: the deleter runs on a pointer
    that is not null. *)
Definition unique_ptr_destroy (deleter : Z -> list action) (pointer : Z)
    : list action :=
  if negb (pointer =? nullptr) then deleter pointer else [].

(** [~guard()] of [main] *)
Definition guard : list action :=
  [print ("Cleaning-up SDL state" ++ endl); SDL_Quit].

(** The body of the [switch] on one event. *)
Definition process_event (event : SDL_Event) (should_run : bool) : bool :=
  match type event with
  | SDL_QUIT => false
  | SDL_KEYDOWN => if key_sym event =? SDLK_q then false else should_run
  | SDL_KEYUP => should_run
  | SDL_MOUSEBUTTONDOWN => should_run
  | SDL_MOUSEBUTTONUP => should_run
  | SDL_MOUSEMOTION => should_run
  | SDL_OTHER _ => should_run
  end.

(** [for(SDL_Event event; SDL_PollEvent(&event) != 0;) { ... }] on the
    events the pass delivers. *)
Fixpoint process_events (events : list SDL_Event) (should_run : bool)
    : bool * list action :=
  match events with
  | [] => (should_run, [SDL_PollEvent false])
  | event :: rest =>
      let (should_run', calls) :=
        process_events rest (process_event event should_run) in
      (should_run', SDL_PollEvent true :: calls)
  end.

(** Render the next frame. *)
Definition render (window : Z) (size : Z * Z) : list action :=
  let (w, h) := size in
  SDL_GetWindowSize window ::
  (if negb (wrap_signed 32 w =? 0) && negb (wrap_signed 32 h =? 0) then
     [glViewport 0 0 (wrap_signed 32 w) (wrap_signed 32 h);
      glClear "GL_COLOR_BUFFER_BIT"; SDL_GL_SwapWindow window]
   else []).

(** Sleep between frames; [delta.count()] is a 64-bit count. *)
Definition pace (delta : Z) : list action :=
  if delta <? 16 then
    let dt := wrap_signed 64 (16 - delta) in [sleep_for dt]
  else [sleep_for 2].

(** One pass of the event loop: the calls it issues and whether the
    loop goes on. *)
Definition pass (window : Z) (f : frame) : bool * list action :=
  let (should_run, polls) := process_events (polled f) true in
  (should_run,
   [now] ++ polls ++ render window (window_size f) ++ [now]
   ++ pace (elapsed f)).

(** [for(bool should_run = true; should_run;) { ... }]: [None] when
    the script ends while the loop still runs. *)
Fixpoint event_loop (window : Z) (fs : list frame) : option (list action) :=
  match fs with
  | [] => None
  | f :: rest =>
      let (should_run, calls) := pass window f in
      if should_run then
        match event_loop window rest with
        | Some later => Some (calls ++ later)
        | None => None
        end
      else Some calls
  end.

Definition context_setup (window : Z) : list action :=
  [SDL_GL_SetAttribute "SDL_GL_DOUBLEBUFFER" "1";
   SDL_GL_SetAttribute "SDL_GL_CONTEXT_PROFILE_MASK"
     "SDL_GL_CONTEXT_PROFILE_ES";
   SDL_GL_SetAttribute "SDL_GL_CONTEXT_MAJOR_VERSION" "2";
   SDL_GL_SetAttribute "SDL_GL_CONTEXT_MINOR_VERSION" "0";
   SDL_GL_CreateContext window].

Definition state_setup : list action :=
  [glDisable "GL_CULL_FACE"; glDisable "GL_ALPHA_TEST"; glDisable "GL_BLEND";
   glClearColor "0.1f" "0.1f" "0.2f" "1.0f"; glActiveTexture "GL_TEXTURE0";
   glEnableVertexAttribArray 0].

(** [main()].  The locals [_], [window] and [context] are destroyed in
    reverse order of declaration at every [return] below their
    declaration. *)
Definition main (s : script) : option (Z * list action) :=
  (* Initialize SDL subsystems. *)
  if negb (wrap_signed 32 (init_result s) =? 0) then
    Some (EXIT_FAILURE, [SDL_Init "SDL_INIT_VIDEO"])
  else
    (* Create a new window. *)
    let window := window_pointer s in
    let created :=
      [SDL_Init "SDL_INIT_VIDEO";
       SDL_CreateWindow "Main" 0 0 1280 720
         "SDL_WINDOW_BORDERLESS | SDL_WINDOW_OPENGL"] in
    if window =? nullptr then
      Some (EXIT_FAILURE,
            created ++ unique_ptr_destroy window_deleter window ++ guard)
    else
      (* Create OpenGL context. *)
      let context := context_pointer s in
      let leave :=
        unique_ptr_destroy opengl_context_deleter context
        ++ unique_ptr_destroy window_deleter window ++ guard in
      if context =? nullptr then
        Some (EXIT_FAILURE, created ++ context_setup window ++ leave)
      else
        (* Make the context current and initialize OpenGL bindings. *)
        let current :=
          created ++ context_setup window
          ++ [SDL_GL_MakeCurrent window context; glewInit] in
        if negb (wrap_unsigned 32 (glew_result s) =? GLEW_OK) then
          Some (EXIT_FAILURE, current ++ leave)
        else
          (* Set OpenGL state and run event loop. *)
          match event_loop window (frames s) with
          | Some calls =>
              Some (EXIT_SUCCESS, current ++ state_setup ++ calls ++ leave)
          | None => None
          end.

(** A quit request: [SDL_QUIT], or a key press of [q]. *)
Definition requests_quit (event : SDL_Event) : bool :=
  match type event with
  | SDL_QUIT => true
  | SDL_KEYDOWN => key_sym event =? SDLK_q
  | _ => false
  end.

Definition is_teardown (a : action) : bool :=
  match a with
  | SDL_Quit | SDL_DestroyWindow _ | SDL_GL_DeleteContext _ | print _ => true
  | _ => false
  end.

Definition is_sleep (a : action) : bool :=
  match a with sleep_for _ => true | _ => false end.

Definition is_frame_drawn (a : action) : bool :=
  match a with SDL_GL_SwapWindow _ => true | _ => false end.

(** The passes the loop makes over a script: up to and including the
    first one whose events hold a quit request. *)
Fixpoint passes_made (fs : list frame) : option nat :=
  match fs with
  | [] => None
  | f :: rest =>
      if existsb requests_quit (polled f) then Some 1%nat
      else match passes_made rest with
           | Some n => Some (S n)
           | None => None
           end
  end.

End Main.

(** * Properties *)

(** ** Integer conversions *)

Lemma to_GLsizeiptr_small (n : Z) :
  0 <= n < 2 ^ 63 -> to_GLsizeiptr n = n.
Proof.
  intros H. unfold to_GLsizeiptr, wrap_signed.
  change (2 ^ (64 - 1)) with (2 ^ 63).
  rewrite Z.mod_small; [lia | ].
  change (2 ^ 64) with (2 * 2 ^ 63). lia.
Qed.

Lemma to_GLsizeiptr_large (n : Z) :
  2 ^ 63 <= n < 2 ^ 64 -> to_GLsizeiptr n = n - 2 ^ 64.
Proof.
  intros H. unfold to_GLsizeiptr, wrap_signed.
  change (2 ^ (64 - 1)) with (2 ^ 63).
  replace (n + 2 ^ 63) with ((n - 2 ^ 63) + 1 * 2 ^ 64)
    by (change (2 ^ 64) with (2 * 2 ^ 63); lia).
  rewrite Z.mod_add by (apply Z.pow_nonzero; lia).
  rewrite Z.mod_small; change (2 ^ 64) with (2 * 2 ^ 63) in *; lia.
Qed.

Lemma to_GLsizei_small (n : Z) :
  - 2 ^ 31 <= n < 2 ^ 31 -> to_GLsizei n = n.
Proof.
  intros H. unfold to_GLsizei, wrap_signed.
  change (2 ^ (32 - 1)) with (2 ^ 31).
  rewrite Z.mod_small; [lia | ].
  change (2 ^ 32) with (2 * 2 ^ 31). lia.
Qed.

Lemma to_GLint_small (n : Z) :
  - 2 ^ 31 <= n < 2 ^ 31 -> to_GLint n = n.
Proof. exact (to_GLsizei_small n). Qed.

Lemma to_GLuint_small (n : Z) :
  0 <= n < 2 ^ 32 -> to_GLuint n = n.
Proof. intros H. unfold to_GLuint, wrap_unsigned. now apply Z.mod_small. Qed.

Lemma to_size_t_small (n : Z) :
  0 <= n < 2 ^ 64 -> to_size_t n = n.
Proof. intros H. unfold to_size_t, wrap_unsigned. now apply Z.mod_small. Qed.

(** ** Traces *)

Lemma new_events_app (st st' : gl_state) (new : list event) :
  trace st' = new ++ trace st -> new_events st st' = new.
Proof.
  intros H. unfold new_events. rewrite H, length_app.
  replace (List.length new + List.length (trace st) - List.length (trace st))%nat
    with (List.length new + 0)%nat by lia.
  rewrite firstn_app_2. simpl. apply app_nil_r.
Qed.

Lemma new_events_refl (st : gl_state) : new_events st st = [].
Proof. apply new_events_app. reflexivity. Qed.

Lemma count_calls_app (f : call -> bool) (l1 l2 : list event) :
  count_calls f (l1 ++ l2) = (count_calls f l1 + count_calls f l2)%nat.
Proof. unfold count_calls. now rewrite filter_app, length_app. Qed.

Lemma count_calls_cons (f : call -> bool) (e : event) (l : list event) :
  count_calls f (e :: l) =
    ((if f (ev_call e) then 1 else 0) + count_calls f l)%nat.
Proof. unfold count_calls. simpl. now destruct (f (ev_call e)). Qed.

Lemma calls_of_app (f : call -> bool) (l1 l2 : list event) :
  calls_of f (l1 ++ l2) = calls_of f l2 ++ calls_of f l1.
Proof. unfold calls_of. now rewrite map_app, filter_app, rev_app_distr. Qed.

Lemma calls_of_cons (f : call -> bool) (e : event) (l : list event) :
  calls_of f (e :: l) =
    calls_of f l ++ (if f (ev_call e) then [ev_call e] else []).
Proof.
  unfold calls_of. simpl. destruct (f (ev_call e)); simpl; [reflexivity | ].
  now rewrite app_nil_r.
Qed.

Lemma only_GetError_count (f : call -> bool) (l : list event) :
  only_GetError l -> f GetError = false -> count_calls f l = 0%nat.
Proof.
  intros H Hf. induction H as [| e l He _ IH]; [reflexivity | ].
  rewrite count_calls_cons, He, Hf, IH. reflexivity.
Qed.

Lemma only_GetError_calls_of (f : call -> bool) (l : list event) :
  only_GetError l -> f GetError = false -> calls_of f l = [].
Proof.
  intros H Hf. induction H as [| e l He _ IH]; [reflexivity | ].
  rewrite calls_of_cons, He, Hf, IH. reflexivity.
Qed.

Lemma only_GetError_all (l : list event) :
  only_GetError l -> count_calls is_GetError l = List.length l.
Proof.
  intros H. induction H as [| e l He _ IH]; [reflexivity | ].
  rewrite count_calls_cons, He, IH. reflexivity.
Qed.

(** ** discard_errors *)

Lemma discard_errors_loop_spec (flags : list Z) :
  forall tr, exists gets,
    snd (discard_errors_loop flags tr) = gets ++ tr /\ only_GetError gets.
Proof.
  induction flags as [| flag rest IH]; intros tr; simpl.
  - exists [{| ev_call := GetError; ev_ret := GL_NO_ERROR |}].
    split; [reflexivity | ]. repeat constructor.
  - destruct (to_GLenum flag =? GL_NO_ERROR).
    + exists [{| ev_call := GetError; ev_ret := to_GLenum flag |}].
      split; [reflexivity | ]. repeat constructor.
    + destruct (IH ({| ev_call := GetError; ev_ret := to_GLenum flag |} :: tr))
        as (gets & Hg & Ho).
      exists (gets ++ [{| ev_call := GetError; ev_ret := to_GLenum flag |}]).
      split.
      * rewrite Hg, <- app_assoc. reflexivity.
      * apply Forall_app. split; [exact Ho | repeat constructor].
Qed.

(** [discard_errors] is the [while] loop of the source: fetch a flag,
    stop when it is [GL_NO_ERROR], go round again otherwise. *)
Lemma discard_errors_unfold (st : gl_state) :
  discard_errors st =
    (let (code, st') := glGetError st in
     if code =? GL_NO_ERROR then (tt, st') else discard_errors st').
Proof.
  unfold discard_errors, glGetError.
  destruct (pending st) as [| flag rest]; simpl; [reflexivity | ].
  destruct (to_GLenum flag =? GL_NO_ERROR); reflexivity.
Qed.

(** It returns, leaves backend and bindings alone, and issues nothing
    but [glGetError]. *)
Lemma discard_errors_spec (st : gl_state) :
  exists st' gets,
    discard_errors st = (tt, st') /\
    driver st' = driver st /\ bound st' = bound st /\
    trace st' = gets ++ trace st /\ only_GetError gets.
Proof.
  unfold discard_errors.
  destruct (discard_errors_loop_spec (pending st) (trace st))
    as (gets & Hg & Ho).
  destruct (discard_errors_loop (pending st) (trace st)) as [flags tr].
  simpl in Hg. subst tr.
  eexists. exists gets. repeat split; try reflexivity. exact Ho.
Qed.

Lemma glGetError_spec (st : gl_state) :
  exists code st',
    glGetError st = (code, st') /\
    driver st' = driver st /\ bound st' = bound st /\
    trace st' = {| ev_call := GetError; ev_ret := code |} :: trace st.
Proof.
  unfold glGetError. destruct (pending st) as [| flag rest];
    do 2 eexists; repeat split.
Qed.

(** ** Handles *)

Lemma destroy_trace (k : kind) (o : object k) (st : gl_state) :
  trace (snd (destroy o st)) =
    (if handle o =? 0 then trace st
     else {| ev_call := Deleter k (handle o); ev_ret := 0 |} :: trace st).
Proof. unfold destroy. destruct (handle o =? 0); reflexivity. Qed.

Lemma destroy_driver (k : kind) (o : object k) (st : gl_state) :
  driver (snd (destroy o st)) = driver st.
Proof. unfold destroy. destruct (handle o =? 0); reflexivity. Qed.

Lemma destroy_empty (k : kind) (st : gl_state) :
  destroy (k := k) {| handle := 0 |} st = (tt, st).
Proof. reflexivity. Qed.

Lemma Deleter_is_delete (k : kind) (h : Z) : is_delete (Deleter k h) = true.
Proof. destruct k; reflexivity. Qed.

(** C1.  Destroying a handle issues its deleter once when the
    identifier is not zero and issues nothing when it is zero.  Move
    construction hands the identifier to the new object and leaves zero
    in the source, so destroying both objects, in either order, issues
    the deleter once for a non-zero identifier and never for zero. *)
Theorem handle_released_exactly_once :
  forall (k : kind) (o : object k) (st : gl_state),
    let released :=
      if handle o =? 0 then trace st
      else {| ev_call := Deleter k (handle o); ev_ret := 0 |} :: trace st in
    let fresh := fst (move_construct o) in
    let emptied := snd (move_construct o) in
    trace (snd (destroy o st)) = released /\
    count_calls is_delete (new_events st (snd (destroy o st))) =
      (if handle o =? 0 then 0%nat else 1%nat) /\
    handle fresh = handle o /\
    handle emptied = 0 /\
    trace (snd (destroy fresh (snd (destroy emptied st)))) = released /\
    trace (snd (destroy emptied (snd (destroy fresh st)))) = released.
Proof.
  intros k o st. cbv zeta.
  assert (Hd := destroy_trace k o st).
  split; [exact Hd | ]. split.
  - destruct (handle o =? 0).
    + rewrite (new_events_app st _ []); [reflexivity | exact Hd].
    + rewrite (new_events_app st _ [_] Hd).
      rewrite count_calls_cons. simpl. now rewrite Deleter_is_delete.
  - split; [reflexivity | ]. split; [reflexivity | ]. split.
    + change (snd (move_construct o)) with (@Build_object k 0).
      change (fst (move_construct o)) with (@Build_object k (handle o)).
      rewrite destroy_empty. simpl snd. destruct o as [h]. exact Hd.
    + change (snd (move_construct o)) with (@Build_object k 0).
      change (fst (move_construct o)) with (@Build_object k (handle o)).
      rewrite destroy_empty. simpl snd. destruct o as [h]. exact Hd.
Qed.

(** *** Move assignment *)

Lemma store_set_same (k : kind) (s : store k) (l : loc) (o : object k) :
  store_set s l o l = o.
Proof. unfold store_set. now rewrite Nat.eqb_refl. Qed.

Lemma store_set_other (k : kind) (s : store k) (l l' : loc) (o : object k) :
  l' <> l -> store_set s l o l' = s l'.
Proof.
  intros H. unfold store_set. apply Nat.eqb_neq in H. now rewrite H.
Qed.

(** Assigning a buffer that holds name 5 to itself keeps the name and
    issues no call at all. *)
Lemma self_move_assign_releases_nothing :
  let s : store Buffer := fun _ => {| handle := 5 |} in
  let st := Fake.fresh Fake.healthy in
  fst (move_assign 0%nat 0%nat 1%nat s st) 0%nat = {| handle := 5 |} /\
  trace (snd (move_assign 0%nat 0%nat 1%nat s st)) = [] /\
  ~ releases_previous_once 0%nat 0%nat 1%nat s st.
Proof.
  cbv zeta. split; [reflexivity | ]. split; [reflexivity | ].
  unfold releases_previous_once. cbv zeta. intros [_ H].
  vm_compute in H. discriminate H.
Qed.

(** C5, as the code has it.  With the parameter of [operator=] placed
    at an address [tmp] other than the operands: the target ends up
    with the identifier of the source; when the operands are distinct
    objects the source is left with zero and the previous identifier of
    the target is released exactly once if it is not zero; when they
    are the same object the identifier is kept and no call is issued.
    No other object changes, and every identifier an operand held is
    afterwards held by an operand or has been released. *)
Theorem move_assign_swaps_and_releases :
  forall (k : kind) (a b tmp : loc) (s : store k) (st : gl_state),
    tmp <> a -> tmp <> b ->
    let r := move_assign a b tmp s st in
    handle (fst r a) = handle (s b) /\
    handle (fst r b) = (if Nat.eqb a b then handle (s b) else 0) /\
    trace (snd r) =
      (if Nat.eqb a b || (handle (s a) =? 0) then trace st
       else {| ev_call := Deleter k (handle (s a)); ev_ret := 0 |}
              :: trace st) /\
    (forall l : loc, l <> a -> l <> b -> l <> tmp -> fst r l = s l) /\
    (forall id : Z,
       id <> 0 -> handle (s a) = id \/ handle (s b) = id ->
       handle (fst r a) = id \/ handle (fst r b) = id \/
       In {| ev_call := Deleter k id; ev_ret := 0 |}
         (new_events st (snd r))).
Proof.
  intros k a b tmp s st Ha Hb. cbv zeta.
  assert (Hmain :
    handle (fst (move_assign a b tmp s st) a) = handle (s b) /\
    handle (fst (move_assign a b tmp s st) b)
      = (if Nat.eqb a b then handle (s b) else 0) /\
    trace (snd (move_assign a b tmp s st)) =
      (if Nat.eqb a b || (handle (s a) =? 0) then trace st
       else {| ev_call := Deleter k (handle (s a)); ev_ret := 0 |}
              :: trace st) /\
    (forall l : loc, l <> a -> l <> b -> l <> tmp ->
       fst (move_assign a b tmp s st) l = s l));
    [ | destruct Hmain as (HA & HB & HT & HO);
        repeat (split; [assumption | ]);
        intros id Hid Hheld; rewrite HA;
        destruct (Nat.eqb_spec a b) as [Heq | Hne];
        [ subst b; left; tauto | ];
        destruct Hheld as [Hheld | Hheld]; [ | left; exact Hheld];
        right; right;
        assert (Hnz : (handle (s a) =? 0) = false)
          by (apply Z.eqb_neq; congruence);
        rewrite Hnz in HT; simpl orb in HT;
        rewrite (new_events_app st _ [_] HT), Hheld; left; reflexivity ].
  unfold move_assign, bind, ret, destroy_at, swap_handles, move_construct_at,
    move_construct.
  destruct (destroy _ st) as [[] st'] eqn:Hdes. simpl fst. simpl snd.
  assert (Htr := destroy_trace k
            (store_set
               (store_set (store_set (store_set s b {| handle := 0 |}) tmp
                  {| handle := handle (s b) |}) a
                  {| handle :=
                       handle
                         (store_set (store_set s b {| handle := 0 |}) tmp
                            {| handle := handle (s b) |} tmp) |}) tmp
               {| handle :=
                    handle
                      (store_set (store_set s b {| handle := 0 |}) tmp
                         {| handle := handle (s b) |} a) |} tmp) st).
  rewrite Hdes in Htr. simpl snd in Htr.
  rewrite !store_set_same in Htr. rewrite !store_set_same.
  assert (Hat : a <> tmp) by congruence.
  assert (Hbt : b <> tmp) by congruence.
  rewrite (store_set_other k _ tmp a _ Hat) in Htr.
  rewrite (store_set_other k _ tmp a _ Hat).
  rewrite store_set_same.
  rewrite (store_set_other k _ tmp b _ Hbt).
  destruct (Nat.eqb_spec a b) as [Heq | Hne].
  - subst b. rewrite !store_set_same in *. simpl in Htr. simpl.
    repeat split; try assumption.
    intros l Hl _ Hlt.
    now rewrite !store_set_other by assumption.
  - assert (Hab : a <> b) by assumption.
    assert (Hba : b <> a) by congruence.
    rewrite (store_set_other k _ b a _ Hab) in Htr.
    rewrite (store_set_other k _ a b _ Hba).
    rewrite (store_set_other k _ tmp b _ Hbt).
    rewrite store_set_same. simpl orb.
    repeat split; try assumption; try reflexivity.
    intros l Hl Hlb Hlt.
    now rewrite !store_set_other by assumption.
Qed.

Lemma move_assign_swaps_and_releases_witness :
  let s : store Texture :=
    fun l => {| handle := Z.of_nat l + 10 |} in
  let r := move_assign 0%nat 1%nat 2%nat s (Fake.fresh Fake.healthy) in
  handle (fst r 0%nat) = 11 /\
  handle (fst r 1%nat) = 0 /\
  trace (snd r) = [{| ev_call := DeleteTextures 1 10; ev_ret := 0 |}] /\
  (forall l : loc, l <> 0%nat -> l <> 1%nat -> l <> 2%nat -> fst r l = s l) /\
  (forall id : Z,
     id <> 0 -> handle (s 0%nat) = id \/ handle (s 1%nat) = id ->
     handle (fst r 0%nat) = id \/ handle (fst r 1%nat) = id \/
     In {| ev_call := Deleter Texture id; ev_ret := 0 |}
       (new_events (Fake.fresh Fake.healthy) (snd r))).
Proof.
  exact (move_assign_swaps_and_releases Texture 0%nat 1%nat 2%nat
           (fun l => {| handle := Z.of_nat l + 10 |})
           (Fake.fresh Fake.healthy)
           (fun H => Nat.neq_succ_0 1 H) (fun H => Nat.neq_succ_diag_l 1 H)).
Defined.

(** ** Running the initialization functions step by step *)

Ltac run_discard st :=
  let st' := fresh "st" in
  let gets := fresh "gets" in
  let Hrun := fresh "Hrun" in
  let Hdrv := fresh "Hdrv" in
  let Hbnd := fresh "Hbnd" in
  let Htr := fresh "Htr" in
  let Hgets := fresh "Hgets" in
  destruct (discard_errors_spec st)
    as (st' & gets & Hrun & Hdrv & Hbnd & Htr & Hgets);
  rewrite Hrun; clear Hrun; cbv beta iota.

Ltac run_get :=
  match goal with
  | |- context [glGetError ?st] =>
      let code := fresh "code" in
      let st' := fresh "st" in
      let Hrun := fresh "Hrun" in
      let Hdrv := fresh "Hdrv" in
      let Hbnd := fresh "Hbnd" in
      let Htr := fresh "Htr" in
      destruct (glGetError_spec st)
        as (code & st' & Hrun & Hdrv & Hbnd & Htr);
      rewrite Hrun; clear Hrun; cbv beta iota
  end.

(** ** Buffer: the size check *)

Lemma buffer_size_check (n : Z) :
  0 <= n < 2 ^ 64 ->
  (to_GLsizeiptr n <=? 0) || negb (to_size_t (to_GLsizeiptr n) =? n) =
    (n =? 0) || (2 ^ 63 <=? n).
Proof.
  intros H. destruct (Z.leb_spec (2 ^ 63) n) as [Hbig | Hsmall].
  - rewrite to_GLsizeiptr_large by lia.
    replace (n - 2 ^ 64 <=? 0) with true by (symmetry; apply Z.leb_le; lia).
    now rewrite orb_true_r.
  - rewrite to_GLsizeiptr_small by lia.
    rewrite to_size_t_small by lia.
    rewrite Z.eqb_refl. simpl negb. rewrite !orb_false_r.
    destruct (Z.eqb_spec n 0) as [-> | Hn]; [reflexivity | ].
    apply Z.leb_gt. lia.
Qed.

(** A rejected size ends the call right after [discard_errors]. *)
Lemma initialize_buffer_rejected (p : Kernel.buffer_parameters)
    (st : gl_state) :
  (sp_size (Kernel.bytes p) =? 0) || (2 ^ 63 <=? sp_size (Kernel.bytes p))
    = true ->
  0 <= sp_size (Kernel.bytes p) < 2 ^ 64 ->
  Kernel.initialize_buffer p st =
    (unexpected {| line := 125; code := 0 |}, snd (discard_errors st)).
Proof.
  intros Hrej Hn. unfold Kernel.initialize_buffer, bind.
  destruct (discard_errors st) as [[] st1]. 
  rewrite buffer_size_check by exact Hn. rewrite Hrej. reflexivity.
Qed.

Lemma rejected_buffer_issues_only_GetError (p : Kernel.buffer_parameters)
    (st : gl_state) :
  (sp_size (Kernel.bytes p) =? 0) || (2 ^ 63 <=? sp_size (Kernel.bytes p))
    = true ->
  0 <= sp_size (Kernel.bytes p) < 2 ^ 64 ->
  let r := Kernel.initialize_buffer p st in
  fst r = unexpected {| line := 125; code := 0 |} /\
  count_calls is_GenBuffers (new_events st (snd r)) = 0%nat /\
  count_calls is_GetError (new_events st (snd r)) =
    List.length (new_events st (snd r)) /\
  bound (snd r) = bound st.
Proof.
  intros Hrej Hn. cbv zeta.
  rewrite (initialize_buffer_rejected p st Hrej Hn). simpl fst. simpl snd.
  destruct (discard_errors_spec st)
    as (st1 & gets & Hrun & _ & Hbnd & Htr & Hgets).
  rewrite Hrun. simpl snd.
  rewrite (new_events_app st st1 gets Htr).
  split; [reflexivity | ]. split.
  - now apply only_GetError_count.
  - split; [now apply only_GetError_all | exact Hbnd].
Qed.

(** C6.  A byte span whose length does not fit [GLsizeiptr] (a
    [size_t] of 2^63 or more) makes buffer initialization return the
    local failure with code 0; the call issues no [glGenBuffers], only
    the [glGetError] calls of [discard_errors], and leaves the bindings
    as they were. *)
Theorem oversized_span_rejected_locally :
  forall (p : Kernel.buffer_parameters) (st : gl_state),
    2 ^ 63 <= sp_size (Kernel.bytes p) < 2 ^ 64 ->
    let r := Kernel.initialize_buffer p st in
    fst r = unexpected {| line := 125; code := 0 |} /\
    count_calls is_GenBuffers (new_events st (snd r)) = 0%nat /\
    count_calls is_GetError (new_events st (snd r)) =
      List.length (new_events st (snd r)) /\
    bound (snd r) = bound st.
Proof.
  intros p st H. apply rejected_buffer_issues_only_GetError; [ | lia].
  apply orb_true_iff. right. apply Z.leb_le. lia.
Qed.

Lemma oversized_span_rejected_locally_witness :
  let p := {| Kernel.buffer_type := 0x8892; Kernel.usage := 0x88E4;
              Kernel.bytes := {| sp_data := 4096; sp_size := 2 ^ 63 |} |} in
  let st := Fake.fresh Fake.healthy in
  let r := Kernel.initialize_buffer p st in
  fst r = unexpected {| line := 125; code := 0 |} /\
  count_calls is_GenBuffers (new_events st (snd r)) = 0%nat /\
  count_calls is_GetError (new_events st (snd r)) =
    List.length (new_events st (snd r)) /\
  bound (snd r) = bound st.
Proof.
  apply (oversized_span_rejected_locally
           {| Kernel.buffer_type := 0x8892; Kernel.usage := 0x88E4;
              Kernel.bytes := {| sp_data := 4096; sp_size := 2 ^ 63 |} |}
           (Fake.fresh Fake.healthy)).
  simpl. lia.
Defined.

(** C10.  An empty byte span is rejected the same way: local failure
    with code 0, no [glGenBuffers], although length 0 fits
    [GLsizeiptr]. *)
Theorem empty_span_rejected_locally :
  forall (p : Kernel.buffer_parameters) (st : gl_state),
    sp_size (Kernel.bytes p) = 0 ->
    let r := Kernel.initialize_buffer p st in
    to_size_t (to_GLsizeiptr (sp_size (Kernel.bytes p))) =
      sp_size (Kernel.bytes p) /\
    fst r = unexpected {| line := 125; code := 0 |} /\
    count_calls is_GenBuffers (new_events st (snd r)) = 0%nat /\
    count_calls is_GetError (new_events st (snd r)) =
      List.length (new_events st (snd r)) /\
    bound (snd r) = bound st.
Proof.
  intros p st H. cbv zeta. split; [now rewrite H | ].
  apply rejected_buffer_issues_only_GetError; rewrite H; [reflexivity | lia].
Qed.

Lemma empty_span_rejected_locally_witness :
  let p := {| Kernel.buffer_type := 0x8892; Kernel.usage := 0x88E4;
              Kernel.bytes := {| sp_data := 4096; sp_size := 0 |} |} in
  let st := Fake.fresh Fake.healthy in
  let r := Kernel.initialize_buffer p st in
  to_size_t (to_GLsizeiptr 0) = 0 /\
  fst r = unexpected {| line := 125; code := 0 |} /\
  count_calls is_GenBuffers (new_events st (snd r)) = 0%nat /\
  count_calls is_GetError (new_events st (snd r)) =
    List.length (new_events st (snd r)) /\
  bound (snd r) = bound st.
Proof.
  apply (empty_span_rejected_locally
           {| Kernel.buffer_type := 0x8892; Kernel.usage := 0x88E4;
              Kernel.bytes := {| sp_data := 4096; sp_size := 0 |} |}
           (Fake.fresh Fake.healthy)).
  reflexivity.
Defined.

(** ** Texture: the mipmap chain *)

Lemma only_calls_count (f g : call -> bool) (l : list event) :
  only_calls f l -> (forall c, f c = true -> g c = false) ->
  count_calls g l = 0%nat.
Proof.
  intros H Hfg. induction H as [| e l He _ IH]; [reflexivity | ].
  rewrite count_calls_cons, (Hfg _ He), IH. reflexivity.
Qed.

Lemma only_calls_calls_of (f g : call -> bool) (l : list event) :
  only_calls f l -> (forall c, f c = true -> g c = false) ->
  calls_of g l = [].
Proof.
  intros H Hfg. induction H as [| e l He _ IH]; [reflexivity | ].
  rewrite calls_of_cons, (Hfg _ He), IH. reflexivity.
Qed.

Lemma validated_check (p : Kernel.texture_parameters) :
  validated p ->
  ((Kernel.width p <=? 0) || (Kernel.width p >=? 16384)) ||
  ((Kernel.height p <=? 0) || (Kernel.height p >=? 16384)) ||
  ((Kernel.mipmap_count p <=? 0) || (Kernel.mipmap_count p >=? 16384))
  = false.
Proof.
  intros (Hw & Hh & Hc).
  repeat (apply orb_false_iff; split);
    try (apply Z.leb_gt; lia); rewrite Z.geb_leb; apply Z.leb_gt; lia.
Qed.

Lemma level_size_exact (p : Kernel.texture_parameters) :
  1 <= Kernel.width p <= 16383 -> 1 <= Kernel.height p <= 16383 ->
  Kernel.level_size p = Kernel.width p * Kernel.height p * 4 /\
  4 <= Kernel.level_size p < 2 ^ 31.
Proof.
  intros Hw Hh. unfold Kernel.level_size.
  assert (Hprod : 1 <= Kernel.width p * Kernel.height p <= 16383 * 16383)
    by nia.
  change (2 ^ 31) with 2147483648.
  rewrite (to_GLsizei_small (Kernel.width p * Kernel.height p))
    by (change (2 ^ 31) with 2147483648; lia).
  rewrite to_GLsizei_small by (change (2 ^ 31) with 2147483648; lia).
  lia.
Qed.

Lemma level_pixel_data_exact (p : Kernel.texture_parameters) :
  1 <= Kernel.width p <= 16383 -> 1 <= Kernel.height p <= 16383 ->
  Kernel.level_pixel_data p =
    (if sp_size (Kernel.pixels p)
          <? Kernel.width p * Kernel.height p * 4
     then nullptr else sp_data (Kernel.pixels p)).
Proof.
  intros Hw Hh. unfold Kernel.level_pixel_data.
  destruct (level_size_exact p Hw Hh) as [Hs Hb].
  change (2 ^ 31) with 2147483648 in Hb.
  rewrite to_GLuint_small by (change (2 ^ 32) with 4294967296; lia).
  rewrite to_size_t_small
    by (change (2 ^ 64) with 18446744073709551616; lia).
  rewrite Hs, Z.gtb_ltb. reflexivity.
Qed.

Lemma halve_bounds (n : Z) :
  1 <= n <= 16383 -> 1 <= MipChain.halve n <= 16383.
Proof.
  intros H. unfold MipChain.halve.
  assert (n / 2 <= n) by (apply Z.div_le_upper_bound; lia). lia.
Qed.

Lemma next_level_exact (p : Kernel.texture_parameters) :
  1 <= Kernel.width p <= 16383 -> 1 <= Kernel.height p <= 16383 ->
  Kernel.next_level p =
    {| Kernel.width := MipChain.halve (Kernel.width p);
       Kernel.height := MipChain.halve (Kernel.height p);
       Kernel.mipmap_count := Kernel.mipmap_count p;
       Kernel.pixels :=
         subspan (Kernel.pixels p)
           (Z.min (Kernel.width p * Kernel.height p * 4)
              (sp_size (Kernel.pixels p))) |}.
Proof.
  intros Hw Hh. unfold Kernel.next_level, MipChain.halve.
  destruct (level_size_exact p Hw Hh) as [Hs Hb].
  change (2 ^ 31) with 2147483648 in Hb.
  rewrite to_size_t_small
    by (change (2 ^ 64) with 18446744073709551616; lia).
  rewrite Hs, !Z.quot_div_nonneg by lia.
  now rewrite Z.min_comm.
Qed.

Lemma specify_levels_S (fuel : nat) (i : Z)
    (p : Kernel.texture_parameters) :
  Kernel.specify_levels (S fuel) i p =
    (if negb (i =? Kernel.mipmap_count p) then
       gl_void (TexImage2D GL_TEXTURE_2D i GL_RGBA8 (Kernel.width p)
                  (Kernel.height p) 0 GL_RGBA GL_UNSIGNED_BYTE
                  (Kernel.level_pixel_data p)) ;;
       code <- glGetError ;;
       if negb (code =? GL_NO_ERROR) then
         ret (Some (Some {| line := 245; code := code |}))
       else
         Kernel.specify_levels fuel (to_GLint (i + 1)) (Kernel.next_level p)
     else ret (Some None)).
Proof. reflexivity. Qed.

(** The loop returns within [S n] rounds when [n] levels are left, and
    its [glTexImage2D] calls are the first [k] levels of the chain the
    specification describes: all of them unless a level reported an
    error. *)
Lemma specify_levels_spec (n : nat) :
  forall (i : Z) (p : Kernel.texture_parameters) (st : gl_state),
    0 <= i -> Kernel.mipmap_count p = i + Z.of_nat n ->
    Kernel.mipmap_count p <= 16383 ->
    1 <= Kernel.width p <= 16383 -> 1 <= Kernel.height p <= 16383 ->
    exists outcome st' new k,
      Kernel.specify_levels (S n) i p st = (Some outcome, st') /\
      driver st' = driver st /\ bound st' = bound st /\
      trace st' = new ++ trace st /\
      only_calls upload_or_GetError new /\
      (k <= n)%nat /\
      calls_of is_TexImage2D new =
        map MipChain.upload
          (firstn k (MipChain.chain n i (Kernel.width p) (Kernel.height p)
                       (Kernel.pixels p))) /\
      match outcome with
      | None => k = n
      | Some e => line e = 245 /\ code e <> 0
      end.
Proof.
  induction n as [| n IH]; intros i p st Hi Hcount Hmax Hw Hh.
  - exists None, st, [], 0%nat. simpl.
    replace (i =? Kernel.mipmap_count p) with true
      by (symmetry; apply Z.eqb_eq; lia).
    simpl. repeat split; constructor.
  - rewrite specify_levels_S.
    replace (i =? Kernel.mipmap_count p) with false
      by (symmetry; apply Z.eqb_neq; lia).
    change (negb false) with true. cbv iota.
    unfold bind, gl_void. cbv beta iota.
    rewrite (level_pixel_data_exact p Hw Hh).
    set (st1 := issue _ 0 st).
    destruct (glGetError_spec st1) as (c & st2 & Hrun & Hdrv & Hbnd & Htr).
    rewrite Hrun. cbv beta iota.
    set (lv := {| MipChain.lv_index := i;
                  MipChain.lv_width := Kernel.width p;
                  MipChain.lv_height := Kernel.height p;
                  MipChain.lv_size := Kernel.width p * Kernel.height p * 4;
                  MipChain.lv_remaining := sp_size (Kernel.pixels p);
                  MipChain.lv_data :=
                    if sp_size (Kernel.pixels p)
                         <? Kernel.width p * Kernel.height p * 4
                    then nullptr else sp_data (Kernel.pixels p) |}).
    destruct (Z.eqb_spec c GL_NO_ERROR) as [Hc | Hc];
      [change (negb true) with false | change (negb false) with true];
      cbv iota.
    + rewrite to_GLint_small by (change (2 ^ 31) with 2147483648; lia).
      rewrite (next_level_exact p Hw Hh).
      match goal with
      | |- context [Kernel.specify_levels (S n) (i + 1) ?q st2] =>
          destruct (IH (i + 1) q st2) as
            (outcome & st' & new & k & Hloop & Hdrv' & Hbnd' & Htr' & Honly
               & Hk & Hcalls & Hout);
            [lia | simpl; lia | simpl; lia
            | simpl; now apply halve_bounds
            | simpl; now apply halve_bounds | ];
            rewrite Hloop
      end.
      exists outcome, st',
        (new ++ [{| ev_call := GetError; ev_ret := c |};
                 {| ev_call := MipChain.upload lv; ev_ret := 0 |}]),
        (S k).
      split; [reflexivity | ].
      split; [now rewrite Hdrv', Hdrv | ].
      split; [now rewrite Hbnd', Hbnd | ].
      split; [rewrite Htr', Htr, <- app_assoc; reflexivity | ].
      split; [apply Forall_app; split; [exact Honly | repeat constructor] | ].
      split; [lia | ].
      split.
      * rewrite calls_of_app, Hcalls. reflexivity.
      * destruct outcome; [exact Hout | lia].
    + exists (Some {| line := 245; code := c |}), st2,
        [{| ev_call := GetError; ev_ret := c |};
         {| ev_call := MipChain.upload lv; ev_ret := 0 |}],
        1%nat.
      split; [reflexivity | ].
      split; [now rewrite Hdrv | ].
      split; [now rewrite Hbnd | ].
      split; [rewrite Htr; reflexivity | ].
      split; [repeat constructor | ].
      split; [lia | ].
      split; [reflexivity | ].
      split; [reflexivity | exact Hc].
Qed.

(** ** One step of a run *)

Lemma gl_void_spec (c : call) (st : gl_state) :
  exists st',
    gl_void c st = (tt, st') /\
    driver st' = driver st /\ bound st' = rebind c (bound st) /\
    trace st' = {| ev_call := c; ev_ret := 0 |} :: trace st.
Proof. eexists. repeat split. Qed.

Lemma gl_value_spec (conv : Z -> Z) (c : call) (st : gl_state) :
  exists r st',
    gl_value conv c st = (r, st') /\
    driver st' = driver st /\ bound st' = rebind c (bound st) /\
    trace st' = {| ev_call := c; ev_ret := r |} :: trace st.
Proof. do 2 eexists. repeat split. Qed.

Lemma unbind_deleted_keeps_unbound (f : binding_point -> bool) (id : Z)
    (b : bindings) (bp : binding_point) :
  b bp = 0 -> unbind_deleted f id b bp = 0.
Proof.
  intros H. unfold unbind_deleted.
  now destruct (f bp && (b bp =? id)).
Qed.

Lemma Deleter_keeps_unbound (k : kind) (h : Z) (b : bindings)
    (bp : binding_point) :
  b bp = 0 -> rebind (Deleter k h) b bp = 0.
Proof.
  intros H. destruct k; simpl; try exact H;
    now apply unbind_deleted_keeps_unbound.
Qed.

Lemma destroy_spec (k : kind) (o : object k) (st : gl_state) :
  exists st' dels,
    destroy o st = (tt, st') /\
    driver st' = driver st /\
    (forall bp, bound st bp = 0 -> bound st' bp = 0) /\
    trace st' = dels ++ trace st /\
    dels = (if handle o =? 0 then []
            else [{| ev_call := Deleter k (handle o); ev_ret := 0 |}]).
Proof.
  unfold destroy. destruct (handle o =? 0); simpl.
  - exists st, []. repeat split. auto.
  - exists (issue (Deleter k (handle o)) 0 st),
      [{| ev_call := Deleter k (handle o); ev_ret := 0 |}].
    repeat split.
    intros bp H. simpl. now apply Deleter_keeps_unbound.
Qed.

Lemma calls_of_deleted (f : call -> bool) (k : kind) (h : Z) :
  (forall c, is_delete c = true -> f c = false) ->
  calls_of f (if h =? 0 then []
              else [{| ev_call := Deleter k h; ev_ret := 0 |}]) = [].
Proof.
  intros Hf. destruct (h =? 0); [reflexivity | ].
  unfold calls_of. simpl. now rewrite (Hf _ (Deleter_is_delete k h)).
Qed.

Lemma count_calls_deleted (f : call -> bool) (k : kind) (h : Z) :
  (forall c, is_delete c = true -> f c = false) ->
  count_calls f (if h =? 0 then []
                 else [{| ev_call := Deleter k h; ev_ret := 0 |}]) = 0%nat.
Proof.
  intros Hf. destruct (h =? 0); [reflexivity | ].
  unfold count_calls. simpl. now rewrite (Hf _ (Deleter_is_delete k h)).
Qed.

Ltac run_void :=
  match goal with
  | |- context [gl_void ?c ?st] =>
      let st' := fresh "st" in
      let Hrun := fresh "Hrun" in
      let Hdrv := fresh "Hdrv" in
      let Hbnd := fresh "Hbnd" in
      let Htr := fresh "Htr" in
      destruct (gl_void_spec c st) as (st' & Hrun & Hdrv & Hbnd & Htr);
      rewrite Hrun; clear Hrun; cbv beta iota
  end.

Ltac run_value :=
  match goal with
  | |- context [gl_value ?conv ?c ?st] =>
      let r := fresh "r" in
      let st' := fresh "st" in
      let Hrun := fresh "Hrun" in
      let Hdrv := fresh "Hdrv" in
      let Hbnd := fresh "Hbnd" in
      let Htr := fresh "Htr" in
      destruct (gl_value_spec conv c st)
        as (r & st' & Hrun & Hdrv & Hbnd & Htr);
      rewrite Hrun; clear Hrun; cbv beta iota
  end.

Ltac run_destroy :=
  match goal with
  | |- context [@destroy ?k ?o ?st] =>
      let st' := fresh "st" in
      let dels := fresh "dels" in
      let Hrun := fresh "Hrun" in
      let Hdrv := fresh "Hdrv" in
      let Hbnd := fresh "Hunb" in
      let Htr := fresh "Htr" in
      let Hdels := fresh "Hdels" in
      destruct (destroy_spec k o st)
        as (st' & dels & Hrun & Hdrv & Hbnd & Htr & Hdels);
      rewrite Hrun; clear Hrun; cbv beta iota
  end.

Ltac run_if :=
  match goal with
  | |- context [if negb (?a =? ?b) then _ else _] =>
      let H := fresh "Hcmp" in
      destruct (Z.eqb_spec a b) as [H | H];
      [change (negb true) with false | change (negb false) with true];
      cbv beta iota
  | |- context [if ?a =? ?b then _ else _] =>
      let H := fresh "Hcmp" in
      destruct (Z.eqb_spec a b) as [H | H]; cbv beta iota
  end.

(** Rewrite the trace of every intermediate state down to the trace of
    the initial one. *)
Ltac expand_trace :=
  repeat match goal with
         | H : trace ?s = _ |- context [trace ?s] => rewrite H
         end.

Ltac prefix_of t tl :=
  lazymatch t with
  | tl => constr:(@nil event)
  | ?a :: ?r => let p := prefix_of r tl in constr:(a :: p)
  | ?l ++ ?r => let p := prefix_of r tl in constr:(l ++ p)
  end.

(** Replace [new_events st st'] in the goal by the events the run
    issued. *)
Ltac name_new_events st st' :=
  let E := fresh "Etrace" in
  let N := fresh "Hnew" in
  eassert (E : trace st' = _) by (expand_trace; reflexivity);
  lazymatch type of E with
  | _ = ?t =>
      let p := prefix_of t (trace st) in
      assert (N : new_events st st' = p)
        by (apply new_events_app; rewrite E;
            repeat (rewrite <- app_assoc || rewrite <- app_comm_cons);
            reflexivity);
      rewrite N; clear E
  end.

(** ** Binding restoration *)

Lemma binding_point_eqb_refl (bp : binding_point) :
  binding_point_eqb bp bp = true.
Proof. destruct bp; simpl; apply Z.eqb_refl. Qed.

Lemma bind_to_same (bp : binding_point) (id : Z) (b : bindings) :
  bind_to bp id b bp = id.
Proof. unfold bind_to. now rewrite binding_point_eqb_refl. Qed.

Ltac simp_calls :=
  subst;
  repeat (rewrite calls_of_app || rewrite calls_of_cons
          || rewrite count_calls_app || rewrite count_calls_cons);
  repeat match goal with
         | H : only_GetError ?g |- context [calls_of ?f ?g] =>
             rewrite (only_GetError_calls_of f g H) by reflexivity
         | H : only_GetError ?g |- context [count_calls ?f ?g] =>
             rewrite (only_GetError_count f g H) by reflexivity
         | |- context [calls_of ?f (if ?h =? 0 then [] else _)] =>
             rewrite (calls_of_deleted f)
               by (intros [] ?; (discriminate || reflexivity))
         | |- context [count_calls ?f (if ?h =? 0 then [] else _)] =>
             rewrite (count_calls_deleted f)
               by (intros [] ?; (discriminate || reflexivity))
         end;
  cbn [ev_call ev_ret Deleter app is_BindBuffer is_BindTexture
         is_BindFramebuffer
         is_GetError is_GenBuffers is_GenFramebuffers is_CreateShader
         is_CompileShader is_DeleteShader is_DeleteProgram is_TexImage2D
         is_delete Nat.add];
  change (@calls_of) with (fun f tr => rev (filter f (map ev_call tr)));
  cbv beta; cbn [map filter rev app];
  repeat rewrite app_nil_r; cbn [app].

Ltac name_new :=
  match goal with
  | |- context [new_events ?a ?b] => name_new_events a b
  end.

Ltac solve_unbound :=
  repeat match goal with
         | H : forall bp, bound ?s bp = 0 -> bound ?s' bp = 0
           |- bound ?s' _ = 0 => apply H
         | H : bound ?s' = _ |- bound ?s' _ = 0 => rewrite H
         end;
  simpl; apply bind_to_same.

Lemma buffer_unbound_on_return (p : Kernel.buffer_parameters)
    (st : gl_state) :
  let r := Kernel.initialize_buffer p st in
  binding_outcome (BufferBinding (Kernel.buffer_type p)) is_BindBuffer
    (BindBuffer (Kernel.buffer_type p)) (buffer_bind_reached (fst r))
    st (snd r).
Proof.
  cbv zeta. unfold Kernel.initialize_buffer, Kernel.buffer_guard, bind, ret.
  run_discard st.
  destruct (_ || _).
  - simpl. name_new. simp_calls. reflexivity.
  - run_value. run_get. run_if.
    + run_void. run_void. run_get. run_if.
      * unfold move_construct. run_void. run_destroy.
        simpl. split; [solve_unbound | ].
        exists (to_name (object_new Buffer r)).
        name_new. simp_calls. reflexivity.
      * run_void. run_destroy. simpl. split; [solve_unbound | ].
        exists (to_name (object_new Buffer r)).
        name_new. simp_calls. reflexivity.
    + run_destroy. simpl. name_new. simp_calls. reflexivity.
Qed.

Lemma not_rejected_validated (p : Kernel.texture_parameters) :
  ((Kernel.width p <=? 0) || (Kernel.width p >=? 16384)) ||
  ((Kernel.height p <=? 0) || (Kernel.height p >=? 16384)) ||
  ((Kernel.mipmap_count p <=? 0) || (Kernel.mipmap_count p >=? 16384))
  = false -> validated p.
Proof.
  intros H. repeat (apply orb_false_iff in H; destruct H as [H ?]).
  repeat match goal with
         | H : (_ >=? _) = false |- _ => rewrite Z.geb_leb in H
         | H : (_ <=? _) = false |- _ => apply Z.leb_gt in H
         | H : _ || _ = false |- _ =>
             apply orb_false_iff in H; destruct H
         end.
  unfold validated. lia.
Qed.

(** What [initialize(texture_parameters)] does on validated
    parameters: it returns, it restores the binding on the exits after
    its bind, and its [glTexImage2D] calls are the first [k] levels of
    the chain, all of them when it succeeds. *)
Lemma initialize_texture_spec (p : Kernel.texture_parameters)
    (st : gl_state) :
  validated p ->
  exists r st' k,
    Kernel.initialize_texture p st = (Some r, st') /\
    binding_outcome (TextureBinding GL_TEXTURE_2D) is_BindTexture
      (BindTexture GL_TEXTURE_2D) (texture_bind_reached r) st st' /\
    (k <= Z.to_nat (Kernel.mipmap_count p))%nat /\
    calls_of is_TexImage2D (new_events st st') =
      map MipChain.upload
        (firstn k
           (MipChain.chain (Z.to_nat (Kernel.mipmap_count p)) 0
              (Kernel.width p) (Kernel.height p) (Kernel.pixels p))) /\
    (is_value r = true -> k = Z.to_nat (Kernel.mipmap_count p)).
Proof.
  intros Hv. unfold Kernel.initialize_texture, Kernel.texture_guard, bind, ret.
  run_discard st. rewrite (validated_check p Hv).
  run_value. run_get. run_if.
  - run_void. run_get. run_if.
    + destruct Hv as (Hw & Hh & Hc).
      destruct (specify_levels_spec (Z.to_nat (Kernel.mipmap_count p)) 0 p
                  st4)
        as (outcome & st5 & new & k & Hloop & Hdrv5 & Hbnd5 & Htr5 & Honly
              & Hk & Hcalls & Hout); try lia.
      rewrite Hloop. cbv beta iota.
      assert (Hnb : calls_of is_BindTexture new = [])
        by (apply (only_calls_calls_of _ _ _ Honly);
            intros [] ?; (discriminate || reflexivity)).
      destruct outcome as [e | ].
      * run_void. run_destroy.
        do 2 eexists. exists k. split; [reflexivity | ].
        destruct Hout as [Hline _]. unfold texture_bind_reached.
        rewrite Hline. simpl. split; [ | split; [exact Hk | split]].
        -- split; [solve_unbound | ].
           exists (to_name (object_new Texture r)).
           name_new. simp_calls. fold (calls_of is_BindTexture new).
           rewrite Hnb. reflexivity.
        -- name_new. simp_calls. fold (calls_of is_TexImage2D new). rewrite Hcalls. reflexivity.
        -- discriminate.
      * unfold move_construct. run_void. run_destroy.
        do 2 eexists. exists k. split; [reflexivity | ].
        simpl. split; [ | split; [exact Hk | split]].
        -- split; [solve_unbound | ].
           exists (to_name (object_new Texture r)).
           name_new. simp_calls. fold (calls_of is_BindTexture new).
           rewrite Hnb. reflexivity.
        -- name_new. simp_calls. fold (calls_of is_TexImage2D new). rewrite Hcalls. reflexivity.
        -- intros _. exact Hout.
    + run_void. run_destroy.
      do 2 eexists. exists 0%nat. split; [reflexivity | ].
      simpl. split; [ | split; [lia | split]].
      * split; [solve_unbound | ].
        exists (to_name (object_new Texture r)).
        name_new. simp_calls. reflexivity.
      * name_new. simp_calls. reflexivity.
      * discriminate.
  - run_destroy.
    do 2 eexists. exists 0%nat. split; [reflexivity | ].
    simpl. split; [ | split; [lia | split]].
    + name_new. simp_calls. reflexivity.
    + name_new. simp_calls. reflexivity.
    + discriminate.
Qed.

Lemma texture_unbound_on_return (p : Kernel.texture_parameters)
    (st : gl_state) :
  exists r st',
    Kernel.initialize_texture p st = (Some r, st') /\
    binding_outcome (TextureBinding GL_TEXTURE_2D) is_BindTexture
      (BindTexture GL_TEXTURE_2D) (texture_bind_reached r) st st'.
Proof.
  destruct (((Kernel.width p <=? 0) || (Kernel.width p >=? 16384)) ||
            ((Kernel.height p <=? 0) || (Kernel.height p >=? 16384)) ||
            ((Kernel.mipmap_count p <=? 0) ||
             (Kernel.mipmap_count p >=? 16384))) eqn:Hcheck.
  - unfold Kernel.initialize_texture, bind, ret.
    run_discard st. rewrite Hcheck.
    do 2 eexists. split; [reflexivity | ].
    simpl. name_new. simp_calls. reflexivity.
  - destruct (initialize_texture_spec p st (not_rejected_validated p Hcheck))
      as (r & st' & k & Hrun & Hbind & _).
    exists r, st'. split; assumption.
Qed.

Lemma framebuffer_unbound_on_return (p : Kernel.framebuffer_parameters)
    (st : gl_state) :
  let r := Kernel.initialize_framebuffer p st in
  binding_outcome (FramebufferBinding GL_FRAMEBUFFER) is_BindFramebuffer
    (BindFramebuffer GL_FRAMEBUFFER) (framebuffer_bind_reached (fst r))
    st (snd r).
Proof.
  cbv zeta.
  unfold Kernel.initialize_framebuffer, Kernel.framebuffer_guard, bind, ret.
  run_discard st. run_value. run_get. run_if.
  - run_void.
    destruct (Z.eqb_spec (Kernel.render_target p) 0);
      destruct (Z.eqb_spec (Kernel.depth_buffer p) 0);
      cbn [negb]; cbv beta iota; repeat run_void;
      run_value; run_if;
      try (run_get; run_if);
      unfold move_construct; run_void; run_destroy;
      (simpl; split; [solve_unbound | ];
       exists (to_name (object_new Framebuffer r));
       name_new; simp_calls; reflexivity).
  - run_destroy. simpl. name_new. simp_calls. reflexivity.
Qed.

Lemma ccm_framebuffer_unbound_on_return
    (p : KernelCcm.framebuffer_parameters) (st : gl_state) :
  let r := KernelCcm.initialize_framebuffer p st in
  binding_outcome (FramebufferBinding GL_FRAMEBUFFER) is_BindFramebuffer
    (BindFramebuffer GL_FRAMEBUFFER) (ccm_framebuffer_bind_reached (fst r))
    st (snd r).
Proof.
  cbv zeta.
  unfold KernelCcm.initialize_framebuffer, KernelCcm.framebuffer_guard,
    bind, ret.
  run_discard st.
  destruct (Z.eqb_spec (KernelCcm.render_target p) 0).
  - simpl. name_new. simp_calls. reflexivity.
  - run_value. run_get. run_if.
    + run_void. run_void. run_value. run_if;
        try (run_get; run_if);
        unfold move_construct; run_void; run_destroy;
        (simpl; split; [solve_unbound | ];
         exists (to_name (object_new Framebuffer r));
         name_new; simp_calls; reflexivity).
    + run_destroy. simpl. name_new. simp_calls. reflexivity.
Qed.

(** C4.  Buffer, texture and framebuffer initialization each leave
    their binding point unbound: on success and on every failure built
    after the bind, the call issued exactly two binds to its target,
    first the new object and last zero, and the binding point holds
    zero when the call returns; on the failures built before the bind
    no bind was issued at all. *)
Theorem binding_restored_on_every_exit :
  forall st : gl_state,
    (forall p : Kernel.buffer_parameters,
       let r := Kernel.initialize_buffer p st in
       binding_outcome (BufferBinding (Kernel.buffer_type p)) is_BindBuffer
         (BindBuffer (Kernel.buffer_type p)) (buffer_bind_reached (fst r))
         st (snd r)) /\
    (forall p : Kernel.texture_parameters,
       exists r st',
         Kernel.initialize_texture p st = (Some r, st') /\
         binding_outcome (TextureBinding GL_TEXTURE_2D) is_BindTexture
           (BindTexture GL_TEXTURE_2D) (texture_bind_reached r) st st') /\
    (forall p : Kernel.framebuffer_parameters,
       let r := Kernel.initialize_framebuffer p st in
       binding_outcome (FramebufferBinding GL_FRAMEBUFFER)
         is_BindFramebuffer (BindFramebuffer GL_FRAMEBUFFER)
         (framebuffer_bind_reached (fst r)) st (snd r)).
Proof.
  intros st. split; [ | split].
  - intros p. apply buffer_unbound_on_return.
  - intros p. apply texture_unbound_on_return.
  - intros p. apply framebuffer_unbound_on_return.
Qed.

(** ** Framebuffer: absent attachments and completeness *)

Ltac split_in H :=
  lazymatch type of H with
  | In _ (_ ++ _) =>
      apply in_app_or in H; destruct H as [H | H]; split_in H
  | In _ (_ :: _) =>
      destruct H as [H | H]; [ | split_in H]
  | In _ [] => destruct H
  | In _ (if ?h =? 0 then [] else _) =>
      destruct (h =? 0); split_in H
  | _ => idtac
  end.

Ltac close_in H :=
  lazymatch type of H with
  | In _ ?g =>
      match goal with
      | Hg : only_GetError g |- _ =>
          apply (proj1 (Forall_forall _ _) Hg) in H; discriminate H
      end
  | _ = _ => try discriminate H
  end.

(** C8.  When the completeness query of a framebuffer initialization
    answers a status other than [GL_FRAMEBUFFER_COMPLETE], the call
    returns the failure built at that check, and its code is that
    status. *)
Theorem incomplete_status_is_the_failure_code :
  forall (p : Kernel.framebuffer_parameters) (st : gl_state) (status : Z),
    let r := Kernel.initialize_framebuffer p st in
    In {| ev_call := CheckFramebufferStatus GL_FRAMEBUFFER;
          ev_ret := status |} (new_events st (snd r)) ->
    status <> GL_FRAMEBUFFER_COMPLETE ->
    fst r = unexpected {| line := 329; code := status |}.
Proof.
  intros p st status. cbv zeta.
  unfold Kernel.initialize_framebuffer, Kernel.framebuffer_guard, bind, ret.
  run_discard st. run_value. run_get. run_if.
  - run_void.
    destruct (Z.eqb_spec (Kernel.render_target p) 0);
      destruct (Z.eqb_spec (Kernel.depth_buffer p) 0);
      cbn [negb]; cbv beta iota; repeat run_void;
      run_value; run_if;
      try (run_get; run_if);
      unfold move_construct; run_void; run_destroy;
      simpl fst; simpl snd; name_new; subst dels;
      intros Hin Hs; split_in Hin; close_in Hin;
      inversion Hin; subst; (reflexivity || contradiction).
  - run_destroy. simpl fst. simpl snd. name_new. subst dels.
    intros Hin Hs. split_in Hin; close_in Hin.
Qed.

Lemma incomplete_status_is_the_failure_code_witness :
  let p := {| Kernel.render_target := 3; Kernel.depth_buffer := 0 |} in
  let st := Fake.fresh Fake.incomplete in
  In {| ev_call := CheckFramebufferStatus GL_FRAMEBUFFER; ev_ret := 0x8CD6 |}
    (new_events st (snd (Kernel.initialize_framebuffer p st))) /\
  fst (Kernel.initialize_framebuffer p st) =
    unexpected {| line := 329; code := 0x8CD6 |}.
Proof.
  cbv zeta.
  assert (Hin : In {| ev_call := CheckFramebufferStatus GL_FRAMEBUFFER;
                      ev_ret := 0x8CD6 |}
                  (new_events (Fake.fresh Fake.incomplete)
                     (snd (Kernel.initialize_framebuffer
                             {| Kernel.render_target := 3;
                                Kernel.depth_buffer := 0 |}
                             (Fake.fresh Fake.incomplete)))))
    by (vm_compute; right; right; left; reflexivity).
  split; [exact Hin | ].
  apply (incomplete_status_is_the_failure_code
           {| Kernel.render_target := 3; Kernel.depth_buffer := 0 |}
           (Fake.fresh Fake.incomplete) 0x8CD6 Hin).
  discriminate.
Defined.

(** The same holds in src/rose.opengl.kernel.ccm. *)
Lemma ccm_incomplete_status_is_the_failure_code
    (p : KernelCcm.framebuffer_parameters) (st : gl_state) (status : Z) :
  let r := KernelCcm.initialize_framebuffer p st in
  In {| ev_call := CheckFramebufferStatus GL_FRAMEBUFFER;
        ev_ret := status |} (new_events st (snd r)) ->
  status <> GL_FRAMEBUFFER_COMPLETE ->
  fst r = unexpected {| line := 351; code := status |}.
Proof.
  cbv zeta.
  unfold KernelCcm.initialize_framebuffer, KernelCcm.framebuffer_guard,
    bind, ret.
  run_discard st.
  destruct (Z.eqb_spec (KernelCcm.render_target p) 0).
  - simpl fst. simpl snd. name_new.
    intros Hin Hs. split_in Hin; close_in Hin.
  - run_value. run_get. run_if.
    + run_void. run_void. run_value. run_if;
        try (run_get; run_if);
        unfold move_construct; run_void; run_destroy;
        simpl fst; simpl snd; name_new; subst dels;
        intros Hin Hs; split_in Hin; close_in Hin;
        inversion Hin; subst; (reflexivity || contradiction).
    + run_destroy. simpl fst. simpl snd. name_new. subst dels.
      intros Hin Hs. split_in Hin; close_in Hin.
Qed.

(** In src/rose.opengl.kernel.ccm a zero color target is rejected
    before any name is requested, even on a backend that would report
    the framebuffer complete. *)
Lemma ccm_absent_color_target_rejected :
  let p := {| KernelCcm.render_target := 0 |} in
  let st := Fake.fresh Fake.healthy in
  let r := KernelCcm.initialize_framebuffer p st in
  fst r = unexpected {| line := 323; code := 0 |} /\
  count_calls is_GenFramebuffers (new_events st (snd r)) = 0%nat /\
  ~ allocates_a_name st (snd r).
Proof.
  cbv zeta. split; [reflexivity | ]. split; [reflexivity | ].
  unfold allocates_a_name. vm_compute. discriminate.
Qed.

(** C7, as the code has it.  In the revision whose parameters hold a
    color target and a depth buffer, initialization with both zero
    always requests a framebuffer name, attaches nothing, and fails
    only on an answer of the backend; on a backend that reports the
    framebuffer complete and records no error it succeeds.  In
    src/rose.opengl.kernel.ccm, whose parameters hold the color target
    alone, a zero color target is rejected with the local failure of
    code 0 and no name is requested. *)
Theorem absent_attachments_by_revision :
  forall st : gl_state,
    (let p := {| Kernel.render_target := 0; Kernel.depth_buffer := 0 |} in
     let r := Kernel.initialize_framebuffer p st in
     allocates_a_name st (snd r) /\
     count_calls
       (fun c => match c with
                 | FramebufferTexture2D _ _ _ _ _ => true
                 | _ => false
                 end) (new_events st (snd r)) = 0%nat /\
     match fst r with
     | value o =>
         In {| ev_call := CheckFramebufferStatus GL_FRAMEBUFFER;
               ev_ret := GL_FRAMEBUFFER_COMPLETE |} (new_events st (snd r))
     | unexpected e => reported_by_backend e (new_events st (snd r))
     end) /\
    fst (Kernel.initialize_framebuffer
           {| Kernel.render_target := 0; Kernel.depth_buffer := 0 |}
           (Fake.fresh Fake.healthy)) = value {| handle := 7 |} /\
    (let p := {| KernelCcm.render_target := 0 |} in
     let r := KernelCcm.initialize_framebuffer p st in
     fst r = unexpected {| line := 323; code := 0 |} /\
     count_calls is_GenFramebuffers (new_events st (snd r)) = 0%nat).
Proof.
  intros st. split; [ | split; [reflexivity | ]].
  - cbv zeta. unfold allocates_a_name.
    unfold Kernel.initialize_framebuffer, Kernel.framebuffer_guard, bind, ret.
    cbn [Kernel.render_target Kernel.depth_buffer].
    change (negb (0 =? 0)) with false. cbv beta iota.
    run_discard st. run_value. run_get. run_if.
    + run_void. run_value. run_if.
      * run_get. run_if.
        -- unfold move_construct. run_void. run_destroy.
           simpl fst. simpl snd. name_new.
           split; [simp_calls; reflexivity | ].
           split; [simp_calls; reflexivity | ].
           subst. apply in_or_app. right. simpl. auto.
        -- run_void. run_destroy.
           simpl fst. simpl snd. name_new.
           split; [simp_calls; reflexivity | ].
           split; [simp_calls; reflexivity | ].
           right. right. simpl. split; [reflexivity | ].
           split; [assumption | ].
           apply in_or_app. right. simpl. auto.
      * run_void. run_destroy.
        simpl fst. simpl snd. name_new.
        split; [simp_calls; reflexivity | ].
        split; [simp_calls; reflexivity | ].
        right. left. simpl. split; [reflexivity | ].
        split; [assumption | ].
        apply in_or_app. right. simpl. auto.
    + run_destroy.
      simpl fst. simpl snd. name_new.
      split; [simp_calls; reflexivity | ].
      split; [simp_calls; reflexivity | ].
      left. simpl. split; [reflexivity | ].
      split; [assumption | ].
      apply in_or_app. right. simpl. auto.
  - cbv zeta.
    unfold KernelCcm.initialize_framebuffer, bind, ret.
    cbn [KernelCcm.render_target]. change (0 =? 0) with true.
    cbv beta iota. run_discard st.
    simpl fst. simpl snd. name_new.
    split; [reflexivity | simp_calls; reflexivity].
Qed.

(** ** Shaders and programs *)

Lemma shaders_created_app (l1 l2 : list event) :
  shaders_created (l1 ++ l2) = (shaders_created l1 + shaders_created l2)%nat.
Proof. unfold shaders_created. now rewrite filter_app, length_app. Qed.

Lemma shaders_created_cons (e : event) (l : list event) :
  shaders_created (e :: l) =
    ((if is_CreateShader (ev_call e) && negb (ev_ret e =? 0)%Z then 1 else 0)
     + shaders_created l)%nat.
Proof.
  unfold shaders_created. simpl.
  now destruct (is_CreateShader (ev_call e) && negb (ev_ret e =? 0)).
Qed.

Lemma only_GetError_shaders_created (l : list event) :
  only_GetError l -> shaders_created l = 0%nat.
Proof.
  intros H. induction H as [| e l He _ IH]; [reflexivity | ].
  rewrite shaders_created_cons, He, IH. reflexivity.
Qed.

(** What one [initialize(shader_parameters)] call issues: a single
    [glCreateShader], of the requested type; at most one
    [glCompileShader]; on success a shader with a name other than zero
    and no deletion; on failure a deletion exactly when a shader had
    been created. *)
Lemma initialize_shader_spec (p : Kernel.shader_parameters) (st : gl_state) :
  exists r st' new,
    Kernel.initialize_shader p st = (r, st') /\
    driver st' = driver st /\
    trace st' = new ++ trace st /\
    calls_of is_CreateShader new = [CreateShader (Kernel.shader_type p)] /\
    (count_calls is_CompileShader new <= 1)%nat /\
    count_calls is_DeleteProgram new = 0%nat /\
    shaders_created new =
      (count_calls is_DeleteShader new + (if is_value r then 1 else 0))%nat /\
    match r with
    | value o => handle o <> 0 /\ count_calls is_DeleteShader new = 0%nat
    | unexpected e => True
    end.
Proof.
  unfold Kernel.initialize_shader, bind, ret.
  run_discard st. run_value.
  unfold object_new, to_name. cbn [handle].
  destruct (Z.eqb_spec r 0) as [Hr | Hr].
  - run_destroy. cbn [handle] in Hdels. subst r. simpl in Hdels. subst dels.
    do 3 eexists. split; [reflexivity | ].
    split; [congruence | ].
    split; [expand_trace; rewrite app_nil_l, app_comm_cons; reflexivity | ].
    split; [simp_calls; reflexivity | ].
    split; [simp_calls; lia | ].
    split; [simp_calls; reflexivity | ].
    split; [ | exact I].
    rewrite shaders_created_cons, only_GetError_shaders_created by assumption.
    simp_calls. reflexivity.
  - assert (Hrb : (r =? 0) = false) by now apply Z.eqb_neq.
    run_void. run_void. run_value.
    destruct (Z.eqb_spec r0 0) as [Hs | Hs].
    + run_destroy. cbn [handle] in Hdels. rewrite Hrb in Hdels. subst dels.
      do 3 eexists. split; [reflexivity | ].
      split; [congruence | ].
      split; [expand_trace; rewrite <- app_comm_cons, app_nil_l;
              rewrite !app_comm_cons; reflexivity | ].
      split; [simp_calls; reflexivity | ].
      split; [simp_calls; lia | ].
      split; [simp_calls; reflexivity | ].
      split; [ | exact I].
      rewrite !shaders_created_cons, only_GetError_shaders_created
        by assumption.
      simp_calls. cbn [ev_ret]. rewrite Hrb. reflexivity.
    + run_get. run_if.
      * unfold move_construct. rewrite destroy_empty.
        do 3 eexists. split; [reflexivity | ].
        split; [congruence | ].
        split; [expand_trace; rewrite !app_comm_cons; reflexivity | ].
        split; [simp_calls; reflexivity | ].
        split; [simp_calls; lia | ].
        split; [simp_calls; reflexivity | ].
        split.
        -- rewrite !shaders_created_cons, only_GetError_shaders_created
             by assumption.
           simp_calls. cbn [ev_ret]. rewrite Hrb. reflexivity.
        -- cbn [handle]. split; [exact Hr | simp_calls; reflexivity].
      * run_destroy. cbn [handle] in Hdels. rewrite Hrb in Hdels.
        subst dels.
        do 3 eexists. split; [reflexivity | ].
        split; [congruence | ].
        split; [expand_trace; rewrite <- app_comm_cons, app_nil_l;
                rewrite !app_comm_cons; reflexivity | ].
        split; [simp_calls; reflexivity | ].
        split; [simp_calls; lia | ].
        split; [simp_calls; reflexivity | ].
        split; [ | exact I].
        rewrite !shaders_created_cons, only_GetError_shaders_created
          by assumption.
        simp_calls. cbn [ev_ret]. rewrite Hrb. reflexivity.
Qed.

Lemma initialize_program_unfold (p : Kernel.program_parameters)
    (st : gl_state) :
  Kernel.initialize_program p st =
    (vertex_shader <- Kernel.initialize_shader (vertex_parameters p) ;;
     match vertex_shader with
     | unexpected e => destroy_expected vertex_shader ;; ret (unexpected e)
     | value vertex =>
         fragment_shader <- Kernel.initialize_shader
                              (fragment_parameters p) ;;
         match fragment_shader with
         | unexpected e =>
             destroy_expected fragment_shader ;;
             destroy_expected vertex_shader ;;
             ret (unexpected e)
         | value fragment =>
             name <- gl_value to_GLuint CreateProgram ;;
             if name =? 0 then
               destroy (object_new Program name) ;;
               destroy fragment ;; destroy vertex ;;
               ret (unexpected {| line := 452; code := 0 |})
             else
               gl_void (AttachShader name (handle vertex)) ;;
               gl_void (AttachShader name (handle fragment)) ;;
               gl_void (LinkProgram name) ;;
               succeeded <- gl_value to_GLint
                              (GetProgramiv name GL_LINK_STATUS) ;;
               if succeeded =? 0 then
                 destroy (object_new Program name) ;;
                 destroy fragment ;; destroy vertex ;;
                 ret (unexpected {| line := 463; code := 0 |})
               else
                 code <- glGetError ;;
                 if negb (code =? GL_NO_ERROR) then
                   destroy (object_new Program name) ;;
                   destroy fragment ;; destroy vertex ;;
                   ret (unexpected {| line := 469; code := code |})
                 else
                   destroy (k := Program) {| handle := 0 |} ;;
                   destroy fragment ;; destroy vertex ;;
                   ret (value {| handle := name |})
         end
     end) st.
Proof.
  unfold Kernel.initialize_program, vertex_parameters, fragment_parameters,
    bind.
  unfold ret, object_new, to_name, destroy_expected, move_construct.
  cbn [handle]. cbv beta iota zeta.
  repeat match goal with
         | |- ?l = ?l => reflexivity
         | |- context [match ?x with _ => _ end] =>
             lazymatch x with
             | context [match _ with _ => _ end] => fail
             | _ => destruct x
             end
         end.
Qed.

(** C2.  When the vertex shader fails, program initialization returns
    that failure and stops in the state the vertex attempt left: the
    only [glCreateShader] of the call is the vertex one and at most one
    [glCompileShader] was issued.  When the vertex shader succeeds and
    the fragment shader fails, it returns the fragment failure, and the
    last call issued before returning is the deletion of the vertex
    shader. *)
Theorem program_forwards_first_shader_failure :
  forall (p : Kernel.program_parameters) (st : gl_state),
    let r := Kernel.initialize_program p st in
    (forall (e : error) (st1 : gl_state),
       Kernel.initialize_shader (vertex_parameters p) st
         = (unexpected e, st1) ->
       r = (unexpected e, st1) /\
       calls_of is_CreateShader (new_events st (snd r))
         = [CreateShader GL_VERTEX_SHADER] /\
       (count_calls is_CompileShader (new_events st (snd r)) <= 1)%nat) /\
    (forall (vertex : object Shader) (st1 : gl_state) (e : error)
            (st2 : gl_state),
       Kernel.initialize_shader (vertex_parameters p) st
         = (value vertex, st1) ->
       Kernel.initialize_shader (fragment_parameters p) st1
         = (unexpected e, st2) ->
       fst r = unexpected e /\
       handle vertex <> 0 /\
       trace (snd r) =
         {| ev_call := DeleteShader (handle vertex); ev_ret := 0 |}
           :: trace st2).
Proof.
  intros p st. cbv zeta. rewrite initialize_program_unfold. unfold bind, ret.
  destruct (initialize_shader_spec (vertex_parameters p) st)
    as (rv & sv & new1 & Hrun1 & _ & Htr1 & Hcreate1 & Hcomp1 & _ & _
          & Hres1).
  rewrite Hrun1. split.
  - intros e st1 H. injection H as -> ->. simpl.
    split; [reflexivity | ].
    rewrite (new_events_app st st1 new1 Htr1).
    split; [exact Hcreate1 | exact Hcomp1].
  - intros vertex st1 e st2 H. injection H as -> ->.
    intros Hrun2. rewrite Hrun2.
    unfold destroy_expected, ret. cbv beta iota.
    destruct Hres1 as [Hnz _].
    unfold destroy.
    rewrite (proj2 (Z.eqb_neq (handle vertex) 0) Hnz). simpl.
    repeat split. exact Hnz.
Qed.

Lemma program_forwards_first_shader_failure_witness :
  let p := {| Kernel.vertex_shader_code := "void main() {}";
              Kernel.fragment_shader_code := "void main() {}" |} in
  (let st := Fake.fresh (Fake.rejecting 11) in
   let r := Kernel.initialize_program p st in
   r = (unexpected {| line := 388; code := 0 |},
        snd (Kernel.initialize_shader (vertex_parameters p) st)) /\
   calls_of is_CreateShader (new_events st (snd r))
     = [CreateShader GL_VERTEX_SHADER] /\
   (count_calls is_CompileShader (new_events st (snd r)) <= 1)%nat) /\
  (let st := Fake.fresh (Fake.rejecting 12) in
   let r := Kernel.initialize_program p st in
   let st1 := snd (Kernel.initialize_shader (vertex_parameters p) st) in
   let st2 := snd (Kernel.initialize_shader (fragment_parameters p) st1) in
   fst r = unexpected {| line := 388; code := 0 |} /\
   11 <> 0 /\
   trace (snd r) = {| ev_call := DeleteShader 11; ev_ret := 0 |} :: trace st2).
Proof.
  cbv zeta. split.
  - apply (proj1 (program_forwards_first_shader_failure
                    {| Kernel.vertex_shader_code := "void main() {}";
                       Kernel.fragment_shader_code := "void main() {}" |}
                    (Fake.fresh (Fake.rejecting 11)))
             {| line := 388; code := 0 |}
             (snd (Kernel.initialize_shader
                     (vertex_parameters
                        {| Kernel.vertex_shader_code := "void main() {}";
                           Kernel.fragment_shader_code := "void main() {}" |})
                     (Fake.fresh (Fake.rejecting 11))))).
    reflexivity.
  - apply (proj2 (program_forwards_first_shader_failure
                    {| Kernel.vertex_shader_code := "void main() {}";
                       Kernel.fragment_shader_code := "void main() {}" |}
                    (Fake.fresh (Fake.rejecting 12)))
             {| handle := 11 |}
             (snd (Kernel.initialize_shader
                     (vertex_parameters
                        {| Kernel.vertex_shader_code := "void main() {}";
                           Kernel.fragment_shader_code := "void main() {}" |})
                     (Fake.fresh (Fake.rejecting 12))))
             {| line := 388; code := 0 |}
             (snd (Kernel.initialize_shader
                     (fragment_parameters
                        {| Kernel.vertex_shader_code := "void main() {}";
                           Kernel.fragment_shader_code := "void main() {}" |})
                     (snd (Kernel.initialize_shader
                             (vertex_parameters
                                {| Kernel.vertex_shader_code :=
                                     "void main() {}";
                                   Kernel.fragment_shader_code :=
                                     "void main() {}" |})
                             (Fake.fresh (Fake.rejecting 12))))))).
    + reflexivity.
    + reflexivity.
Defined.

(** C9.  Program initialization deletes as many shaders as it created,
    whatever the outcome.  Once both shaders are acquired, the last two
    calls before returning are the deletion of the fragment shader and
    then of the vertex shader, in each of the four outcomes: success
    (the program is not deleted), no program object (nothing else to
    delete), link failure and final error flag (the program is deleted
    first). *)
Theorem shaders_released_before_return :
  forall (p : Kernel.program_parameters) (st : gl_state),
    let r := Kernel.initialize_program p st in
    shaders_created (new_events st (snd r))
      = count_calls is_DeleteShader (new_events st (snd r)) /\
    (forall (vertex : object Shader) (st1 : gl_state)
            (fragment : object Shader) (st2 : gl_state),
       Kernel.initialize_shader (vertex_parameters p) st
         = (value vertex, st1) ->
       Kernel.initialize_shader (fragment_parameters p) st1
         = (value fragment, st2) ->
       exists mid,
         new_events st2 (snd r) =
           {| ev_call := DeleteShader (handle vertex); ev_ret := 0 |}
             :: {| ev_call := DeleteShader (handle fragment); ev_ret := 0 |}
             :: mid /\
         count_calls is_DeleteShader mid = 0%nat /\
         match fst r with
         | value program =>
             handle program <> 0 /\
             count_calls is_DeleteProgram mid = 0%nat
         | unexpected e =>
             (line e = 452 /\ code e = 0 /\
              count_calls is_DeleteProgram mid = 0%nat) \/
             (line e = 463 /\ code e = 0 /\
              count_calls is_DeleteProgram mid = 1%nat) \/
             (line e = 469 /\ code e <> 0 /\
              count_calls is_DeleteProgram mid = 1%nat)
         end).
Proof.
  intros p st. cbv zeta. rewrite initialize_program_unfold. unfold bind, ret.
  destruct (initialize_shader_spec (vertex_parameters p) st)
    as (rv & sv & new1 & Hrun1 & _ & Htr1 & _ & _ & _ & Hcount1 & Hres1).
  rewrite Hrun1.
  destruct rv as [vertex | e1].
  - destruct (initialize_shader_spec (fragment_parameters p) sv)
      as (rf & sf & new2 & Hrun2 & _ & Htr2 & _ & _ & _ & Hcount2 & Hres2).
    rewrite Hrun2.
    destruct Hres1 as [Hv Hdel1].
    destruct rf as [fragment | e2].
    + destruct Hres2 as [Hf Hdel2].
      simpl is_value in Hcount1, Hcount2.
      assert (Hvb := proj2 (Z.eqb_neq _ _) Hv).
      assert (Hfb := proj2 (Z.eqb_neq _ _) Hf).
      assert (Hleaf :
        forall (result : expected (object Program)) (stf : gl_state)
               (mid : list event),
          trace stf =
            {| ev_call := DeleteShader (handle vertex); ev_ret := 0 |}
              :: {| ev_call := DeleteShader (handle fragment); ev_ret := 0 |}
              :: mid ++ trace sf ->
          count_calls is_DeleteShader mid = 0%nat ->
          shaders_created mid = 0%nat ->
          match result with
          | value program =>
              handle program <> 0 /\
              count_calls is_DeleteProgram mid = 0%nat
          | unexpected e =>
              (line e = 452 /\ code e = 0 /\
               count_calls is_DeleteProgram mid = 0%nat) \/
              (line e = 463 /\ code e = 0 /\
               count_calls is_DeleteProgram mid = 1%nat) \/
              (line e = 469 /\ code e <> 0 /\
               count_calls is_DeleteProgram mid = 1%nat)
          end ->
          shaders_created (new_events st stf)
            = count_calls is_DeleteShader (new_events st stf) /\
          (forall (vertex0 : object Shader) (st1 : gl_state)
                  (fragment0 : object Shader) (st2 : gl_state),
             (value vertex, sv) = (value vertex0, st1) ->
             Kernel.initialize_shader (fragment_parameters p) st1
               = (value fragment0, st2) ->
             exists mid0,
               new_events st2 stf =
                 {| ev_call := DeleteShader (handle vertex0); ev_ret := 0 |}
                   :: {| ev_call := DeleteShader (handle fragment0);
                         ev_ret := 0 |}
                   :: mid0 /\
               count_calls is_DeleteShader mid0 = 0%nat /\
               match result with
               | value program =>
                   handle program <> 0 /\
                   count_calls is_DeleteProgram mid0 = 0%nat
               | unexpected e =>
                   (line e = 452 /\ code e = 0 /\
                    count_calls is_DeleteProgram mid0 = 0%nat) \/
                   (line e = 463 /\ code e = 0 /\
                    count_calls is_DeleteProgram mid0 = 1%nat) \/
                   (line e = 469 /\ code e <> 0 /\
                    count_calls is_DeleteProgram mid0 = 1%nat)
               end)).
      { intros result stf mid Hstf Hmid Hcr Hres. split.
        - rewrite (new_events_app st stf
                     ({| ev_call := DeleteShader (handle vertex);
                         ev_ret := 0 |}
                        :: {| ev_call := DeleteShader (handle fragment);
                              ev_ret := 0 |} :: mid ++ new2 ++ new1))
            by (rewrite Hstf, Htr2, Htr1, !app_comm_cons, <- !app_assoc;
                reflexivity).
          rewrite !shaders_created_cons, !count_calls_cons.
          rewrite !shaders_created_app, !count_calls_app.
          cbn [ev_call ev_ret is_CreateShader is_DeleteShader andb].
          rewrite Hcr, Hmid, Hcount1, Hcount2. lia.
        - intros vertex0 st1 fragment0 st2 H1 H2.
          injection H1 as <- <-. rewrite Hrun2 in H2.
          injection H2 as <- <-.
          exists mid. split; [ | split; assumption].
          apply new_events_app. rewrite Hstf. reflexivity. }
      run_value. run_if.
      * subst r. rewrite destroy_empty.
        unfold destroy. rewrite Hvb, Hfb.
        change (negb false) with true. cbv beta iota.
        unfold gl_void. cbn [Deleter].
        apply (Hleaf _ _ [{| ev_call := CreateProgram; ev_ret := 0 |}]).
        -- cbn [trace issue snd]. rewrite Htr. reflexivity.
        -- reflexivity.
        -- reflexivity.
        -- left. repeat split.
      * assert (Hrb := proj2 (Z.eqb_neq _ _) Hcmp).
        run_void. run_void. run_void. run_value. run_if.
        -- unfold destroy, object_new. cbn [handle].
           rewrite Hvb, Hfb, Hrb.
           change (negb false) with true. cbv beta iota.
           unfold gl_void. cbn [Deleter].
           eapply (Hleaf _ _ (_ :: _ :: _ :: _ :: _ :: [_])).
           ++ cbn [trace issue snd]. expand_trace. reflexivity.
           ++ reflexivity.
           ++ reflexivity.
           ++ right. left. repeat split.
        -- run_get. run_if.
           ++ rewrite destroy_empty.
              unfold destroy. rewrite Hvb, Hfb.
              change (negb false) with true. cbv beta iota.
              unfold gl_void. cbn [Deleter].
              eapply (Hleaf _ _ (_ :: _ :: _ :: _ :: _ :: [_])).
              ** cbn [trace issue snd]. expand_trace. reflexivity.
              ** reflexivity.
              ** reflexivity.
              ** cbn [handle]. split; [assumption | reflexivity].
           ++ unfold destroy, object_new. cbn [handle].
              rewrite Hvb, Hfb, Hrb.
              change (negb false) with true. cbv beta iota.
              unfold gl_void. cbn [Deleter].
              eapply (Hleaf _ _ (_ :: _ :: _ :: _ :: _ :: _ :: [_])).
              ** cbn [trace issue snd]. expand_trace. reflexivity.
              ** reflexivity.
              ** reflexivity.
              ** right. right. repeat split. assumption.
    + unfold destroy_expected, ret. cbv beta iota.
      simpl is_value in Hcount1, Hcount2.
      unfold destroy. rewrite (proj2 (Z.eqb_neq _ _) Hv).
      change (negb false) with true. cbv beta iota.
      unfold gl_void. cbn [Deleter fst snd]. split.
      * rewrite (new_events_app st _
                   ({| ev_call := DeleteShader (handle vertex);
                       ev_ret := 0 |} :: new2 ++ new1))
          by (cbn [trace issue]; rewrite Htr2, Htr1, !app_comm_cons,
                <- !app_assoc; reflexivity).
        rewrite shaders_created_cons, count_calls_cons.
        rewrite shaders_created_app, count_calls_app.
        cbn [ev_call ev_ret is_CreateShader is_DeleteShader andb].
        rewrite Hcount1, Hcount2. lia.
      * intros vertex0 st1 fragment0 st2 H1 H2.
        injection H1 as <- <-. rewrite Hrun2 in H2. discriminate H2.
  - unfold destroy_expected, ret. cbv beta iota. cbn [fst snd].
    simpl is_value in Hcount1. split.
    + rewrite (new_events_app st sv new1 Htr1). rewrite Hcount1. lia.
    + intros vertex0 st1 fragment0 st2 H1. discriminate H1.
Qed.

Lemma shaders_released_before_return_witness :
  let p := {| Kernel.vertex_shader_code := "void main() {}";
              Kernel.fragment_shader_code := "void main() {}" |} in
  let st := Fake.fresh Fake.healthy in
  let r := Kernel.initialize_program p st in
  let st1 := snd (Kernel.initialize_shader (vertex_parameters p) st) in
  let st2 := snd (Kernel.initialize_shader (fragment_parameters p) st1) in
  fst r = value {| handle := 13 |} /\
  exists mid,
    new_events st2 (snd r) =
      {| ev_call := DeleteShader 11; ev_ret := 0 |}
        :: {| ev_call := DeleteShader 12; ev_ret := 0 |} :: mid /\
    count_calls is_DeleteShader mid = 0%nat /\
    match fst r with
    | value program =>
        handle program <> 0 /\ count_calls is_DeleteProgram mid = 0%nat
    | unexpected e =>
        (line e = 452 /\ code e = 0 /\
         count_calls is_DeleteProgram mid = 0%nat) \/
        (line e = 463 /\ code e = 0 /\
         count_calls is_DeleteProgram mid = 1%nat) \/
        (line e = 469 /\ code e <> 0 /\
         count_calls is_DeleteProgram mid = 1%nat)
    end.
Proof.
  cbv zeta. split; [reflexivity | ].
  apply (proj2 (shaders_released_before_return
                  {| Kernel.vertex_shader_code := "void main() {}";
                     Kernel.fragment_shader_code := "void main() {}" |}
                  (Fake.fresh Fake.healthy))
           {| handle := 11 |}
           (snd (Kernel.initialize_shader
                   (vertex_parameters
                      {| Kernel.vertex_shader_code := "void main() {}";
                         Kernel.fragment_shader_code := "void main() {}" |})
                   (Fake.fresh Fake.healthy)))
           {| handle := 12 |}
           (snd (Kernel.initialize_shader
                   (fragment_parameters
                      {| Kernel.vertex_shader_code := "void main() {}";
                         Kernel.fragment_shader_code := "void main() {}" |})
                   (snd (Kernel.initialize_shader
                           (vertex_parameters
                              {| Kernel.vertex_shader_code :=
                                   "void main() {}";
                                 Kernel.fragment_shader_code :=
                                   "void main() {}" |})
                           (Fake.fresh Fake.healthy)))))).
  - reflexivity.
  - reflexivity.
Defined.

(** ** The mipmap chain of the specification *)

Lemma chain_length (n : nat) :
  forall i w h s, List.length (MipChain.chain n i w h s) = n.
Proof.
  induction n as [| n IH]; intros i w h s; simpl; [reflexivity | ].
  now rewrite IH.
Qed.

Lemma subspan_wf (s : span) (size : Z) :
  span_wf s -> 0 <= size ->
  span_wf (subspan s (Z.min size (sp_size s))).
Proof.
  unfold span_wf, subspan, nullptr. simpl.
  intros (Hsize & Hdata & Hend & Hnull) Hs. repeat split; lia.
Qed.

Lemma subspan_end (s : span) (offset : Z) :
  sp_data (subspan s offset) + sp_size (subspan s offset)
    = sp_data s + sp_size s.
Proof. unfold subspan. simpl. lia. Qed.

Lemma chain_levels_ok (n : nat) :
  forall i w h s,
    1 <= w -> 1 <= h -> span_wf s ->
    Forall (level_ok (sp_data s + sp_size s)) (MipChain.chain n i w h s).
Proof.
  induction n as [| n IH]; intros i w h s Hw Hh Hwf; simpl;
    constructor.
  - unfold level_ok. simpl. split; [reflexivity | ].
    destruct Hwf as (Hsize & Hdata & Hend & Hnull). unfold nullptr in *.
    destruct (Z.ltb_spec (sp_size s) (w * h * 4)) as [Hlt | Hge].
    + repeat split; lia.
    + assert (4 <= w * h * 4) by nia.
      repeat split; lia.
  - rewrite <- (subspan_end s (Z.min (w * h * 4) (sp_size s))).
    apply IH.
    + unfold MipChain.halve. lia.
    + unfold MipChain.halve. lia.
    + apply subspan_wf; [exact Hwf | nia].
Qed.

Lemma chain_chained (n : nat) :
  forall i w h s, chained (MipChain.chain n i w h s).
Proof.
  induction n as [| n IH]; intros i w h s; [exact I | ].
  destruct n as [| n]; [exact I | ].
  change (follows
            (hd (MipChain.Build_level 0 0 0 0 0 0)
               (MipChain.chain (S (S n)) i w h s))
            (hd (MipChain.Build_level 0 0 0 0 0 0)
               (MipChain.chain (S n) (i + 1) (MipChain.halve w)
                  (MipChain.halve h)
                  (subspan s (Z.min (w * h * 4) (sp_size s))))) /\
          chained
            (MipChain.chain (S n) (i + 1) (MipChain.halve w)
               (MipChain.halve h)
               (subspan s (Z.min (w * h * 4) (sp_size s))))).
  split; [ | apply IH].
  unfold follows, MipChain.halve. simpl. repeat split.
Qed.

(** ** The mip chain walk, event by event *)

Lemma walk_events_uploads (answers : list Z) :
  forall levels : list MipChain.level,
    calls_of is_TexImage2D (rev (walk_events answers levels))
      = map MipChain.upload (firstn (List.length answers) levels).
Proof.
  induction answers as [| a answers IH]; intros [| l levels];
    try reflexivity.
  cbn [walk_events rev List.length firstn map].
  rewrite <- app_assoc, calls_of_app, IH. reflexivity.
Qed.

Lemma no_upload_calls_of (l : list event) :
  Forall no_upload l -> calls_of is_TexImage2D (rev l) = [].
Proof.
  intros H. induction H as [| e l He _ IH]; [reflexivity | ].
  cbn [rev]. rewrite calls_of_app, IH, calls_of_cons.
  unfold no_upload in He. rewrite He. reflexivity.
Qed.

(** The loop, event by event: every level reached is specified and
    then checked; the walk goes on to the next level exactly as long as
    [glGetError] answers [GL_NO_ERROR], and a different answer is the
    code of the failure of line 245. *)
Lemma specify_levels_walk (n : nat) :
  forall (i : Z) (p : Kernel.texture_parameters) (st : gl_state),
    0 <= i -> Kernel.mipmap_count p = i + Z.of_nat n ->
    Kernel.mipmap_count p <= 16383 ->
    1 <= Kernel.width p <= 16383 -> 1 <= Kernel.height p <= 16383 ->
    exists outcome st' answers,
      Kernel.specify_levels (S n) i p st = (Some outcome, st') /\
      driver st' = driver st /\ bound st' = bound st /\
      trace st' =
        rev (walk_events answers
               (MipChain.chain n i (Kernel.width p) (Kernel.height p)
                  (Kernel.pixels p)))
        ++ trace st /\
      (List.length answers <= n)%nat /\
      match outcome with
      | None => answers = repeat GL_NO_ERROR n
      | Some e =>
          line e = 245 /\ code e <> GL_NO_ERROR /\
          exists j, answers = repeat GL_NO_ERROR j ++ [code e]
      end.
Proof.
  induction n as [| n IH]; intros i p st Hi Hcount Hmax Hw Hh.
  - exists None, st, []. simpl.
    replace (i =? Kernel.mipmap_count p) with true
      by (symmetry; apply Z.eqb_eq; lia).
    simpl. repeat split. constructor.
  - rewrite specify_levels_S.
    replace (i =? Kernel.mipmap_count p) with false
      by (symmetry; apply Z.eqb_neq; lia).
    change (negb false) with true. cbv iota.
    unfold bind, gl_void. cbv beta iota.
    rewrite (level_pixel_data_exact p Hw Hh).
    set (st1 := issue _ 0 st).
    destruct (glGetError_spec st1) as (c & st2 & Hrun & Hdrv & Hbnd & Htr).
    rewrite Hrun. cbv beta iota.
    destruct (Z.eqb_spec c GL_NO_ERROR) as [Hc | Hc];
      [change (negb true) with false | change (negb false) with true];
      cbv iota.
    + rewrite to_GLint_small by (change (2 ^ 31) with 2147483648; lia).
      rewrite (next_level_exact p Hw Hh).
      match goal with
      | |- context [Kernel.specify_levels (S n) (i + 1) ?q st2] =>
          destruct (IH (i + 1) q st2) as
            (outcome & st' & answers & Hloop & Hdrv' & Hbnd' & Htr' & Hlen
               & Hout);
            [lia | simpl; lia | simpl; lia
            | simpl; now apply halve_bounds
            | simpl; now apply halve_bounds | ];
            rewrite Hloop
      end.
      exists outcome, st', (GL_NO_ERROR :: answers).
      split; [reflexivity | ].
      split; [now rewrite Hdrv', Hdrv | ].
      split; [now rewrite Hbnd', Hbnd | ].
      split.
      { rewrite Htr', Htr. subst c.
        cbn [MipChain.chain walk_events rev]. rewrite <- !app_assoc.
        reflexivity. }
      split; [simpl; lia | ].
      destruct outcome as [e | ].
      * destruct Hout as (Hline & Hcode & j & Hj).
        split; [exact Hline | ]. split; [exact Hcode | ].
        exists (S j). rewrite Hj. reflexivity.
      * rewrite Hout. reflexivity.
    + exists (Some {| line := 245; code := c |}), st2, [c].
      split; [reflexivity | ].
      split; [now rewrite Hdrv | ].
      split; [now rewrite Hbnd | ].
      split; [rewrite Htr; reflexivity | ].
      split; [simpl; lia | ].
      split; [reflexivity | ]. split; [exact Hc | ].
      now exists 0%nat.
Qed.

Lemma rev_walk_between (A : Type) (d W B : list A) :
  rev (d ++ rev W ++ B) = rev B ++ W ++ rev d.
Proof.
  now rewrite !rev_app_distr, rev_involutive, app_assoc.
Qed.

Lemma only_GetError_no_upload (gets : list event) :
  only_GetError gets -> Forall no_upload (rev gets).
Proof.
  intros H. apply Forall_rev.
  apply (Forall_impl _ (P := fun e => ev_call e = GetError)); [ | exact H].
  intros e He. unfold no_upload. now rewrite He.
Qed.

Lemma deleted_no_upload_no_check (k : kind) (h : Z) :
  Forall no_upload_no_check
    (rev (if h =? 0 then []
          else [{| ev_call := Deleter k h; ev_ret := 0 |}])).
Proof.
  destruct (h =? 0); [constructor | ].
  repeat constructor. now destruct k.
Qed.

Lemma initialize_texture_walk (p : Kernel.texture_parameters)
    (st : gl_state) :
  validated p ->
  exists r st' answers before after,
    Kernel.initialize_texture p st = (Some r, st') /\
    rev (new_events st st')
      = before
        ++ walk_events answers
             (MipChain.chain (Z.to_nat (Kernel.mipmap_count p)) 0
                (Kernel.width p) (Kernel.height p) (Kernel.pixels p))
        ++ after /\
    Forall no_upload before /\
    Forall no_upload_no_check after /\
    (List.length answers <= Z.to_nat (Kernel.mipmap_count p))%nat /\
    match r with
    | value _ =>
        answers = repeat GL_NO_ERROR (Z.to_nat (Kernel.mipmap_count p))
    | unexpected e =>
        code e <> GL_NO_ERROR /\
        if line e =? 245 then
          exists j, answers = repeat GL_NO_ERROR j ++ [code e]
        else
          answers = [] /\
          exists earlier,
            before = earlier ++ [{| ev_call := GetError; ev_ret := code e |}]
    end.
Proof.
  intros Hv. unfold Kernel.initialize_texture, Kernel.texture_guard, bind, ret.
  run_discard st. rewrite (validated_check p Hv).
  run_value. run_get. run_if.
  - run_void. run_get. run_if.
    + destruct Hv as (Hw & Hh & Hc).
      destruct (specify_levels_walk (Z.to_nat (Kernel.mipmap_count p)) 0 p
                  st4)
        as (outcome & st5 & answers & Hloop & Hdrv5 & Hbnd5 & Htr5 & Hlen
              & Hout); try lia.
      rewrite Hloop. cbv beta iota.
      destruct outcome as [e | ].
      * run_void. run_destroy.
        do 2 eexists. exists answers. do 2 eexists.
        split; [reflexivity | ].
        split.
        { name_new. rewrite app_nil_r.
          match goal with
          | |- rev (?d ++ ?x :: rev ?W ++ ?B) = _ =>
              replace (d ++ x :: rev W ++ B)
                with ((d ++ [x]) ++ rev W ++ B)
                by (now rewrite <- app_assoc)
          end.
          apply rev_walk_between. }
        split.
        { cbn [rev]. apply Forall_app. split.
          - repeat (apply Forall_app; split);
              try (now apply only_GetError_no_upload);
              repeat constructor.
          - repeat constructor. }
        split.
        { rewrite rev_app_distr. cbn [rev app]. constructor; [reflexivity | ].
          subst dels. apply deleted_no_upload_no_check. }
        split; [exact Hlen | ].
        destruct Hout as (Hline & Hcode & Hj).
        split; [exact Hcode | ]. rewrite Hline. exact Hj.
      * unfold move_construct. run_void. run_destroy.
        do 2 eexists. exists answers. do 2 eexists.
        split; [reflexivity | ].
        split.
        { name_new. rewrite app_nil_r.
          match goal with
          | |- rev (?d ++ ?x :: rev ?W ++ ?B) = _ =>
              replace (d ++ x :: rev W ++ B)
                with ((d ++ [x]) ++ rev W ++ B)
                by (now rewrite <- app_assoc)
          end.
          apply rev_walk_between. }
        split.
        { cbn [rev]. apply Forall_app. split.
          - repeat (apply Forall_app; split);
              try (now apply only_GetError_no_upload);
              repeat constructor.
          - repeat constructor. }
        split.
        { rewrite rev_app_distr. cbn [rev app]. constructor; [reflexivity | ].
          subst dels. apply deleted_no_upload_no_check. }
        split; [exact Hlen | exact Hout].
    + run_void. run_destroy.
      do 2 eexists. exists []. do 2 eexists.
      split; [reflexivity | ].
      split.
      { name_new. rewrite app_nil_r.
        match goal with
        | |- rev (?d ++ ?x :: ?B) = _ =>
            replace (d ++ x :: B) with ((d ++ [x]) ++ rev [] ++ B)
              by (now rewrite <- app_assoc)
        end.
        apply rev_walk_between. }
      split.
      { cbn [rev]. repeat (apply Forall_app; split);
          try (now apply only_GetError_no_upload);
          repeat constructor. }
      split.
      { rewrite rev_app_distr. cbn [rev app]. constructor; [reflexivity | ].
        subst dels. apply deleted_no_upload_no_check. }
      split; [simpl; lia | ].
      split; [exact Hcmp0 | ].
      simpl. split; [reflexivity | ].
      cbn [rev]. eexists. reflexivity.
  - run_destroy.
    do 2 eexists. exists []. do 2 eexists.
    split; [reflexivity | ].
    split.
    { name_new. rewrite app_nil_r.
      match goal with
      | |- rev (?d ++ ?B) = _ =>
          change (d ++ B) with (d ++ rev [] ++ B)
      end.
      apply rev_walk_between. }
    split.
    { cbn [rev]. repeat (apply Forall_app; split);
        try (now apply only_GetError_no_upload);
        repeat constructor. }
    split; [subst dels; apply deleted_no_upload_no_check | ].
    split; [simpl; lia | ].
    split; [exact Hcmp | ].
    simpl. split; [reflexivity | ].
    cbn [rev]. eexists. reflexivity.
Qed.

(** C3.  On validated parameters and a well-formed pixel span, texture
    initialization returns, and the mip chain is walked level by level
    from level 0: each level reached is specified by one
    [glTexImage2D] call followed by one [glGetError] call, the walk
    goes on to the next level exactly when that [glGetError] answers
    [GL_NO_ERROR], and no level is specified before or after the walk.
    On success all [mipmap_count] levels were specified and every
    answer was [GL_NO_ERROR].  A failure carries an answer of
    [glGetError] other than [GL_NO_ERROR]: with line 245 it is the
    answer after the last level specified, all answers before it being
    [GL_NO_ERROR]; with any other line it was given before the walk,
    and no level was specified.  The levels are those of the chain the
    specification describes: level 0 has the given extent and the
    whole span, every level has byte size [width * height * 4] and a
    null pointer exactly when that exceeds the remaining length,
    otherwise the address of the first remaining byte, and each next
    level has the floor-halved extent clamped at 1 and the span
    advanced by the smaller of size and remaining length. *)
Theorem mip_chain_walk :
  forall (p : Kernel.texture_parameters) (st : gl_state),
    validated p -> span_wf (Kernel.pixels p) ->
    let count := Z.to_nat (Kernel.mipmap_count p) in
    let levels :=
      MipChain.chain count 0 (Kernel.width p) (Kernel.height p)
        (Kernel.pixels p) in
    exists r st' k,
      Kernel.initialize_texture p st = (Some r, st') /\
      (k <= count)%nat /\
      calls_of is_TexImage2D (new_events st st')
        = map MipChain.upload (firstn k levels) /\
      (is_value r = true -> k = count) /\
      (exists answers before after,
         List.length answers = k /\
         rev (new_events st st')
           = before ++ walk_events answers levels ++ after /\
         Forall no_upload before /\
         Forall no_upload_no_check after /\
         match r with
         | value _ => answers = repeat GL_NO_ERROR count
         | unexpected e =>
             code e <> GL_NO_ERROR /\
             if line e =? 245 then
               answers = repeat GL_NO_ERROR (k - 1) ++ [code e]
             else
               k = 0%nat /\
               exists earlier,
                 before
                   = earlier ++ [{| ev_call := GetError; ev_ret := code e |}]
         end) /\
      List.length levels = count /\
      hd_error levels =
        Some {| MipChain.lv_index := 0;
                MipChain.lv_width := Kernel.width p;
                MipChain.lv_height := Kernel.height p;
                MipChain.lv_size := Kernel.width p * Kernel.height p * 4;
                MipChain.lv_remaining := sp_size (Kernel.pixels p);
                MipChain.lv_data :=
                  if sp_size (Kernel.pixels p)
                       <? Kernel.width p * Kernel.height p * 4
                  then nullptr else sp_data (Kernel.pixels p) |} /\
      Forall (level_ok (sp_data (Kernel.pixels p)
                        + sp_size (Kernel.pixels p))) levels /\
      chained levels.
Proof.
  intros p st Hv Hwf. cbv zeta.
  destruct (initialize_texture_walk p st Hv)
    as (r & st' & answers & before & after & Hrun & Hnew & Hbefore & Hafter
          & Hlen & Hout).
  exists r, st', (List.length answers).
  split; [exact Hrun | ]. split; [exact Hlen | ].
  split.
  { rewrite <- (rev_involutive (new_events st st')), Hnew.
    rewrite !rev_app_distr, !calls_of_app.
    rewrite (no_upload_calls_of before Hbefore), walk_events_uploads.
    rewrite (no_upload_calls_of after); [apply app_nil_r | ].
    apply (Forall_impl _ (P := no_upload_no_check)); [ | exact Hafter].
    intros e. unfold no_upload_no_check, no_upload, upload_or_GetError.
    intros He. now apply orb_false_iff in He. }
  split.
  { destruct r as [o | e]; [ | discriminate].
    intros _. rewrite Hout. apply repeat_length. }
  split.
  { exists answers, before, after.
    split; [reflexivity | ]. split; [exact Hnew | ].
    split; [exact Hbefore | ]. split; [exact Hafter | ].
    destruct r as [o | e]; [exact Hout | ].
    destruct Hout as [Hcode Hout]. split; [exact Hcode | ].
    destruct (line e =? 245).
    - destruct Hout as [j Hj]. rewrite Hj at 2.
      rewrite Hj, length_app, repeat_length. cbn [List.length].
      now replace (j + 1 - 1)%nat with j by lia.
    - destruct Hout as [Hnil Hearlier]. split; [now rewrite Hnil | ].
      exact Hearlier. }
  split; [apply chain_length | ].
  destruct Hv as (Hw & Hh & Hc).
  split.
  - destruct (Z.to_nat (Kernel.mipmap_count p)) eqn:Hn; [lia | reflexivity].
  - split; [apply chain_levels_ok; (lia || assumption) | apply chain_chained].
Qed.

(** The walk on a 256 x 256 texture with four levels and pixel data for
    level 0 only: extents 256, 128, 64, 32; level 0 gets the data,
    levels 1 to 3 a null pointer. *)
Lemma mip_chain_walk_witness :
  let p := {| Kernel.width := 256; Kernel.height := 256;
              Kernel.mipmap_count := 4;
              Kernel.pixels := {| sp_data := 4096; sp_size := 262144 |} |} in
  let st := Fake.fresh Fake.healthy in
  validated p /\ span_wf (Kernel.pixels p) /\
  calls_of is_TexImage2D
    (new_events st (snd (Kernel.initialize_texture p st))) =
    [TexImage2D GL_TEXTURE_2D 0 GL_RGBA8 256 256 0 GL_RGBA GL_UNSIGNED_BYTE
       4096;
     TexImage2D GL_TEXTURE_2D 1 GL_RGBA8 128 128 0 GL_RGBA GL_UNSIGNED_BYTE
       nullptr;
     TexImage2D GL_TEXTURE_2D 2 GL_RGBA8 64 64 0 GL_RGBA GL_UNSIGNED_BYTE
       nullptr;
     TexImage2D GL_TEXTURE_2D 3 GL_RGBA8 32 32 0 GL_RGBA GL_UNSIGNED_BYTE
       nullptr].
Proof.
  cbv zeta.
  assert (Hv : validated
                 {| Kernel.width := 256; Kernel.height := 256;
                    Kernel.mipmap_count := 4;
                    Kernel.pixels :=
                      {| sp_data := 4096; sp_size := 262144 |} |})
    by (unfold validated; simpl; lia).
  assert (Hwf : span_wf {| sp_data := 4096; sp_size := 262144 |})
    by (unfold span_wf, nullptr; simpl; lia).
  split; [exact Hv | ]. split; [exact Hwf | ].
  destruct (mip_chain_walk _ (Fake.fresh Fake.healthy) Hv Hwf)
    as (r & st' & k & Hrun & _ & Hcalls & Hall & _).
  rewrite Hrun. simpl snd. rewrite Hcalls.
  assert (Hr : is_value r = true).
  { assert (Hfst := f_equal fst Hrun). simpl fst in Hfst.
    vm_compute in Hfst. injection Hfst as <-. reflexivity. }
  rewrite (Hall Hr). reflexivity.
Defined.

(** The same texture on a backend that records [GL_OUT_OF_MEMORY]
    (0x0505) when level 1 is specified: levels 0 and 1 are specified,
    the check after level 1 gets the flag, the walk ends there with the
    failure of line 245, and the texture is unbound and deleted. *)
Example mip_chain_walk_ends_at_reported_error :
  let p := {| Kernel.width := 256; Kernel.height := 256;
              Kernel.mipmap_count := 4;
              Kernel.pixels := {| sp_data := 4096; sp_size := 262144 |} |} in
  let faulty (c : call) :=
    match c with
    | TexImage2D _ level _ _ _ _ _ _ _ => level =? 1
    | _ => false
    end in
  let st := Fake.fresh (Fake.scripted Fake.healthy_answer faulty [0x0505]) in
  let r := Kernel.initialize_texture p st in
  fst r = Some (unexpected {| line := 245; code := 0x0505 |}) /\
  rev (new_events st (snd r)) =
    [{| ev_call := GetError; ev_ret := GL_NO_ERROR |};
     {| ev_call := GenTextures 1; ev_ret := 7 |};
     {| ev_call := GetError; ev_ret := GL_NO_ERROR |};
     {| ev_call := BindTexture GL_TEXTURE_2D 7; ev_ret := 0 |};
     {| ev_call := GetError; ev_ret := GL_NO_ERROR |}]
    ++ walk_events [GL_NO_ERROR; 0x0505]
         (MipChain.chain 4 0 256 256 {| sp_data := 4096; sp_size := 262144 |})
    ++ [{| ev_call := BindTexture GL_TEXTURE_2D 0; ev_ret := 0 |};
        {| ev_call := DeleteTextures 1 7; ev_ret := 0 |}].
Proof. vm_compute. split; reflexivity. Qed.

(** A 1 x 1 texture with three levels stays 1 x 1 at every level. *)
Example mip_chain_of_one_texel :
  let p := {| Kernel.width := 1; Kernel.height := 1;
              Kernel.mipmap_count := 3;
              Kernel.pixels := {| sp_data := 4096; sp_size := 4 |} |} in
  let st := Fake.fresh Fake.healthy in
  calls_of is_TexImage2D (trace (snd (Kernel.initialize_texture p st))) =
    [TexImage2D GL_TEXTURE_2D 0 GL_RGBA8 1 1 0 GL_RGBA GL_UNSIGNED_BYTE 4096;
     TexImage2D GL_TEXTURE_2D 1 GL_RGBA8 1 1 0 GL_RGBA GL_UNSIGNED_BYTE
       nullptr;
     TexImage2D GL_TEXTURE_2D 2 GL_RGBA8 1 1 0 GL_RGBA GL_UNSIGNED_BYTE
       nullptr] /\
  map extent (MipChain.chain 3 0 1 1 (Kernel.pixels p)) =
    [(1, 1); (1, 1); (1, 1)] /\
  map extent (MipChain.chain 4 0 256 256 (Kernel.pixels p)) =
    [(256, 256); (128, 128); (64, 64); (32, 32)].
Proof. cbv zeta. repeat split. Qed.

(** Odd extents are floor-halved: 5 x 3 gives 2 x 1, then 1 x 1. *)
Example mip_chain_of_odd_extent :
  map extent (MipChain.chain 3 0 5 3 {| sp_data := 4096; sp_size := 0 |}) =
    [(5, 3); (2, 1); (1, 1)].
Proof. reflexivity. Qed.

(** ** The texture of src/rose.opengl.kernel.ccm

    Its level loop computes the size as [uint32_t]; on validated
    parameters it issues the same calls as the loop above, and only the
    line of the failure differs. *)

Lemma ccm_next_level_common (p : KernelCcm.texture_parameters) :
  1 <= KernelCcm.w p <= 16383 -> 1 <= KernelCcm.h p <= 16383 ->
  KernelCcm.common (KernelCcm.next_level p) =
    Kernel.next_level (KernelCcm.common p).
Proof.
  intros Hw Hh.
  destruct (level_size_exact (KernelCcm.common p) Hw Hh) as [Hs Hb].
  change (2 ^ 31) with 2147483648 in Hb.
  unfold KernelCcm.common, KernelCcm.next_level, Kernel.next_level,
    KernelCcm.level_size.
  cbn [Kernel.width Kernel.height Kernel.mipmap_count Kernel.pixels
       KernelCcm.w KernelCcm.h KernelCcm.n_mipmaps KernelCcm.pixels].
  change (to_GLsizei (to_GLsizei (KernelCcm.w p * KernelCcm.h p) * 4))
    with (Kernel.level_size (KernelCcm.common p)).
  rewrite (to_GLuint_small (Kernel.level_size (KernelCcm.common p)))
    by (change (2 ^ 32) with 4294967296; lia).
  reflexivity.
Qed.

Lemma ccm_specify_levels_S (fuel : nat) (i : Z)
    (p : KernelCcm.texture_parameters) :
  KernelCcm.specify_levels (S fuel) i p =
    (if negb (i =? KernelCcm.n_mipmaps p) then
       gl_void (TexImage2D GL_TEXTURE_2D i GL_RGBA8 (KernelCcm.w p)
                  (KernelCcm.h p) 0 GL_RGBA GL_UNSIGNED_BYTE
                  (KernelCcm.level_pixel_data p)) ;;
       code <- glGetError ;;
       if negb (code =? GL_NO_ERROR) then
         ret (Some (Some {| line := 272; code := code |}))
       else
         KernelCcm.specify_levels fuel (to_GLint (i + 1))
           (KernelCcm.next_level p)
     else ret (Some None)).
Proof. reflexivity. Qed.

Lemma ccm_specify_levels_eq (fuel : nat) :
  forall (i : Z) (p : KernelCcm.texture_parameters) (st : gl_state),
    1 <= KernelCcm.w p <= 16383 -> 1 <= KernelCcm.h p <= 16383 ->
    KernelCcm.specify_levels fuel i p st =
      relabel 272 (Kernel.specify_levels fuel i (KernelCcm.common p) st).
Proof.
  induction fuel as [| fuel IH]; intros i p st Hw Hh; [reflexivity | ].
  rewrite ccm_specify_levels_S, specify_levels_S.
  change (Kernel.mipmap_count (KernelCcm.common p))
    with (KernelCcm.n_mipmaps p).
  destruct (i =? KernelCcm.n_mipmaps p); [reflexivity | ].
  change (negb false) with true. cbv iota.
  unfold bind, gl_void. cbv beta iota.
  change (Kernel.level_pixel_data (KernelCcm.common p))
    with (KernelCcm.level_pixel_data p).
  change (Kernel.width (KernelCcm.common p)) with (KernelCcm.w p).
  change (Kernel.height (KernelCcm.common p)) with (KernelCcm.h p).
  destruct (glGetError _) as [c st2].
  destruct (c =? GL_NO_ERROR).
  - change (negb true) with false. cbv iota.
    rewrite <- (ccm_next_level_common p Hw Hh).
    apply IH.
    + unfold KernelCcm.next_level. cbn [KernelCcm.w].
      rewrite Z.quot_div_nonneg by lia. now apply halve_bounds.
    + unfold KernelCcm.next_level. cbn [KernelCcm.h].
      rewrite Z.quot_div_nonneg by lia. now apply halve_bounds.
  - reflexivity.
Qed.

(** On validated parameters the texture initialization of this revision
    returns, restores the binding on the exits after its bind, and
    issues the same chain of [glTexImage2D] calls. *)
Lemma ccm_initialize_texture_spec (p : KernelCcm.texture_parameters)
    (st : gl_state) :
  ccm_validated p ->
  exists r st' k,
    KernelCcm.initialize_texture p st = (Some r, st') /\
    binding_outcome (TextureBinding GL_TEXTURE_2D) is_BindTexture
      (BindTexture GL_TEXTURE_2D) (ccm_texture_bind_reached r) st st' /\
    (k <= Z.to_nat (KernelCcm.n_mipmaps p))%nat /\
    calls_of is_TexImage2D (new_events st st') =
      map MipChain.upload
        (firstn k
           (MipChain.chain (Z.to_nat (KernelCcm.n_mipmaps p)) 0
              (KernelCcm.w p) (KernelCcm.h p) (KernelCcm.pixels p))) /\
    (is_value r = true -> k = Z.to_nat (KernelCcm.n_mipmaps p)).
Proof.
  intros Hv.
  unfold KernelCcm.initialize_texture, KernelCcm.texture_guard, bind, ret.
  run_discard st.
  assert (Hcheck := validated_check (KernelCcm.common p) Hv).
  cbn [KernelCcm.common Kernel.width Kernel.height Kernel.mipmap_count]
    in Hcheck.
  rewrite Hcheck. clear Hcheck.
  run_value. run_get. run_if.
  - run_void. run_void. run_void. run_get. run_if.
    + run_void. run_void. run_get. run_if.
      * destruct Hv as (Hw & Hh & Hc).
        cbn [KernelCcm.common Kernel.width Kernel.height Kernel.mipmap_count]
          in Hw, Hh, Hc.
        rewrite (ccm_specify_levels_eq _ 0 p _ Hw Hh).
        match goal with
        | |- context [Kernel.specify_levels _ 0 _ ?s] =>
            destruct (specify_levels_spec
                        (Z.to_nat (KernelCcm.n_mipmaps p)) 0
                        (KernelCcm.common p) s)
              as (outcome & st' & new & k & Hloop & Hdrv' & Hbnd' & Htr'
                    & Honly & Hk & Hcalls & Hout);
              try (cbn [KernelCcm.common Kernel.width Kernel.height
                          Kernel.mipmap_count]; lia)
        end.
        rewrite Hloop. unfold relabel. cbn [fst snd].
        cbn [KernelCcm.common Kernel.width Kernel.height Kernel.pixels]
          in Hcalls.
        assert (Hnb : calls_of is_BindTexture new = [])
          by (apply (only_calls_calls_of _ _ _ Honly);
              intros [] ?; (discriminate || reflexivity)).
        destruct outcome as [e | ]; cbv beta iota.
        -- run_void. run_destroy.
           do 2 eexists. exists k. split; [reflexivity | ].
           simpl. split; [ | split; [exact Hk | split]].
           ++ split; [solve_unbound | ].
              exists (to_name (object_new Texture r)).
              name_new. simp_calls. fold (calls_of is_BindTexture new).
              rewrite Hnb. reflexivity.
           ++ name_new. simp_calls. fold (calls_of is_TexImage2D new).
              rewrite Hcalls. reflexivity.
           ++ discriminate.
        -- unfold move_construct. run_void. run_destroy.
           do 2 eexists. exists k. split; [reflexivity | ].
           simpl. split; [ | split; [exact Hk | split]].
           ++ split; [solve_unbound | ].
              exists (to_name (object_new Texture r)).
              name_new. simp_calls. fold (calls_of is_BindTexture new).
              rewrite Hnb. reflexivity.
           ++ name_new. simp_calls. fold (calls_of is_TexImage2D new).
              rewrite Hcalls. reflexivity.
           ++ intros _. exact Hout.
      * run_void. run_destroy.
        do 2 eexists. exists 0%nat. split; [reflexivity | ].
        simpl. split; [ | split; [lia | split]].
        -- split; [solve_unbound | ].
           exists (to_name (object_new Texture r)).
           name_new. simp_calls. reflexivity.
        -- name_new. simp_calls. reflexivity.
        -- discriminate.
    + run_void. run_destroy.
      do 2 eexists. exists 0%nat. split; [reflexivity | ].
      simpl. split; [ | split; [lia | split]].
      * split; [solve_unbound | ].
        exists (to_name (object_new Texture r)).
        name_new. simp_calls. reflexivity.
      * name_new. simp_calls. reflexivity.
      * discriminate.
  - run_destroy.
    do 2 eexists. exists 0%nat. split; [reflexivity | ].
    simpl. split; [ | split; [lia | split]].
    + name_new. simp_calls. reflexivity.
    + name_new. simp_calls. reflexivity.
    + discriminate.
Qed.

Lemma ccm_texture_unbound_on_return (p : KernelCcm.texture_parameters)
    (st : gl_state) :
  exists r st',
    KernelCcm.initialize_texture p st = (Some r, st') /\
    binding_outcome (TextureBinding GL_TEXTURE_2D) is_BindTexture
      (BindTexture GL_TEXTURE_2D) (ccm_texture_bind_reached r) st st'.
Proof.
  destruct (((KernelCcm.w p <=? 0) || (KernelCcm.w p >=? 16384)) ||
            ((KernelCcm.h p <=? 0) || (KernelCcm.h p >=? 16384)) ||
            ((KernelCcm.n_mipmaps p <=? 0) ||
             (KernelCcm.n_mipmaps p >=? 16384))) eqn:Hcheck.
  - unfold KernelCcm.initialize_texture, bind, ret.
    run_discard st. rewrite Hcheck.
    do 2 eexists. split; [reflexivity | ].
    simpl. name_new. simp_calls. reflexivity.
  - destruct (ccm_initialize_texture_spec p st
                (not_rejected_validated (KernelCcm.common p) Hcheck))
      as (r & st' & k & Hrun & Hbind & _).
    exists r, st'. split; assumption.
Qed.

(** The walk of this revision on the 256 x 256 texture with four levels
    and pixel data for level 0 only. *)
Example ccm_mip_chain_walk :
  let p := {| KernelCcm.w := 256; KernelCcm.h := 256;
              KernelCcm.n_mipmaps := 4;
              KernelCcm.min_filter := 0x2601; KernelCcm.mag_filter := 0x2601;
              KernelCcm.wrap_s := 0x812F; KernelCcm.wrap_t := 0x812F;
              KernelCcm.pixels := {| sp_data := 4096; sp_size := 262144 |} |} in
  let st := Fake.fresh Fake.healthy in
  calls_of is_TexImage2D (trace (snd (KernelCcm.initialize_texture p st))) =
    map MipChain.upload
      (MipChain.chain 4 0 256 256 {| sp_data := 4096; sp_size := 262144 |}) /\
  map extent
    (MipChain.chain 4 0 256 256 {| sp_data := 4096; sp_size := 262144 |}) =
    [(256, 256); (128, 128); (64, 64); (32, 32)] /\
  map MipChain.lv_data
    (MipChain.chain 4 0 256 256 {| sp_data := 4096; sp_size := 262144 |}) =
    [4096; nullptr; nullptr; nullptr].
Proof. cbv zeta. repeat split. Qed.

(** ** Runs on scripted backends *)

(** A healthy backend: the buffer is generated, bound, filled and
    unbound, and nothing is deleted. *)
Example buffer_success :
  let p := {| Kernel.buffer_type := 0x8892; Kernel.usage := 0x88E4;
              Kernel.bytes := {| sp_data := 4096; sp_size := 16 |} |} in
  let r := Kernel.initialize_buffer p (Fake.fresh Fake.healthy) in
  fst r = value {| handle := 7 |} /\
  map ev_call (rev (trace (snd r))) =
    [GetError; GenBuffers 1; GetError; BindBuffer 0x8892 7;
     BufferData 0x8892 16 4096 0x88E4; GetError; BindBuffer 0x8892 0] /\
  bound (snd r) (BufferBinding 0x8892) = 0.
Proof. cbv zeta. repeat split. Qed.

(** The upload records [GL_OUT_OF_MEMORY]: the failure carries it, the
    buffer is unbound and then deleted. *)
Example buffer_upload_failure :
  let p := {| Kernel.buffer_type := 0x8892; Kernel.usage := 0x88E4;
              Kernel.bytes := {| sp_data := 4096; sp_size := 16 |} |} in
  let failing :=
    Fake.scripted Fake.healthy_answer
      (fun c => match c with BufferData _ _ _ _ => true | _ => false end)
      [0x0505] in
  let r := Kernel.initialize_buffer p (Fake.fresh failing) in
  fst r = unexpected {| line := 153; code := 0x0505 |} /\
  map ev_call (rev (trace (snd r))) =
    [GetError; GenBuffers 1; GetError; BindBuffer 0x8892 7;
     BufferData 0x8892 16 4096 0x88E4; GetError; BindBuffer 0x8892 0;
     DeleteBuffers 1 7] /\
  bound (snd r) (BufferBinding 0x8892) = 0.
Proof. cbv zeta. repeat split. Qed.

(** Flags recorded before the call are fetched and dropped by
    [discard_errors]. *)
Example stale_errors_are_discarded :
  let p := {| Kernel.buffer_type := 0x8892; Kernel.usage := 0x88E4;
              Kernel.bytes := {| sp_data := 4096; sp_size := 16 |} |} in
  let st := {| driver := Fake.healthy; trace := [];
               pending := [0x0500; 0x0502]; bound := fun _ => 0 |} in
  let r := Kernel.initialize_buffer p st in
  fst r = value {| handle := 7 |} /\
  map ev_ret (firstn 3 (rev (trace (snd r)))) = [0x0500; 0x0502; 0].
Proof. cbv zeta. repeat split. Qed.

(** A healthy backend links the program; both shaders are deleted, the
    fragment shader first, and the program is not. *)
Example program_success :
  let p := {| Kernel.vertex_shader_code := "void main() {}";
              Kernel.fragment_shader_code := "void main() {}" |} in
  let r := Kernel.initialize_program p (Fake.fresh Fake.healthy) in
  fst r = value {| handle := 13 |} /\
  calls_of is_delete (trace (snd r)) = [DeleteShader 12; DeleteShader 11] /\
  calls_of is_CreateShader (trace (snd r)) =
    [CreateShader GL_VERTEX_SHADER; CreateShader GL_FRAGMENT_SHADER].
Proof. cbv zeta. repeat split. Qed.

(** The fragment shader fails to compile: it is deleted inside its own
    initialization, then the vertex shader on the way out; no program
    is created. *)
Example program_fragment_failure :
  let p := {| Kernel.vertex_shader_code := "void main() {}";
              Kernel.fragment_shader_code := "void main() {" |} in
  let r := Kernel.initialize_program p (Fake.fresh (Fake.rejecting 12)) in
  fst r = unexpected {| line := 388; code := 0 |} /\
  calls_of is_delete (trace (snd r)) = [DeleteShader 12; DeleteShader 11] /\
  count_calls (fun c => match c with CreateProgram => true | _ => false end)
    (trace (snd r)) = 0%nat.
Proof. cbv zeta. repeat split. Qed.

(** A color target alone on a backend that reports an incomplete
    attachment, in both revisions. *)
Example framebuffer_incomplete :
  fst (Kernel.initialize_framebuffer
         {| Kernel.render_target := 3; Kernel.depth_buffer := 0 |}
         (Fake.fresh Fake.incomplete))
    = unexpected {| line := 329; code := 0x8CD6 |} /\
  fst (KernelCcm.initialize_framebuffer
         {| KernelCcm.render_target := 3 |} (Fake.fresh Fake.incomplete))
    = unexpected {| line := 351; code := 0x8CD6 |}.
Proof. split; reflexivity. Qed.

(** * Further properties *)

(** ** discard_errors *)

Lemma events_of_app (f : call -> bool) (l1 l2 : list event) :
  events_of f (l1 ++ l2) = events_of f l2 ++ events_of f l1.
Proof. unfold events_of. now rewrite filter_app, rev_app_distr. Qed.

Lemma events_of_cons (f : call -> bool) (e : event) (l : list event) :
  events_of f (e :: l) = events_of f l ++ (if f (ev_call e) then [e] else []).
Proof.
  unfold events_of. simpl. destruct (f (ev_call e)); simpl; [reflexivity | ].
  now rewrite app_nil_r.
Qed.

Lemma events_of_only_GetError (f : call -> bool) (l : list event) :
  only_GetError l -> f GetError = false -> events_of f l = [].
Proof.
  intros H Hf. induction H as [| e l He _ IH]; [reflexivity | ].
  rewrite events_of_cons, He, Hf, IH. reflexivity.
Qed.

Lemma events_of_deleted (f : call -> bool) (k : kind) (h : Z) :
  (forall c, is_delete c = true -> f c = false) ->
  events_of f (if h =? 0 then []
               else [{| ev_call := Deleter k h; ev_ret := 0 |}]) = [].
Proof.
  intros Hf. destruct (h =? 0); [reflexivity | ].
  unfold events_of. simpl. now rewrite (Hf _ (Deleter_is_delete k h)).
Qed.

Lemma discard_errors_loop_drains (flags : list Z) :
  Forall (fun flag => to_GLenum flag <> GL_NO_ERROR) flags ->
  forall tr,
    discard_errors_loop flags tr =
      ([], {| ev_call := GetError; ev_ret := GL_NO_ERROR |}
             :: rev (map (fun flag => {| ev_call := GetError;
                                         ev_ret := to_GLenum flag |}) flags)
             ++ tr).
Proof.
  induction 1 as [| flag rest Hflag _ IH]; intros tr; [reflexivity | ].
  simpl. rewrite (proj2 (Z.eqb_neq _ _) Hflag), IH.
  rewrite <- app_assoc. reflexivity.
Qed.

(** X1.  When every recorded error flag is a non-zero [GLenum],
    [discard_errors] fetches each of them once, in the order they were
    recorded, then one [GL_NO_ERROR], and issues nothing else; no flag
    is left, so the next [glGetError] answers [GL_NO_ERROR]; the
    bindings are untouched. *)
Theorem discard_errors_drains_every_flag :
  forall st : gl_state,
    Forall (fun flag => to_GLenum flag <> GL_NO_ERROR) (pending st) ->
    let st' := snd (discard_errors st) in
    pending st' = [] /\
    fst (glGetError st') = GL_NO_ERROR /\
    map ev_call (new_events st st')
      = repeat GetError (S (List.length (pending st))) /\
    map ev_ret (rev (new_events st st'))
      = map to_GLenum (pending st) ++ [GL_NO_ERROR] /\
    bound st' = bound st.
Proof.
  intros st H. cbv zeta. unfold discard_errors.
  rewrite (discard_errors_loop_drains (pending st) H (trace st)).
  cbn [snd pending bound]. split; [reflexivity | ].
  split; [reflexivity | ].
  rewrite (new_events_app st _
             ({| ev_call := GetError; ev_ret := GL_NO_ERROR |}
                :: rev (map (fun flag => {| ev_call := GetError;
                                            ev_ret := to_GLenum flag |})
                          (pending st))))
    by reflexivity.
  split; [ | split; [ | reflexivity]].
  - cbn [map ev_call repeat]. f_equal.
    rewrite map_rev, map_map. cbn [ev_call].
    generalize (pending st) as flags.
    induction flags as [| flag flags IH]; [reflexivity | ].
    cbn [map rev List.length repeat]. rewrite IH.
    change [GetError] with (repeat GetError 1).
    rewrite <- repeat_app. rewrite Nat.add_1_r. reflexivity.
  - cbn [rev]. rewrite rev_involutive, map_app, map_map. reflexivity.
Qed.

Lemma discard_errors_drains_every_flag_witness :
  let st := {| driver := Fake.healthy; trace := [];
               pending := [0x0500; 0x0502]; bound := fun _ => 0 |} in
  let st' := snd (discard_errors st) in
  pending st' = [] /\
  fst (glGetError st') = GL_NO_ERROR /\
  map ev_call (new_events st st') = [GetError; GetError; GetError] /\
  map ev_ret (rev (new_events st st')) = [0x0500; 0x0502; GL_NO_ERROR] /\
  bound st' = bound st.
Proof.
  apply (discard_errors_drains_every_flag
           {| driver := Fake.healthy; trace := [];
              pending := [0x0500; 0x0502]; bound := fun _ => 0 |}).
  repeat constructor; discriminate.
Defined.

(** ** Ownership of generated names *)

Lemma events_of_only_calls (f g : call -> bool) (l : list event) :
  only_calls f l -> (forall c, f c = true -> g c = false) ->
  events_of g l = [].
Proof.
  intros H Hfg. induction H as [| e l He _ IH]; [reflexivity | ].
  rewrite events_of_cons, (Hfg _ He), IH. reflexivity.
Qed.

Lemma calls_of_is_delete_deleted (k : kind) (h : Z) :
  calls_of is_delete (if h =? 0 then []
                      else [{| ev_call := Deleter k h; ev_ret := 0 |}])
    = (if h =? 0 then [] else [Deleter k h]).
Proof.
  destruct (h =? 0); [reflexivity | ].
  unfold calls_of. simpl. now rewrite Deleter_is_delete.
Qed.

Lemma calls_of_nil (f : call -> bool) : calls_of f [] = [].
Proof. reflexivity. Qed.

Lemma events_of_nil (f : call -> bool) : events_of f [] = [].
Proof. reflexivity. Qed.

(** Normalise [events_of] and [calls_of] on the events of a run. *)
Ltac simp_owned :=
  subst;
  repeat (rewrite events_of_app || rewrite events_of_cons
          || rewrite calls_of_app || rewrite calls_of_cons);
  repeat match goal with
         | H : only_GetError ?g |- context [events_of ?f ?g] =>
             rewrite (events_of_only_GetError f g H) by reflexivity
         | H : only_GetError ?g |- context [calls_of ?f ?g] =>
             rewrite (only_GetError_calls_of f g H) by reflexivity
         | H : only_calls ?u ?g |- context [events_of ?f ?g] =>
             rewrite (events_of_only_calls u f g H)
               by (intros [] ?; (discriminate || reflexivity))
         | H : only_calls ?u ?g |- context [calls_of ?f ?g] =>
             rewrite (only_calls_calls_of u f g H)
               by (intros [] ?; (discriminate || reflexivity))
         | |- context [calls_of is_delete (if ?h =? 0 then [] else _)] =>
             rewrite calls_of_is_delete_deleted
         | |- context [events_of ?f (if ?h =? 0 then [] else _)] =>
             rewrite (events_of_deleted f)
               by (intros [] ?; (discriminate || reflexivity))
         | |- context [calls_of ?f (if ?h =? 0 then [] else _)] =>
             rewrite (calls_of_deleted f)
               by (intros [] ?; (discriminate || reflexivity))
         end;
  rewrite ?calls_of_nil, ?events_of_nil;
  cbn [ev_call ev_ret Deleter app is_BindBuffer is_BindTexture
         is_BindFramebuffer is_GetError is_GenBuffers is_GenFramebuffers
         is_GenTextures is_FramebufferTexture2D is_CreateProgram
         is_TexParameteri is_linking is_CreateShader is_CompileShader
         is_DeleteShader is_DeleteProgram is_TexImage2D is_delete
         object_new to_name handle];
  repeat rewrite app_nil_r; cbn [app].

(** X2.  Buffer initialization asks for at most one name.  On success
    the returned handle holds exactly the name the backend gave, and
    nothing is deleted.  On the local failure no name was requested.
    On every other failure the generated name is deleted once before
    the call returns, unless it is zero. *)
Theorem buffer_name_owned_or_released :
  forall (p : Kernel.buffer_parameters) (st : gl_state),
    let r := Kernel.initialize_buffer p st in
    let new := new_events st (snd r) in
    match fst r with
    | value o =>
        events_of is_GenBuffers new
          = [{| ev_call := GenBuffers 1; ev_ret := handle o |}] /\
        calls_of is_delete new = []
    | unexpected e =>
        if line e =? 125 then
          events_of is_GenBuffers new = [] /\ calls_of is_delete new = []
        else
          exists name,
            events_of is_GenBuffers new
              = [{| ev_call := GenBuffers 1; ev_ret := name |}] /\
            calls_of is_delete new
              = (if name =? 0 then [] else [DeleteBuffers 1 name])
    end.
Proof.
  intros p st. cbv zeta.
  unfold Kernel.initialize_buffer, Kernel.buffer_guard, bind, ret.
  run_discard st.
  destruct (_ || _).
  - simpl. name_new. simp_owned. split; reflexivity.
  - run_value. run_get. run_if.
    + run_void. run_void. run_get. run_if.
      * unfold move_construct. run_void. run_destroy.
        simpl fst. simpl snd. cbv beta iota. name_new. simp_owned.
        split; reflexivity.
      * run_void. run_destroy.
        simpl fst. simpl snd. cbv beta iota. cbn [line].
        change (153 =? 125) with false. cbv iota.
        exists r. name_new. simp_owned. split; reflexivity.
    + run_destroy.
      simpl fst. simpl snd. cbv beta iota. cbn [line].
      change (134 =? 125) with false. cbv iota.
      exists r. name_new. simp_owned. split; reflexivity.
Qed.

(** X4.  Framebuffer initialization always asks for exactly one name.
    On success the returned handle holds that name and nothing is
    deleted; on every failure the name is deleted once before the call
    returns, unless it is zero. *)
Theorem framebuffer_name_owned_or_released :
  forall (p : Kernel.framebuffer_parameters) (st : gl_state),
    let r := Kernel.initialize_framebuffer p st in
    let new := new_events st (snd r) in
    match fst r with
    | value o =>
        events_of is_GenFramebuffers new
          = [{| ev_call := GenFramebuffers 1; ev_ret := handle o |}] /\
        calls_of is_delete new = []
    | unexpected e =>
        exists name,
          events_of is_GenFramebuffers new
            = [{| ev_call := GenFramebuffers 1; ev_ret := name |}] /\
          calls_of is_delete new
            = (if name =? 0 then [] else [DeleteFramebuffers 1 name])
    end.
Proof.
  intros p st. cbv zeta.
  unfold Kernel.initialize_framebuffer, Kernel.framebuffer_guard, bind, ret.
  run_discard st. run_value. run_get. run_if.
  - run_void.
    destruct (Z.eqb_spec (Kernel.render_target p) 0);
      destruct (Z.eqb_spec (Kernel.depth_buffer p) 0);
      cbn [negb]; cbv beta iota; repeat run_void;
      run_value; run_if;
      try (run_get; run_if);
      unfold move_construct; run_void; run_destroy;
      simpl fst; simpl snd; cbv beta iota;
      try (exists r); name_new; simp_owned; split; reflexivity.
  - run_destroy. simpl fst. simpl snd. cbv beta iota.
    exists r. name_new. simp_owned. split; reflexivity.
Qed.

(** X5.  Shader initialization asks for exactly one shader object, of
    the requested type.  On success the returned handle holds the name
    the backend gave, that name is not zero, and nothing is deleted;
    on every failure the created shader is deleted once before the
    call returns, unless no shader was created (name zero). *)
Theorem shader_name_owned_or_released :
  forall (p : Kernel.shader_parameters) (st : gl_state),
    let r := Kernel.initialize_shader p st in
    let new := new_events st (snd r) in
    match fst r with
    | value o =>
        handle o <> 0 /\
        events_of is_CreateShader new
          = [{| ev_call := CreateShader (Kernel.shader_type p);
                ev_ret := handle o |}] /\
        calls_of is_delete new = []
    | unexpected e =>
        exists name,
          events_of is_CreateShader new
            = [{| ev_call := CreateShader (Kernel.shader_type p);
                  ev_ret := name |}] /\
          calls_of is_delete new
            = (if name =? 0 then [] else [DeleteShader name])
    end.
Proof.
  intros p st. cbv zeta.
  unfold Kernel.initialize_shader, bind, ret.
  run_discard st. run_value.
  unfold object_new, to_name. cbn [handle].
  destruct (Z.eqb_spec r 0) as [Hr | Hr].
  - run_destroy. simpl fst. simpl snd. cbv beta iota.
    exists r. name_new. simp_owned. split; reflexivity.
  - run_void. run_void. run_value.
    destruct (Z.eqb_spec r0 0) as [Hs | Hs].
    + run_destroy. simpl fst. simpl snd. cbv beta iota.
      exists r. name_new. simp_owned. split; reflexivity.
    + run_get. run_if.
      * unfold move_construct. run_destroy.
        simpl fst. simpl snd. cbv beta iota. cbn [handle].
        split; [exact Hr | ]. name_new. simp_owned. split; reflexivity.
      * run_destroy. simpl fst. simpl snd. cbv beta iota.
        exists r. name_new. simp_owned. split; reflexivity.
Qed.

(** X3.  Texture initialization returns and asks for at most one name.
    On success the returned handle holds exactly the name the backend
    gave, and nothing is deleted.  On the local failure no name was
    requested.  On every other failure, also one reported while the
    levels are specified, the generated name is deleted once before
    the call returns, unless it is zero. *)
Theorem texture_name_owned_or_released :
  forall (p : Kernel.texture_parameters) (st : gl_state),
    let r := Kernel.initialize_texture p st in
    let new := new_events st (snd r) in
    match fst r with
    | Some (value o) =>
        events_of is_GenTextures new
          = [{| ev_call := GenTextures 1; ev_ret := handle o |}] /\
        calls_of is_delete new = []
    | Some (unexpected e) =>
        if line e =? 201 then
          events_of is_GenTextures new = [] /\ calls_of is_delete new = []
        else
          exists name,
            events_of is_GenTextures new
              = [{| ev_call := GenTextures 1; ev_ret := name |}] /\
            calls_of is_delete new
              = (if name =? 0 then [] else [DeleteTextures 1 name])
    | None => False
    end.
Proof.
  intros p st. cbv zeta.
  unfold Kernel.initialize_texture, Kernel.texture_guard, bind, ret.
  run_discard st.
  destruct (((Kernel.width p <=? 0) || (Kernel.width p >=? 16384)) ||
            ((Kernel.height p <=? 0) || (Kernel.height p >=? 16384)) ||
            ((Kernel.mipmap_count p <=? 0) ||
             (Kernel.mipmap_count p >=? 16384))) eqn:Hcheck.
  - simpl. name_new. simp_owned. split; reflexivity.
  - destruct (not_rejected_validated p Hcheck) as (Hw & Hh & Hc).
    run_value. run_get. run_if.
    + run_void. run_get. run_if.
      * match goal with
        | |- context [Kernel.specify_levels _ 0 p ?s] =>
            destruct (specify_levels_spec
                        (Z.to_nat (Kernel.mipmap_count p)) 0 p s)
              as (outcome & st' & new & k & Hloop & Hdrv' & Hbnd' & Htr'
                    & Honly & Hk & Hcalls & Hout); try lia
        end.
        rewrite Hloop. cbv beta iota.
        destruct outcome as [e | ].
        -- run_void. run_destroy.
           simpl fst. simpl snd. cbv beta iota.
           destruct Hout as [Hline _]. rewrite Hline.
           change (245 =? 201) with false. cbv iota.
           exists r. name_new. clear Hcalls. simp_owned.
           split; reflexivity.
        -- unfold move_construct. run_void. run_destroy.
           simpl fst. simpl snd. cbv beta iota.
           name_new. clear Hcalls Hout. simp_owned. split; reflexivity.
      * run_void. run_destroy.
        simpl fst. simpl snd. cbv beta iota. cbn [line].
        change (225 =? 201) with false. cbv iota.
        exists r. name_new. simp_owned. split; reflexivity.
    + run_destroy.
      simpl fst. simpl snd. cbv beta iota. cbn [line].
      change (210 =? 201) with false. cbv iota.
      exists r. name_new. simp_owned. split; reflexivity.
Qed.

(** ** Texture: rejection, and the shape of the level uploads *)

Lemma validated_iff_check (p : Kernel.texture_parameters) :
  ~ validated p ->
  ((Kernel.width p <=? 0) || (Kernel.width p >=? 16384)) ||
  ((Kernel.height p <=? 0) || (Kernel.height p >=? 16384)) ||
  ((Kernel.mipmap_count p <=? 0) || (Kernel.mipmap_count p >=? 16384))
  = true.
Proof.
  intros H.
  destruct (((Kernel.width p <=? 0) || (Kernel.width p >=? 16384)) ||
            ((Kernel.height p <=? 0) || (Kernel.height p >=? 16384)) ||
            ((Kernel.mipmap_count p <=? 0) ||
             (Kernel.mipmap_count p >=? 16384))) eqn:Hcheck;
    [reflexivity | ].
  contradiction H. now apply not_rejected_validated.
Qed.

(** On validated parameters every failure carries a non-zero error flag
    and comes from one of the three checks after a backend call. *)
Lemma validated_texture_failure (p : Kernel.texture_parameters)
    (st : gl_state) :
  validated p ->
  exists r,
    fst (Kernel.initialize_texture p st) = Some r /\
    match r with
    | value _ => True
    | unexpected e =>
        code e <> 0 /\ (line e = 210 \/ line e = 225 \/ line e = 245)
    end.
Proof.
  intros Hv.
  unfold Kernel.initialize_texture, Kernel.texture_guard, bind, ret.
  run_discard st. rewrite (validated_check p Hv).
  destruct Hv as (Hw & Hh & Hc).
  run_value. run_get. run_if.
  - run_void. run_get. run_if.
    + match goal with
      | |- context [Kernel.specify_levels _ 0 p ?s] =>
          destruct (specify_levels_spec
                      (Z.to_nat (Kernel.mipmap_count p)) 0 p s)
            as (outcome & st' & new & k & Hloop & _ & _ & _ & _ & _ & _
                  & Hout); try lia
      end.
      rewrite Hloop. cbv beta iota.
      destruct outcome as [e | ].
      * run_void. run_destroy. eexists. split; [reflexivity | ].
        destruct Hout as [Hline Hcode]. split; [exact Hcode | tauto].
      * unfold move_construct. run_void. run_destroy.
        eexists. split; [reflexivity | exact I].
    + run_void. run_destroy. eexists. split; [reflexivity | ].
      simpl. split; [assumption | tauto].
  - run_destroy. eexists. split; [reflexivity | ].
    simpl. split; [assumption | tauto].
Qed.

(** X6.  Texture initialization returns the local failure of line 201,
    code 0, exactly when the width, the height or the mipmap count lies
    outside 1..16383; in that case it issued nothing but the
    [glGetError] calls of [discard_errors] and left the bindings as
    they were. *)
Theorem texture_rejected_iff_out_of_range :
  forall (p : Kernel.texture_parameters) (st : gl_state),
    let r := Kernel.initialize_texture p st in
    (fst r = Some (unexpected {| line := 201; code := 0 |})
     <-> ~ validated p) /\
    (~ validated p ->
     count_calls is_GetError (new_events st (snd r))
       = List.length (new_events st (snd r)) /\
     bound (snd r) = bound st).
Proof.
  intros p st. cbv zeta.
  assert (Hrej : ~ validated p ->
            fst (Kernel.initialize_texture p st)
              = Some (unexpected {| line := 201; code := 0 |}) /\
            count_calls is_GetError
              (new_events st (snd (Kernel.initialize_texture p st)))
              = List.length
                  (new_events st (snd (Kernel.initialize_texture p st))) /\
            bound (snd (Kernel.initialize_texture p st)) = bound st).
  { intros Hn.
    unfold Kernel.initialize_texture, bind, ret.
    run_discard st. rewrite (validated_iff_check p Hn).
    simpl fst. simpl snd. split; [reflexivity | ].
    rewrite (new_events_app st st0 gets Htr).
    split; [now apply only_GetError_all | assumption]. }
  split; [split | ].
  - intros Hr Hv.
    destruct (validated_texture_failure p st Hv) as (r & Hrun & Hres).
    rewrite Hrun in Hr. injection Hr as ->.
    destruct Hres as [Hcode _]. now apply Hcode.
  - intros Hn. now apply Hrej.
  - intros Hn. now apply Hrej.
Qed.

Lemma texture_rejected_iff_out_of_range_witness :
  let p := {| Kernel.width := 16384; Kernel.height := 16; 
              Kernel.mipmap_count := 1;
              Kernel.pixels := {| sp_data := 4096; sp_size := 64 |} |} in
  let st := Fake.fresh Fake.healthy in
  let r := Kernel.initialize_texture p st in
  count_calls is_GetError (new_events st (snd r))
    = List.length (new_events st (snd r)) /\
  bound (snd r) = bound st.
Proof.
  cbv zeta.
  apply (proj2 (texture_rejected_iff_out_of_range
                  {| Kernel.width := 16384; Kernel.height := 16; 
                     Kernel.mipmap_count := 1;
                     Kernel.pixels :=
                       {| sp_data := 4096; sp_size := 64 |} |}
                  (Fake.fresh Fake.healthy))).
  unfold validated. simpl. lia.
Defined.

Lemma Forall_firstn_of (A : Type) (P : A -> Prop) (n : nat) (l : list A) :
  Forall P l -> Forall P (firstn n l).
Proof.
  intros H. revert n. induction H as [| x l Hx _ IH]; intros [| n];
    simpl; constructor; auto.
Qed.

(** The uploads of a validated run, without the rest of the story. *)
Lemma texture_uploads (p : Kernel.texture_parameters) (st : gl_state) :
  validated p ->
  exists k,
    (k <= Z.to_nat (Kernel.mipmap_count p))%nat /\
    calls_of is_TexImage2D
      (new_events st (snd (Kernel.initialize_texture p st))) =
      map MipChain.upload
        (firstn k
           (MipChain.chain (Z.to_nat (Kernel.mipmap_count p)) 0
              (Kernel.width p) (Kernel.height p) (Kernel.pixels p))) /\
    (forall o, fst (Kernel.initialize_texture p st) = Some (value o) ->
               k = Z.to_nat (Kernel.mipmap_count p)).
Proof.
  intros Hv.
  destruct (initialize_texture_spec p st Hv)
    as (r & st' & k & Hrun & _ & Hk & Hcalls & Hall).
  exists k. rewrite Hrun. simpl fst. simpl snd.
  split; [exact Hk | ]. split; [exact Hcalls | ].
  intros o Ho. injection Ho as ->. now apply Hall.
Qed.

Lemma chain_reads_within (n : nat) :
  forall i w h s,
    1 <= w -> 1 <= h -> span_wf s ->
    Forall (fun l => reads_within s (MipChain.upload l))
      (MipChain.chain n i w h s).
Proof.
  induction n as [| n IH]; intros i w h s Hw Hh Hwf; simpl; constructor.
  - simpl. destruct (Z.ltb_spec (sp_size s) (w * h * 4)); [now left | ].
    right. lia.
  - assert (Hsz : 0 <= w * h * 4) by nia.
    assert (Hwf' := subspan_wf s (w * h * 4) Hwf Hsz).
    assert (Htail := IH (i + 1) (MipChain.halve w) (MipChain.halve h)
                       (subspan s (Z.min (w * h * 4) (sp_size s)))
                       ltac:(unfold MipChain.halve; lia)
                       ltac:(unfold MipChain.halve; lia) Hwf').
    apply (Forall_impl _ (P := fun l =>
             reads_within (subspan s (Z.min (w * h * 4) (sp_size s)))
               (MipChain.upload l))); [ | exact Htail].
    intros l Hl. unfold reads_within, MipChain.upload in *.
    destruct Hl as [Hl | Hl]; [now left | right].
    destruct Hwf as (Hsize & _). unfold subspan in Hl. simpl in Hl. lia.
Qed.

(** X7.  On validated parameters and a well-formed pixel span, every
    [glTexImage2D] call of texture initialization is given either a
    null pointer or a pointer from which the [width * height * 4] bytes
    of the level lie inside the caller's span: the backend is never
    made to read outside the pixel data. *)
Theorem texture_uploads_stay_within_span :
  forall (p : Kernel.texture_parameters) (st : gl_state),
    validated p -> span_wf (Kernel.pixels p) ->
    Forall (reads_within (Kernel.pixels p))
      (calls_of is_TexImage2D
         (new_events st (snd (Kernel.initialize_texture p st)))).
Proof.
  intros p st Hv Hwf.
  destruct (texture_uploads p st Hv) as (k & _ & Hcalls & _).
  rewrite Hcalls. apply Forall_map. apply Forall_firstn_of.
  destruct Hv as (Hw & Hh & _).
  apply chain_reads_within; (lia || assumption).
Qed.

Lemma texture_uploads_stay_within_span_witness :
  let p := {| Kernel.width := 4; Kernel.height := 4;
              Kernel.mipmap_count := 3;
              Kernel.pixels := {| sp_data := 4096; sp_size := 70 |} |} in
  Forall (reads_within (Kernel.pixels p))
    (calls_of is_TexImage2D
       (new_events (Fake.fresh Fake.healthy)
          (snd (Kernel.initialize_texture p (Fake.fresh Fake.healthy))))).
Proof.
  apply (texture_uploads_stay_within_span
           {| Kernel.width := 4; Kernel.height := 4;
              Kernel.mipmap_count := 3;
              Kernel.pixels := {| sp_data := 4096; sp_size := 70 |} |}
           (Fake.fresh Fake.healthy)).
  - unfold validated. simpl. lia.
  - unfold span_wf, nullptr. simpl. lia.
Defined.

Lemma chain_exhausted (n : nat) :
  forall i w h s,
    1 <= w -> 1 <= h -> sp_size s = 0 ->
    Forall (fun l => MipChain.lv_data l = nullptr) (MipChain.chain n i w h s).
Proof.
  induction n as [| n IH]; intros i w h s Hw Hh Hs; simpl; constructor.
  - simpl. rewrite Hs.
    destruct (Z.ltb_spec 0 (w * h * 4)); [reflexivity | nia].
  - apply IH; try (unfold MipChain.halve; lia).
    unfold subspan. simpl. rewrite Hs.
    assert (0 <= w * h * 4) by nia. lia.
Qed.

Lemma chain_null_is_final (n : nat) :
  forall i w h s a b l l',
    1 <= w -> 1 <= h -> span_wf s -> (a <= b)%nat ->
    nth_error (MipChain.chain n i w h s) a = Some l ->
    MipChain.lv_data l = nullptr ->
    nth_error (MipChain.chain n i w h s) b = Some l' ->
    MipChain.lv_data l' = nullptr.
Proof.
  induction n as [| n IH]; intros i w h s a b l l' Hw Hh Hwf Hab Ha Hnull Hb.
  - destruct a; discriminate Ha.
  - assert (Hsz : 4 <= w * h * 4) by nia.
    assert (Hwf' : span_wf (subspan s (Z.min (w * h * 4) (sp_size s))))
      by (apply subspan_wf; [exact Hwf | lia]).
    destruct a as [| a].
    + simpl in Ha. injection Ha as <-. simpl in Hnull.
      destruct b as [| b].
      * simpl in Hb. injection Hb as <-. exact Hnull.
      * simpl in Hb.
        destruct (Z.ltb_spec (sp_size s) (w * h * 4)) as [Hlt | Hge].
        -- destruct Hwf as (Hsize & _).
           assert (Hex := chain_exhausted n (i + 1) (MipChain.halve w)
                            (MipChain.halve h)
                            (subspan s (Z.min (w * h * 4) (sp_size s)))
                            ltac:(unfold MipChain.halve; lia)
                            ltac:(unfold MipChain.halve; lia)
                            ltac:(unfold subspan; simpl; lia)).
           apply (proj1 (Forall_forall _ _) Hex).
           now apply nth_error_In with (n := b).
        -- destruct Hwf as (_ & _ & _ & Hnn).
           exfalso. apply Hnn; [lia | exact Hnull].
    + destruct b as [| b]; [lia | ].
      simpl in Ha, Hb.
      apply (IH (i + 1) (MipChain.halve w) (MipChain.halve h)
               (subspan s (Z.min (w * h * 4) (sp_size s))) a b l l');
        try assumption; try (unfold MipChain.halve; lia).
Qed.

Lemma pixels_of_uploads (levels : list MipChain.level) :
  map pixels_argument (map MipChain.upload levels)
    = map MipChain.lv_data levels.
Proof. rewrite map_map. apply map_ext. reflexivity. Qed.

Lemma nth_error_map_firstn (A B : Type) (f : A -> B) (k a : nat)
    (l : list A) (y : B) :
  nth_error (map f (firstn k l)) a = Some y ->
  exists x, nth_error l a = Some x /\ f x = y.
Proof.
  rewrite nth_error_map, nth_error_firstn.
  destruct (a <? k)%nat; [ | discriminate].
  destruct (nth_error l a) as [x | ]; [ | discriminate].
  simpl. intros H. injection H as <-. now exists x.
Qed.

(** X8.  On validated parameters and a well-formed pixel span, once a
    level is specified with a null pointer every later level is
    specified with a null pointer too: the bytes left in a span too
    short for a level are dropped, not kept for the smaller levels. *)
Theorem texture_null_upload_is_final :
  forall (p : Kernel.texture_parameters) (st : gl_state),
    validated p -> span_wf (Kernel.pixels p) ->
    let given :=
      map pixels_argument
        (calls_of is_TexImage2D
           (new_events st (snd (Kernel.initialize_texture p st)))) in
    forall (a b : nat) (q : Z),
      (a <= b)%nat ->
      nth_error given a = Some nullptr ->
      nth_error given b = Some q ->
      q = nullptr.
Proof.
  intros p st Hv Hwf. cbv zeta.
  destruct (texture_uploads p st Hv) as (k & _ & Hcalls & _).
  rewrite Hcalls, pixels_of_uploads.
  intros a b q Hab Ha Hb.
  apply nth_error_map_firstn in Ha. destruct Ha as (l & Hl & Hnull).
  apply nth_error_map_firstn in Hb. destruct Hb as (l' & Hl' & <-).
  destruct Hv as (Hw & Hh & _).
  eapply (chain_null_is_final _ _ _ _ _ a b l l');
    [ | | exact Hwf | exact Hab | exact Hl | exact Hnull | exact Hl']; lia.
Qed.

(** A span that holds level 0 of a 4 x 4 texture and six bytes more:
    level 0 gets the data, level 1 (16 bytes) does not fit and gets a
    null pointer, and level 2 (4 bytes) gets a null pointer although
    six bytes were left. *)
Lemma texture_null_upload_is_final_witness :
  let p := {| Kernel.width := 4; Kernel.height := 4;
              Kernel.mipmap_count := 3;
              Kernel.pixels := {| sp_data := 4096; sp_size := 70 |} |} in
  let given :=
    map pixels_argument
      (calls_of is_TexImage2D
         (new_events (Fake.fresh Fake.healthy)
            (snd (Kernel.initialize_texture p (Fake.fresh Fake.healthy)))))
  in
  given = [4096; nullptr; nullptr] /\
  forall q : Z, nth_error given 2 = Some q -> q = nullptr.
Proof.
  cbv zeta. split; [reflexivity | ].
  intros q.
  apply (texture_null_upload_is_final
           {| Kernel.width := 4; Kernel.height := 4;
              Kernel.mipmap_count := 3;
              Kernel.pixels := {| sp_data := 4096; sp_size := 70 |} |}
           (Fake.fresh Fake.healthy)
           ltac:(unfold validated; simpl; lia)
           ltac:(unfold span_wf, nullptr; simpl; lia)
           1%nat 2%nat q ltac:(lia)).
  reflexivity.
Defined.

Lemma halve_pow (w : Z) (j : nat) :
  1 <= w ->
  Z.max 1 (MipChain.halve w / 2 ^ Z.of_nat j)
    = Z.max 1 (w / 2 ^ Z.of_nat (S j)).
Proof.
  intros Hw. unfold MipChain.halve.
  assert (Hp : 0 < 2 ^ Z.of_nat j) by (apply Z.pow_pos_nonneg; lia).
  replace (2 ^ Z.of_nat (S j)) with (2 * 2 ^ Z.of_nat j)
    by (rewrite Nat2Z.inj_succ, Z.pow_succ_r by lia; reflexivity).
  rewrite <- Z.div_div by lia.
  destruct (Z.le_gt_cases 1 (w / 2)) as [Hge | Hlt].
  - now rewrite (Z.max_r 1 (w / 2)) by lia.
  - assert (Hz : w / 2 = 0)
      by (assert (0 <= w / 2) by (apply Z.div_pos; lia); lia).
    rewrite Hz, (Z.max_l 1 0) by lia.
    rewrite Z.div_0_l by lia.
    destruct j as [| j].
    + simpl. reflexivity.
    + rewrite Z.div_small; [reflexivity | ].
      split; [lia | ].
      rewrite Nat2Z.inj_succ, Z.pow_succ_r by lia.
      assert (0 < 2 ^ Z.of_nat j) by (apply Z.pow_pos_nonneg; lia). lia.
Qed.

Lemma chain_extents (n : nat) :
  forall i w h s,
    1 <= w -> 1 <= h ->
    map (fun l => upload_extent (MipChain.upload l))
        (MipChain.chain n i w h s)
      = map (fun j => (i + Z.of_nat j,
                       Z.max 1 (w / 2 ^ Z.of_nat j),
                       Z.max 1 (h / 2 ^ Z.of_nat j))) (seq 0 n).
Proof.
  induction n as [| n IH]; intros i w h s Hw Hh; [reflexivity | ].
  cbn [MipChain.chain map seq]. f_equal.
  - cbn [upload_extent MipChain.upload MipChain.lv_index MipChain.lv_width
           MipChain.lv_height Z.of_nat].
    rewrite Z.pow_0_r, !Z.div_1_r, Z.add_0_r, !Z.max_r by lia.
    reflexivity.
  - rewrite IH by (unfold MipChain.halve; lia).
    rewrite <- seq_shift, map_map. apply map_ext. intros j.
    rewrite (halve_pow w j Hw), (halve_pow h j Hh).
    replace (i + Z.of_nat (S j)) with (i + 1 + Z.of_nat j)
      by (rewrite Nat2Z.inj_succ; lia).
    reflexivity.
Qed.

Lemma firstn_seq_le (k n a : nat) :
  (k <= n)%nat -> firstn k (seq a n) = seq a k.
Proof.
  revert n a. induction k as [| k IH]; intros n a Hk; [reflexivity | ].
  destruct n as [| n]; [lia | ].
  simpl. f_equal. apply IH. lia.
Qed.

(** X9.  On validated parameters the [glTexImage2D] calls of texture
    initialization are numbered 0, 1, 2, ... and call [j] specifies the
    extent [max 1 (width / 2^j)] by [max 1 (height / 2^j)]; on success
    there are exactly [mipmap_count] of them. *)
Theorem texture_level_extents_closed_form :
  forall (p : Kernel.texture_parameters) (st : gl_state),
    validated p ->
    let r := Kernel.initialize_texture p st in
    let uploads := calls_of is_TexImage2D (new_events st (snd r)) in
    map upload_extent uploads
      = map (level_extent (Kernel.width p) (Kernel.height p))
          (seq 0 (List.length uploads)) /\
    (List.length uploads <= Z.to_nat (Kernel.mipmap_count p))%nat /\
    (forall o, fst r = Some (value o) ->
               List.length uploads = Z.to_nat (Kernel.mipmap_count p)).
Proof.
  intros p st Hv. cbv zeta.
  destruct (texture_uploads p st Hv) as (k & Hk & Hcalls & Hall).
  rewrite Hcalls.
  assert (Hlen :
    List.length
      (map MipChain.upload
         (firstn k
            (MipChain.chain (Z.to_nat (Kernel.mipmap_count p)) 0
               (Kernel.width p) (Kernel.height p) (Kernel.pixels p)))) = k).
  { rewrite length_map, length_firstn, chain_length. lia. }
  rewrite Hlen. destruct Hv as (Hw & Hh & _).
  split; [ | split; [exact Hk | exact Hall]].
  rewrite map_map, <- firstn_map.
  rewrite chain_extents by lia.
  rewrite firstn_map, (firstn_seq_le k _ 0 Hk).
  apply map_ext. intros j. unfold level_extent. f_equal.
Qed.

Lemma texture_level_extents_closed_form_witness :
  let p := {| Kernel.width := 100; Kernel.height := 7;
              Kernel.mipmap_count := 5;
              Kernel.pixels := {| sp_data := 4096; sp_size := 0 |} |} in
  let r := Kernel.initialize_texture p (Fake.fresh Fake.healthy) in
  let uploads :=
    calls_of is_TexImage2D (new_events (Fake.fresh Fake.healthy) (snd r)) in
  map upload_extent uploads
    = [(0, 100, 7); (1, 50, 3); (2, 25, 1); (3, 12, 1); (4, 6, 1)] /\
  map upload_extent uploads
    = map (level_extent 100 7) (seq 0 (List.length uploads)).
Proof.
  cbv zeta. split; [reflexivity | ].
  apply (texture_level_extents_closed_form
           {| Kernel.width := 100; Kernel.height := 7;
              Kernel.mipmap_count := 5;
              Kernel.pixels := {| sp_data := 4096; sp_size := 0 |} |}
           (Fake.fresh Fake.healthy)).
  unfold validated. simpl. lia.
Defined.

Lemma mip_chain_bytes_nonneg (n : nat) :
  forall w h, 1 <= w -> 1 <= h -> 0 <= mip_chain_bytes n w h.
Proof.
  induction n as [| n IH]; intros w h Hw Hh; simpl; [lia | ].
  assert (0 <= mip_chain_bytes n (MipChain.halve w) (MipChain.halve h))
    by (apply IH; unfold MipChain.halve; lia).
  nia.
Qed.

Lemma mip_chain_bytes_S (j : nat) (w h : Z) :
  mip_chain_bytes (S j) w h
    = w * h * 4 + mip_chain_bytes j (MipChain.halve w) (MipChain.halve h).
Proof. reflexivity. Qed.

Lemma chain_with_all_data (n : nat) :
  forall i w h s,
    1 <= w -> 1 <= h -> mip_chain_bytes n w h <= sp_size s ->
    map MipChain.lv_data (MipChain.chain n i w h s)
      = map (fun j => sp_data s + mip_chain_bytes j w h) (seq 0 n).
Proof.
  induction n as [| n IH]; intros i w h s Hw Hh Hfit; [reflexivity | ].
  rewrite mip_chain_bytes_S in Hfit.
  assert (Hrest := mip_chain_bytes_nonneg n (MipChain.halve w)
                     (MipChain.halve h)
                     ltac:(unfold MipChain.halve; lia)
                     ltac:(unfold MipChain.halve; lia)).
  cbn [MipChain.chain map seq MipChain.lv_data]. f_equal.
  - destruct (Z.ltb_spec (sp_size s) (w * h * 4)); [lia | ].
    simpl. lia.
  - rewrite IH; try (unfold MipChain.halve; lia).
    + rewrite <- seq_shift, map_map. apply map_ext. intros j.
      rewrite mip_chain_bytes_S. unfold subspan. simpl.
      rewrite Z.min_l by lia. lia.
    + unfold subspan. simpl. rewrite Z.min_l by lia. lia.
Qed.

(** X10.  When the pixel span holds the bytes of all [mipmap_count]
    levels, no level is specified with a null pointer: call [j] is
    given the address of the span plus the bytes of the levels before
    it, so the levels are read back to back from the caller's data. *)
Theorem texture_full_data_is_read_back_to_back :
  forall (p : Kernel.texture_parameters) (st : gl_state),
    validated p -> span_wf (Kernel.pixels p) ->
    mip_chain_bytes (Z.to_nat (Kernel.mipmap_count p)) (Kernel.width p)
      (Kernel.height p) <= sp_size (Kernel.pixels p) ->
    let uploads :=
      calls_of is_TexImage2D
        (new_events st (snd (Kernel.initialize_texture p st))) in
    map pixels_argument uploads
      = map (fun j => sp_data (Kernel.pixels p)
                      + mip_chain_bytes j (Kernel.width p) (Kernel.height p))
          (seq 0 (List.length uploads)) /\
    Forall (fun q => q <> nullptr) (map pixels_argument uploads).
Proof.
  intros p st Hv Hwf Hfit. cbv zeta.
  destruct (texture_uploads p st Hv) as (k & Hk & Hcalls & _).
  rewrite Hcalls.
  assert (Hlen :
    List.length
      (map MipChain.upload
         (firstn k
            (MipChain.chain (Z.to_nat (Kernel.mipmap_count p)) 0
               (Kernel.width p) (Kernel.height p) (Kernel.pixels p)))) = k).
  { rewrite length_map, length_firstn, chain_length. lia. }
  rewrite Hlen, pixels_of_uploads. destruct Hv as (Hw & Hh & Hc).
  assert (Hptrs :
    map MipChain.lv_data
      (firstn k
         (MipChain.chain (Z.to_nat (Kernel.mipmap_count p)) 0
            (Kernel.width p) (Kernel.height p) (Kernel.pixels p)))
    = map (fun j => sp_data (Kernel.pixels p)
                    + mip_chain_bytes j (Kernel.width p) (Kernel.height p))
        (seq 0 k)).
  { rewrite <- firstn_map, chain_with_all_data by (lia || assumption).
    rewrite firstn_map, (firstn_seq_le k _ 0 Hk). reflexivity. }
  split; [exact Hptrs | ].
  rewrite Hptrs. apply Forall_map. apply Forall_forall. intros j _.
  assert (Hj := mip_chain_bytes_nonneg j _ _ (proj1 Hw) (proj1 Hh)).
  assert (Hall : 4 <= mip_chain_bytes (Z.to_nat (Kernel.mipmap_count p))
                        (Kernel.width p) (Kernel.height p)).
  { destruct (Z.to_nat (Kernel.mipmap_count p)) as [| n] eqn:Hn; [lia | ].
    rewrite mip_chain_bytes_S.
    assert (0 <= mip_chain_bytes n (MipChain.halve (Kernel.width p))
                   (MipChain.halve (Kernel.height p)))
      by (apply mip_chain_bytes_nonneg; unfold MipChain.halve; lia).
    nia. }
  destruct Hwf as (_ & Hdata & _ & Hnn). unfold nullptr in *.
  assert (sp_data (Kernel.pixels p) <> 0) by (apply Hnn; lia). lia.
Qed.

(** A 4 x 4 texture with three levels needs 64 + 16 + 4 bytes. *)
Lemma texture_full_data_is_read_back_to_back_witness :
  let p := {| Kernel.width := 4; Kernel.height := 4;
              Kernel.mipmap_count := 3;
              Kernel.pixels := {| sp_data := 4096; sp_size := 84 |} |} in
  let uploads :=
    calls_of is_TexImage2D
      (new_events (Fake.fresh Fake.healthy)
         (snd (Kernel.initialize_texture p (Fake.fresh Fake.healthy)))) in
  map pixels_argument uploads = [4096; 4160; 4176] /\
  Forall (fun q => q <> nullptr) (map pixels_argument uploads).
Proof.
  cbv zeta. split; [reflexivity | ].
  apply (texture_full_data_is_read_back_to_back
           {| Kernel.width := 4; Kernel.height := 4;
              Kernel.mipmap_count := 3;
              Kernel.pixels := {| sp_data := 4096; sp_size := 84 |} |}
           (Fake.fresh Fake.healthy)).
  - unfold validated. simpl. lia.
  - unfold span_wf, nullptr. simpl. lia.
  - vm_compute. discriminate.
Defined.

(** ** Buffer: what is uploaded, and where failures come from *)

(** X11.  For a span length that is a [size_t], buffer initialization
    succeeds only for lengths 1 .. 2^63 - 1.  Its failures are the
    local one (line 125, code 0), exactly for length 0 or 2^63 and
    more, and otherwise a non-zero error flag that [glGetError]
    returned after the name was generated (line 134) or after the
    upload (line 153).  When the span is accepted and a name was
    generated cleanly, the single [glBufferData] call is given the
    span's address and its length unchanged. *)
Theorem buffer_outcomes :
  forall (p : Kernel.buffer_parameters) (st : gl_state),
    0 <= sp_size (Kernel.bytes p) < 2 ^ 64 ->
    let r := Kernel.initialize_buffer p st in
    let new := new_events st (snd r) in
    let upload :=
      [BufferData (Kernel.buffer_type p) (sp_size (Kernel.bytes p))
         (sp_data (Kernel.bytes p)) (Kernel.usage p)] in
    match fst r with
    | value _ =>
        0 < sp_size (Kernel.bytes p) < 2 ^ 63 /\
        calls_of is_BufferData new = upload
    | unexpected e =>
        (line e = 125 /\ code e = 0 /\
         (sp_size (Kernel.bytes p) = 0 \/ 2 ^ 63 <= sp_size (Kernel.bytes p))
         /\ calls_of is_BufferData new = []) \/
        (line e = 134 /\ code e <> 0 /\
         0 < sp_size (Kernel.bytes p) < 2 ^ 63 /\
         In {| ev_call := GetError; ev_ret := code e |} new /\
         calls_of is_BufferData new = []) \/
        (line e = 153 /\ code e <> 0 /\
         0 < sp_size (Kernel.bytes p) < 2 ^ 63 /\
         In {| ev_call := GetError; ev_ret := code e |} new /\
         calls_of is_BufferData new = upload)
    end.
Proof.
  intros p st Hn. cbv zeta.
  unfold Kernel.initialize_buffer, Kernel.buffer_guard, bind, ret.
  run_discard st.
  rewrite (buffer_size_check _ Hn).
  destruct ((sp_size (Kernel.bytes p) =? 0)
            || (2 ^ 63 <=? sp_size (Kernel.bytes p))) eqn:Hcheck.
  - simpl fst. simpl snd. cbv beta iota. left.
    split; [reflexivity | ]. split; [reflexivity | ]. split.
    + apply orb_true_iff in Hcheck. destruct Hcheck as [H | H];
        [left; now apply Z.eqb_eq | right; now apply Z.leb_le].
    + name_new. simp_owned. reflexivity.
  - apply orb_false_iff in Hcheck. destruct Hcheck as [Hz Hbig].
    apply Z.eqb_neq in Hz. apply Z.leb_gt in Hbig.
    assert (Hok : 0 < sp_size (Kernel.bytes p) < 2 ^ 63) by lia.
    rewrite (to_GLsizeiptr_small (sp_size (Kernel.bytes p))) by lia.
    run_value. run_get. run_if.
    + run_void. run_void. run_get. run_if.
      * unfold move_construct. run_void. run_destroy.
        simpl fst. simpl snd. cbv beta iota.
        split; [exact Hok | ]. name_new. simp_owned. reflexivity.
      * run_void. run_destroy.
        simpl fst. simpl snd. cbv beta iota. right. right.
        split; [reflexivity | ]. split; [assumption | ].
        split; [exact Hok | ]. name_new. split.
        -- apply in_or_app. right. simpl. auto.
        -- simp_owned. reflexivity.
    + run_destroy.
      simpl fst. simpl snd. cbv beta iota. right. left.
      split; [reflexivity | ]. split; [assumption | ].
      split; [exact Hok | ]. name_new. split.
      * apply in_or_app. right. simpl. auto.
      * simp_owned. reflexivity.
Qed.

Lemma buffer_outcomes_witness :
  let p := {| Kernel.buffer_type := 0x8892; Kernel.usage := 0x88E4;
              Kernel.bytes := {| sp_data := 4096; sp_size := 16 |} |} in
  let r := Kernel.initialize_buffer p (Fake.fresh Fake.healthy) in
  fst r = value {| handle := 7 |} /\
  match fst r with
  | value _ =>
      0 < 16 < 2 ^ 63 /\
      calls_of is_BufferData (new_events (Fake.fresh Fake.healthy) (snd r))
        = [BufferData 0x8892 16 4096 0x88E4]
  | unexpected e => False
  end.
Proof.
  cbv zeta. split; [reflexivity | ].
  assert (H := buffer_outcomes
                 {| Kernel.buffer_type := 0x8892; Kernel.usage := 0x88E4;
                    Kernel.bytes := {| sp_data := 4096; sp_size := 16 |} |}
                 (Fake.fresh Fake.healthy)
                 ltac:(simpl; lia)).
  cbv zeta in H.
  change (fst (Kernel.initialize_buffer
                 {| Kernel.buffer_type := 0x8892; Kernel.usage := 0x88E4;
                    Kernel.bytes := {| sp_data := 4096; sp_size := 16 |} |}
                 (Fake.fresh Fake.healthy)))
    with (value (T := object Buffer) {| handle := 7 |}) in H |- *.
  exact H.
Defined.

(** ** Framebuffer: what is attached *)


(** ** Shader and program: outcomes *)

(** Close a goal [trace st' = ?new ++ trace st] by naming the events
    issued since [st]. *)
Ltac trace_as_new st :=
  expand_trace;
  match goal with
  | |- ?t = _ =>
      let p := prefix_of t (trace st) in
      transitivity (p ++ trace st);
      [repeat (rewrite <- app_assoc || rewrite <- app_comm_cons);
       reflexivity
      | reflexivity]
  end.

(** Everything one [initialize(shader_parameters)] call shows in the
    trace. *)
Lemma initialize_shader_events (p : Kernel.shader_parameters)
    (st : gl_state) :
  exists r st' new,
    Kernel.initialize_shader p st = (r, st') /\
    trace st' = new ++ trace st /\
    events_of is_CreateProgram new = [] /\
    calls_of is_linking new = [] /\
    match r with
    | value o =>
        handle o <> 0 /\
        events_of is_CreateShader new
          = [{| ev_call := CreateShader (Kernel.shader_type p);
                ev_ret := handle o |}] /\
        calls_of is_CompileShader new = [CompileShader (handle o)] /\
        calls_of is_delete new = []
    | unexpected e =>
        exists name,
          events_of is_CreateShader new
            = [{| ev_call := CreateShader (Kernel.shader_type p);
                  ev_ret := name |}] /\
          calls_of is_delete new
            = (if name =? 0 then [] else [DeleteShader name]) /\
          ((line e = 378 /\ code e = 0 /\ name = 0 /\
            calls_of is_CompileShader new = []) \/
           (line e = 388 /\ code e = 0 /\ name <> 0 /\
            In {| ev_call := GetShaderiv name GL_COMPILE_STATUS;
                  ev_ret := 0 |} new) \/
           (line e = 394 /\ code e <> 0 /\ name <> 0 /\
            In {| ev_call := GetError; ev_ret := code e |} new))
    end.
Proof.
  unfold Kernel.initialize_shader, bind, ret.
  run_discard st. run_value.
  unfold object_new, to_name. cbn [handle].
  destruct (Z.eqb_spec r 0) as [Hr | Hr].
  - run_destroy. do 3 eexists. split; [reflexivity | ].
    split; [trace_as_new st | ].
    split; [simp_owned; reflexivity | ].
    split; [simp_owned; reflexivity | ].
    exists r. split; [simp_owned; reflexivity | ].
    split; [simp_owned; reflexivity | ].
    left. repeat split; try assumption. simp_owned. reflexivity.
  - run_void. run_void. run_value.
    destruct (Z.eqb_spec r0 0) as [Hs | Hs].
    + run_destroy. do 3 eexists. split; [reflexivity | ].
      split; [trace_as_new st | ].
      split; [simp_owned; reflexivity | ].
      split; [simp_owned; reflexivity | ].
      exists r. split; [simp_owned; reflexivity | ].
      split; [simp_owned; reflexivity | ].
      right. left. repeat split; try assumption.
      apply in_or_app. right. subst r0. simpl. auto.
    + run_get. run_if.
      * unfold move_construct. run_destroy.
        do 3 eexists. split; [reflexivity | ].
        split; [trace_as_new st | ].
        split; [simp_owned; reflexivity | ].
        split; [simp_owned; reflexivity | ].
        cbn [handle]. split; [exact Hr | ].
        split; [simp_owned; reflexivity | ].
        split; simp_owned; reflexivity.
      * run_destroy. do 3 eexists. split; [reflexivity | ].
        split; [trace_as_new st | ].
        split; [simp_owned; reflexivity | ].
        split; [simp_owned; reflexivity | ].
        exists r. split; [simp_owned; reflexivity | ].
        split; [simp_owned; reflexivity | ].
        right. right. repeat split; try assumption.
        apply in_or_app. right. simpl. auto.
Qed.


(** X14.  The outcomes of program initialization.  On success the
    returned program has a non-zero name, the vertex and the fragment
    shader were attached to it in that order and it was linked, and
    the only deletions are those of the two shaders.  A failure is a
    shader's own failure (lines 378, 388, 394), and then no program
    object was requested; or line 452, code 0, when [glCreateProgram]
    answered zero, and then nothing was attached; or line 463, code 0,
    when the link status read back is zero; or line 469 with a
    non-zero error flag; in the last two cases the program that was
    created is deleted before the shaders. *)
Theorem program_outcomes :
  forall (p : Kernel.program_parameters) (st : gl_state),
    let r := Kernel.initialize_program p st in
    let new := new_events st (snd r) in
    match fst r with
    | value o =>
        handle o <> 0 /\
        exists v f,
          v <> 0 /\ f <> 0 /\
          events_of is_CreateShader new
            = [{| ev_call := CreateShader GL_VERTEX_SHADER; ev_ret := v |};
               {| ev_call := CreateShader GL_FRAGMENT_SHADER; ev_ret := f |}]
          /\
          events_of is_CreateProgram new
            = [{| ev_call := CreateProgram; ev_ret := handle o |}] /\
          calls_of is_linking new
            = [AttachShader (handle o) v; AttachShader (handle o) f;
               LinkProgram (handle o)] /\
          calls_of is_delete new = [DeleteShader f; DeleteShader v]
    | unexpected e =>
        ((line e = 378 \/ line e = 388 \/ line e = 394) /\
         events_of is_CreateProgram new = [] /\
         calls_of is_linking new = []) \/
        (line e = 452 /\ code e = 0 /\
         events_of is_CreateProgram new
           = [{| ev_call := CreateProgram; ev_ret := 0 |}] /\
         calls_of is_linking new = []) \/
        (exists name v f,
           name <> 0 /\
           ((line e = 463 /\ code e = 0 /\
             In {| ev_call := GetProgramiv name GL_LINK_STATUS;
                   ev_ret := 0 |} new) \/
            (line e = 469 /\ code e <> 0 /\
             In {| ev_call := GetError; ev_ret := code e |} new)) /\
           events_of is_CreateProgram new
             = [{| ev_call := CreateProgram; ev_ret := name |}] /\
           calls_of is_linking new
             = [AttachShader name v; AttachShader name f; LinkProgram name]
           /\
           calls_of is_delete new
             = [DeleteProgram name; DeleteShader f; DeleteShader v])
    end.
Proof.
  intros p st. cbv zeta. rewrite initialize_program_unfold.
  unfold bind, ret.
  destruct (initialize_shader_events (vertex_parameters p) st)
    as (rv & sv & new1 & Hrun1 & Htr1 & Hcp1 & Hlk1 & Hres1).
  rewrite Hrun1. destruct rv as [vertex | e1].
  - destruct Hres1 as (Hv & Hcs1 & _ & Hdel1).
    destruct (initialize_shader_events (fragment_parameters p) sv)
      as (rf & sf & new2 & Hrun2 & Htr2 & Hcp2 & Hlk2 & Hres2).
    rewrite Hrun2. destruct rf as [fragment | e2].
    + destruct Hres2 as (Hf & Hcs2 & _ & Hdel2).
      assert (Hvb := proj2 (Z.eqb_neq _ _) Hv).
      assert (Hfb := proj2 (Z.eqb_neq _ _) Hf).
      cbn [vertex_parameters fragment_parameters Kernel.shader_type]
        in Hcs1, Hcs2.
      run_value. run_if.
      * run_destroy. run_destroy. run_destroy.
        simpl fst. simpl snd. cbv beta iota. right. left.
        split; [reflexivity | ]. split; [reflexivity | ].
        name_new. rewrite Hvb, Hfb in *.
        repeat (rewrite events_of_app || rewrite events_of_cons
                || rewrite calls_of_app || rewrite calls_of_cons).
        rewrite Hcp1, Hcp2, Hlk1, Hlk2. subst. split; reflexivity.
      * assert (Hrb := proj2 (Z.eqb_neq _ _) Hcmp).
        run_void. run_void. run_void. run_value. run_if.
        -- run_destroy. run_destroy. run_destroy.
           simpl fst. simpl snd. cbv beta iota. right. right.
           exists r, (handle vertex), (handle fragment).
           split; [assumption | ].
           name_new. unfold object_new in *. cbn [handle] in *.
           rewrite Hvb, Hfb, Hrb in *.
           split.
           { left. split; [reflexivity | ]. split; [reflexivity | ].
             subst. apply in_or_app. right. apply in_or_app. right.
             apply in_or_app. right. simpl. auto. }
           repeat (rewrite events_of_app || rewrite events_of_cons
                   || rewrite calls_of_app || rewrite calls_of_cons).
           rewrite Hcp1, Hcp2, Hlk1, Hlk2, Hdel1, Hdel2.
           subst. repeat split.
        -- run_get. run_if.
           ++ run_destroy. run_destroy. run_destroy.
              simpl fst. simpl snd. cbv beta iota. cbn [handle].
              split; [assumption | ].
              exists (handle vertex), (handle fragment).
              split; [assumption | ]. split; [assumption | ].
              name_new. cbn [handle] in *.
              rewrite Hvb, Hfb in *. change (0 =? 0) with true in *.
              repeat (rewrite events_of_app || rewrite events_of_cons
                      || rewrite calls_of_app || rewrite calls_of_cons).
              rewrite Hcp1, Hcp2, Hlk1, Hlk2, Hdel1, Hdel2, Hcs1, Hcs2.
              subst. repeat split.
           ++ run_destroy. run_destroy. run_destroy.
              simpl fst. simpl snd. cbv beta iota. right. right.
              exists r, (handle vertex), (handle fragment).
              split; [assumption | ].
              name_new. unfold object_new in *. cbn [handle] in *.
              rewrite Hvb, Hfb, Hrb in *.
              split.
              { right. split; [reflexivity | ]. split; [assumption | ].
                subst. apply in_or_app. right. apply in_or_app. right.
                apply in_or_app. right. simpl. auto. }
              repeat (rewrite events_of_app || rewrite events_of_cons
                      || rewrite calls_of_app || rewrite calls_of_cons).
              rewrite Hcp1, Hcp2, Hlk1, Hlk2, Hdel1, Hdel2.
              subst. repeat split.
    + destruct Hres2 as (name & _ & _ & Hcause).
      unfold destroy_expected, ret. cbv beta iota.
      run_destroy. simpl fst. simpl snd. cbv beta iota. left.
      split; [destruct Hcause as [H | [H | H]]; tauto | ].
      name_new.
      repeat (rewrite events_of_app || rewrite events_of_cons
              || rewrite calls_of_app || rewrite calls_of_cons).
      rewrite Hcp1, Hcp2, Hlk1, Hlk2. subst.
      destruct (handle vertex =? 0); split; reflexivity.
  - destruct Hres1 as (name & _ & _ & Hcause).
    unfold destroy_expected, ret. cbv beta iota.
    simpl fst. simpl snd. left.
    split; [destruct Hcause as [H | [H | H]]; tauto | ].
    rewrite (new_events_app st sv new1 Htr1). split; assumption.
Qed.

(** ** Handles: chains of move assignments *)

Lemma move_assign_distinct (k : kind) (a b tmp : loc) (s : store k)
    (st : gl_state) :
  tmp <> a -> tmp <> b -> a <> b ->
  let r := move_assign a b tmp s st in
  (forall l : loc,
     handle (fst r l) =
       if Nat.eqb l a then handle (s b)
       else if Nat.eqb l b then 0
       else if Nat.eqb l tmp then handle (s a)
       else handle (s l)) /\
  snd r = (if handle (s a) =? 0 then st
           else issue (Deleter k (handle (s a))) 0 st).
Proof.
  intros Hta Htb Hab. cbv zeta.
  unfold move_assign, bind, ret, destroy_at, swap_handles, move_construct_at,
    move_construct, destroy, gl_void.
  assert (Hat : a <> tmp) by congruence.
  assert (Hba : b <> a) by congruence.
  rewrite !store_set_same.
  rewrite (store_set_other k _ tmp a _ Hat), (store_set_other k _ b a _ Hab).
  cbn [handle].
  destruct (handle (s a) =? 0); cbn [negb]; unfold ret; cbv beta iota;
    cbn [fst snd]; (split; [ | reflexivity]);
    intros l; unfold store_set;
    repeat match goal with
           | |- context [Nat.eqb ?x ?y] => destruct (Nat.eqb_spec x y)
           end;
    subst; try congruence; reflexivity.
Qed.

(** X15.  Two move assignments to the same handle, [a = move(b)] then
    [a = move(c)], with three distinct objects: [a] ends up with the
    identifier of [c], [b] and [c] hold zero, and the deleter was
    issued first for what [a] held at the start and then for what it
    took from [b], each once and only if not zero.  Nothing taken over
    is lost without its release. *)
Theorem move_assign_twice :
  forall (k : kind) (a b c t1 t2 : loc) (s : store k) (st : gl_state),
    a <> b -> a <> c -> b <> c ->
    t1 <> a -> t1 <> b -> t1 <> c -> t2 <> a -> t2 <> b -> t2 <> c ->
    let first := move_assign a b t1 s st in
    let second := move_assign a c t2 (fst first) (snd first) in
    handle (fst second a) = handle (s c) /\
    handle (fst second b) = 0 /\
    handle (fst second c) = 0 /\
    calls_of is_delete (new_events st (snd second)) =
      (if handle (s a) =? 0 then [] else [Deleter k (handle (s a))]) ++
      (if handle (s b) =? 0 then [] else [Deleter k (handle (s b))]).
Proof.
  intros k a b c t1 t2 s st Hab Hac Hbc H1a H1b H1c H2a H2b H2c. cbv zeta.
  destruct (move_assign_distinct k a b t1 s st H1a H1b Hab) as [Hs1 Hst1].
  destruct (move_assign_distinct k a c t2
              (fst (move_assign a b t1 s st)) (snd (move_assign a b t1 s st))
              H2a H2c Hac) as [Hs2 Hst2].
  assert (Hca : c <> a) by congruence.
  assert (Hba : b <> a) by congruence.
  assert (Hcb : c <> b) by congruence.
  rewrite !Hs2, !Hs1, Hst2, Hst1, !Hs1.
  repeat match goal with
         | |- context [Nat.eqb ?x ?y] =>
             destruct (Nat.eqb_spec x y); try congruence
         end.
  split; [reflexivity | ]. split; [reflexivity | ]. split; [reflexivity | ].
  destruct (handle (s a) =? 0); destruct (handle (s b) =? 0).
  - rewrite new_events_refl. reflexivity.
  - rewrite (new_events_app st _ [_]) by reflexivity.
    unfold calls_of. simpl. now rewrite Deleter_is_delete.
  - rewrite (new_events_app st _ [_]) by reflexivity.
    unfold calls_of. simpl. now rewrite Deleter_is_delete.
  - rewrite (new_events_app st _ [_; _]) by reflexivity.
    unfold calls_of. simpl. now rewrite !Deleter_is_delete.
Qed.

Lemma move_assign_twice_witness :
  let s : store Texture := fun l => {| handle := Z.of_nat l + 10 |} in
  let st := Fake.fresh Fake.healthy in
  let first := move_assign 0%nat 1%nat 3%nat s st in
  let second := move_assign 0%nat 2%nat 4%nat (fst first) (snd first) in
  handle (fst second 0%nat) = 12 /\
  handle (fst second 1%nat) = 0 /\
  handle (fst second 2%nat) = 0 /\
  calls_of is_delete (new_events st (snd second)) =
    [DeleteTextures 1 10; DeleteTextures 1 11].
Proof.
  apply (move_assign_twice Texture 0%nat 1%nat 2%nat 3%nat 4%nat
           (fun l => {| handle := Z.of_nat l + 10 |})
           (Fake.fresh Fake.healthy)); discriminate.
Defined.

(** X16.  Moving a handle away and back, [a = move(b)] then
    [b = move(a)], with two distinct objects: [b] holds its identifier
    again, [a] holds zero, and the only deletion is that of what [a]
    held at the start, if it was not zero.  The identifier that made
    the round trip is never released. *)
Theorem move_assign_round_trip :
  forall (k : kind) (a b t1 t2 : loc) (s : store k) (st : gl_state),
    a <> b -> t1 <> a -> t1 <> b -> t2 <> a -> t2 <> b ->
    let first := move_assign a b t1 s st in
    let second := move_assign b a t2 (fst first) (snd first) in
    handle (fst second b) = handle (s b) /\
    handle (fst second a) = 0 /\
    calls_of is_delete (new_events st (snd second)) =
      (if handle (s a) =? 0 then [] else [Deleter k (handle (s a))]).
Proof.
  intros k a b t1 t2 s st Hab H1a H1b H2a H2b. cbv zeta.
  assert (Hba : b <> a) by congruence.
  destruct (move_assign_distinct k a b t1 s st H1a H1b Hab) as [Hs1 Hst1].
  destruct (move_assign_distinct k b a t2
              (fst (move_assign a b t1 s st)) (snd (move_assign a b t1 s st))
              H2b H2a Hba) as [Hs2 Hst2].
  rewrite !Hs2, !Hs1, Hst2, Hst1, !Hs1.
  repeat match goal with
         | |- context [Nat.eqb ?x ?y] =>
             destruct (Nat.eqb_spec x y); try congruence
         end.
  change (0 =? 0) with true. cbv iota.
  split; [reflexivity | ]. split; [reflexivity | ].
  destruct (handle (s a) =? 0).
  - rewrite new_events_refl. reflexivity.
  - rewrite (new_events_app st _ [_]) by reflexivity.
    unfold calls_of. simpl. now rewrite Deleter_is_delete.
Qed.

Lemma move_assign_round_trip_witness :
  let s : store Shader := fun l => {| handle := Z.of_nat l + 10 |} in
  let st := Fake.fresh Fake.healthy in
  let first := move_assign 0%nat 1%nat 2%nat s st in
  let second := move_assign 1%nat 0%nat 3%nat (fst first) (snd first) in
  handle (fst second 1%nat) = 11 /\
  handle (fst second 0%nat) = 0 /\
  calls_of is_delete (new_events st (snd second)) = [DeleteShader 10].
Proof.
  apply (move_assign_round_trip Shader 0%nat 1%nat 2%nat 3%nat
           (fun l => {| handle := Z.of_nat l + 10 |})
           (Fake.fresh Fake.healthy)); discriminate.
Defined.

(** ** src/rose.opengl.kernel.ccm: texture and framebuffer *)

(** X17.  In src/rose.opengl.kernel.ccm, texture initialization on
    validated parameters returns, and its [glTexImage2D] calls are, in
    order, the first levels of the chain: level [j] has extent
    [max 1 (w / 2^j)] by [max 1 (h / 2^j)]; there are [n_mipmaps] of
    them on success.  On every exit after the bind the texture binding
    holds zero again. *)
Theorem ccm_texture_walk :
  forall (p : KernelCcm.texture_parameters) (st : gl_state),
    ccm_validated p ->
    exists r st',
      KernelCcm.initialize_texture p st = (Some r, st') /\
      let uploads := calls_of is_TexImage2D (new_events st st') in
      uploads =
        map MipChain.upload
          (firstn (List.length uploads)
             (MipChain.chain (Z.to_nat (KernelCcm.n_mipmaps p)) 0
                (KernelCcm.w p) (KernelCcm.h p) (KernelCcm.pixels p))) /\
      map upload_extent uploads
        = map (level_extent (KernelCcm.w p) (KernelCcm.h p))
            (seq 0 (List.length uploads)) /\
      (List.length uploads <= Z.to_nat (KernelCcm.n_mipmaps p))%nat /\
      (is_value r = true ->
       List.length uploads = Z.to_nat (KernelCcm.n_mipmaps p)) /\
      binding_outcome (TextureBinding GL_TEXTURE_2D) is_BindTexture
        (BindTexture GL_TEXTURE_2D) (ccm_texture_bind_reached r) st st'.
Proof.
  intros p st Hv.
  destruct (ccm_initialize_texture_spec p st Hv)
    as (r & st' & k & Hrun & Hbind & Hk & Hcalls & Hall).
  exists r, st'. split; [exact Hrun | ]. cbv zeta.
  assert (Hlen : List.length (calls_of is_TexImage2D (new_events st st')) = k).
  { rewrite Hcalls, length_map, length_firstn, chain_length. lia. }
  rewrite Hlen.
  split; [exact Hcalls | ].
  split.
  - rewrite Hcalls, map_map, <- firstn_map.
    destruct Hv as (Hw & Hh & _).
    cbn [KernelCcm.common Kernel.width Kernel.height] in Hw, Hh.
    rewrite chain_extents by lia.
    rewrite firstn_map, (firstn_seq_le k _ 0 Hk).
    apply map_ext. intros j. unfold level_extent. f_equal.
  - split; [exact Hk | ]. split; [exact Hall | exact Hbind].
Qed.

Lemma ccm_texture_walk_witness :
  let p := {| KernelCcm.w := 8; KernelCcm.h := 2;
              KernelCcm.n_mipmaps := 4;
              KernelCcm.min_filter := 0x2601; KernelCcm.mag_filter := 0x2601;
              KernelCcm.wrap_s := 0x812F; KernelCcm.wrap_t := 0x812F;
              KernelCcm.pixels := {| sp_data := 4096; sp_size := 64 |} |} in
  let st := Fake.fresh Fake.healthy in
  ccm_validated p /\
  map upload_extent
    (calls_of is_TexImage2D
       (new_events st (snd (KernelCcm.initialize_texture p st))))
    = [(0, 8, 2); (1, 4, 1); (2, 2, 1); (3, 1, 1)].
Proof.
  cbv zeta.
  assert (Hv : ccm_validated
                 {| KernelCcm.w := 8; KernelCcm.h := 2;
                    KernelCcm.n_mipmaps := 4;
                    KernelCcm.min_filter := 0x2601;
                    KernelCcm.mag_filter := 0x2601;
                    KernelCcm.wrap_s := 0x812F; KernelCcm.wrap_t := 0x812F;
                    KernelCcm.pixels :=
                      {| sp_data := 4096; sp_size := 64 |} |})
    by (unfold ccm_validated, validated; simpl; lia).
  split; [exact Hv | ].
  destruct (ccm_texture_walk _ (Fake.fresh Fake.healthy) Hv)
    as (r & st' & Hrun & _ & Hext & _ & Hall & _).
  rewrite Hrun. simpl snd. rewrite Hext.
  assert (Hr : is_value r = true).
  { assert (Hfst := f_equal fst Hrun). simpl fst in Hfst.
    vm_compute in Hfst. injection Hfst as <-. reflexivity. }
  rewrite (Hall Hr). reflexivity.
Defined.

(** X18.  In src/rose.opengl.kernel.ccm, texture initialization sets
    the magnification and minification filters, checks the error flag,
    sets the two wrap modes, checks again, and only then specifies
    levels: a failure of line 244 comes after the two filter calls
    alone, a failure of line 252 after all four parameter calls and
    before any level, and on the local failure or a failed name
    generation nothing is set at all. *)
Theorem ccm_texture_parameters_before_levels :
  forall (p : KernelCcm.texture_parameters) (st : gl_state),
    let r := KernelCcm.initialize_texture p st in
    let new := new_events st (snd r) in
    match fst r with
    | Some (value _) =>
        exists uploads,
          calls_of is_texture_setup new
            = ccm_filter_calls p ++ ccm_wrap_calls p ++ uploads /\
          uploads = calls_of is_TexImage2D new
    | Some (unexpected e) =>
        if (line e =? 215) || (line e =? 224) then
          calls_of is_texture_setup new = []
        else if line e =? 244 then
          calls_of is_texture_setup new = ccm_filter_calls p
        else if line e =? 252 then
          calls_of is_texture_setup new
            = ccm_filter_calls p ++ ccm_wrap_calls p
        else
          line e = 272 /\
          exists uploads,
            calls_of is_texture_setup new
              = ccm_filter_calls p ++ ccm_wrap_calls p ++ uploads /\
            uploads = calls_of is_TexImage2D new
    | None => False
    end.
Proof.
  intros p st. cbv zeta.
  unfold KernelCcm.initialize_texture, KernelCcm.texture_guard, bind, ret,
    ccm_filter_calls, ccm_wrap_calls.
  run_discard st.
  destruct (((KernelCcm.w p <=? 0) || (KernelCcm.w p >=? 16384)) ||
            ((KernelCcm.h p <=? 0) || (KernelCcm.h p >=? 16384)) ||
            ((KernelCcm.n_mipmaps p <=? 0) ||
             (KernelCcm.n_mipmaps p >=? 16384))) eqn:Hcheck.
  - simpl. name_new. simp_owned. reflexivity.
  - destruct (not_rejected_validated (KernelCcm.common p) Hcheck)
      as (Hw & Hh & Hc).
    cbn [KernelCcm.common Kernel.width Kernel.height Kernel.mipmap_count]
      in Hw, Hh, Hc.
    run_value. run_get. run_if.
    + run_void. run_void. run_void. run_get. run_if.
      * run_void. run_void. run_get. run_if.
        -- rewrite (ccm_specify_levels_eq _ 0 p _ Hw Hh).
           match goal with
           | |- context [Kernel.specify_levels _ 0 _ ?s] =>
               destruct (specify_levels_spec
                           (Z.to_nat (KernelCcm.n_mipmaps p)) 0
                           (KernelCcm.common p) s)
                 as (outcome & st' & new & k & Hloop & _ & _ & Htr'
                       & Honly & _ & _ & _);
                 try (cbn [KernelCcm.common Kernel.width Kernel.height
                             Kernel.mipmap_count]; lia)
           end.
           rewrite Hloop. unfold relabel. cbn [fst snd].
           assert (Hsetup : calls_of is_texture_setup new
                            = calls_of is_TexImage2D new).
           { clear - Honly. induction Honly as [| e l He _ IH];
               [reflexivity | ].
             rewrite !calls_of_cons, IH. f_equal.
             unfold upload_or_GetError in He.
             destruct (ev_call e); try discriminate He; reflexivity. }
           destruct outcome as [e | ]; cbv beta iota.
           ++ run_void. run_destroy.
              simpl fst. simpl snd. cbv beta iota. cbn [line].
              change ((272 =? 215) || (272 =? 224)) with false.
              change (272 =? 244) with false.
              change (272 =? 252) with false. cbv iota.
              split; [reflexivity | ].
              eexists. split; [ | reflexivity].
              name_new.
              repeat (rewrite calls_of_app || rewrite calls_of_cons).
              rewrite Hsetup. subst.
              rewrite (only_GetError_calls_of _ _ Hgets) by reflexivity.
              rewrite (only_GetError_calls_of _ _ Hgets) by reflexivity.
              rewrite !calls_of_is_delete_deleted || idtac.
              rewrite (calls_of_deleted is_texture_setup)
                by (intros [] ?; (discriminate || reflexivity)).
              rewrite (calls_of_deleted is_TexImage2D)
                by (intros [] ?; (discriminate || reflexivity)).
              cbn [ev_call is_texture_setup is_TexImage2D app].
              rewrite !calls_of_nil. repeat rewrite app_nil_r. cbn [app].
              repeat rewrite <- app_assoc. cbn [app]. reflexivity.
           ++ unfold move_construct. run_void. run_destroy.
              simpl fst. simpl snd. cbv beta iota.
              eexists. split; [ | reflexivity].
              name_new.
              repeat (rewrite calls_of_app || rewrite calls_of_cons).
              rewrite Hsetup. subst.
              rewrite (only_GetError_calls_of _ _ Hgets) by reflexivity.
              rewrite (only_GetError_calls_of _ _ Hgets) by reflexivity.
              cbn [ev_call is_texture_setup is_TexImage2D app handle].
              change (0 =? 0) with true. cbv iota.
              rewrite !calls_of_nil. repeat rewrite app_nil_r. cbn [app].
              repeat rewrite <- app_assoc. cbn [app]. reflexivity.
        -- run_void. run_destroy.
           simpl fst. simpl snd. cbv beta iota. cbn [line].
           change ((252 =? 215) || (252 =? 224)) with false.
           change (252 =? 244) with false.
           change (252 =? 252) with true. cbv iota.
           name_new. simp_owned. reflexivity.
      * run_void. run_destroy.
        simpl fst. simpl snd. cbv beta iota. cbn [line].
        change ((244 =? 215) || (244 =? 224)) with false.
        change (244 =? 244) with true. cbv iota.
        name_new. simp_owned. reflexivity.
    + run_destroy.
      simpl fst. simpl snd. cbv beta iota. cbn [line].
      change ((224 =? 215) || (224 =? 224)) with true. cbv iota.
      name_new. simp_owned. reflexivity.
Qed.

(** X19.  The outcomes of framebuffer initialization in
    src/rose.opengl.kernel.ccm.  It fails locally (line 323, code 0)
    exactly when the color target is zero, having issued nothing but
    [glGetError].  Otherwise it asks for one name; if that reports an
    error flag it fails with line 332; else it binds the object,
    attaches the color target, asks for the status and binds zero, in
    that order, and fails with line 351 and the status as code when
    the status is not complete, or with line 356 and the error flag.
    On every failure the generated name is deleted unless it is zero;
    on success it is returned and nothing is deleted. *)
Theorem ccm_framebuffer_outcomes :
  forall (p : KernelCcm.framebuffer_parameters) (st : gl_state),
    let r := KernelCcm.initialize_framebuffer p st in
    let new := new_events st (snd r) in
    let setup (name : Z) :=
      [BindFramebuffer GL_FRAMEBUFFER name;
       FramebufferTexture2D GL_FRAMEBUFFER GL_COLOR_ATTACHMENT0
         GL_TEXTURE_2D (KernelCcm.render_target p) 0;
       CheckFramebufferStatus GL_FRAMEBUFFER;
       BindFramebuffer GL_FRAMEBUFFER 0] in
    match fst r with
    | value o =>
        KernelCcm.render_target p <> 0 /\
        events_of is_GenFramebuffers new
          = [{| ev_call := GenFramebuffers 1; ev_ret := handle o |}] /\
        calls_of is_framebuffer_setup new = setup (handle o) /\
        calls_of is_delete new = []
    | unexpected e =>
        (line e = 323 /\ code e = 0 /\ KernelCcm.render_target p = 0 /\
         count_calls is_GetError new = List.length new) \/
        (KernelCcm.render_target p <> 0 /\
         exists name,
           events_of is_GenFramebuffers new
             = [{| ev_call := GenFramebuffers 1; ev_ret := name |}] /\
           calls_of is_delete new
             = (if name =? 0 then [] else [DeleteFramebuffers 1 name]) /\
           ((line e = 332 /\ code e <> 0 /\
             calls_of is_framebuffer_setup new = []) \/
            (line e = 351 /\ code e <> GL_FRAMEBUFFER_COMPLETE /\
             In {| ev_call := CheckFramebufferStatus GL_FRAMEBUFFER;
                   ev_ret := code e |} new /\
             calls_of is_framebuffer_setup new = setup name) \/
            (line e = 356 /\ code e <> 0 /\
             calls_of is_framebuffer_setup new = setup name)))
    end.
Proof.
  intros p st. cbv zeta.
  unfold KernelCcm.initialize_framebuffer, KernelCcm.framebuffer_guard,
    bind, ret.
  run_discard st.
  destruct (Z.eqb_spec (KernelCcm.render_target p) 0) as [Hrt | Hrt].
  - simpl fst. simpl snd. cbv beta iota. left.
    split; [reflexivity | ]. split; [reflexivity | ].
    split; [exact Hrt | ].
    rewrite (new_events_app st st0 gets Htr).
    now apply only_GetError_all.
  - run_value. run_get. run_if.
    + run_void. run_void. run_value. run_if.
      * run_get. run_if.
        -- unfold move_construct. run_void. run_destroy.
           simpl fst. simpl snd. cbv beta iota. cbn [handle].
           split; [exact Hrt | ].
           name_new. simp_owned. repeat split.
        -- run_void. run_destroy.
           simpl fst. simpl snd. cbv beta iota. right.
           split; [exact Hrt | ]. exists r.
           name_new. split; [simp_owned; reflexivity | ].
           split; [simp_owned; reflexivity | ].
           right. right. split; [reflexivity | ].
           split; [assumption | ]. simp_owned. reflexivity.
      * run_void. run_destroy.
        simpl fst. simpl snd. cbv beta iota. right.
        split; [exact Hrt | ]. exists r.
        name_new. split; [simp_owned; reflexivity | ].
        split; [simp_owned; reflexivity | ].
        right. left. split; [reflexivity | ].
        split; [assumption | ].
        split; [apply in_or_app; right; simpl; auto | ].
        simp_owned. reflexivity.
    + run_destroy.
      simpl fst. simpl snd. cbv beta iota. right.
      split; [exact Hrt | ]. exists r.
      name_new. split; [simp_owned; reflexivity | ].
      split; [simp_owned; reflexivity | ].
      left. split; [reflexivity | ].
      split; [assumption | ]. simp_owned. reflexivity.
Qed.

(** ** src/main.cc: the event loop and the way out *)

Lemma process_event_spec (event : Main.SDL_Event) (should_run : bool) :
  Main.process_event event should_run
    = should_run && negb (Main.requests_quit event).
Proof.
  unfold Main.process_event, Main.requests_quit.
  destruct (Main.type event); try (now rewrite andb_true_r);
    try (now rewrite andb_false_r).
  destruct (Main.key_sym event =? Main.SDLK_q);
    [now rewrite andb_false_r | now rewrite andb_true_r].
Qed.

Lemma process_events_should_run (events : list Main.SDL_Event) :
  forall should_run,
    fst (Main.process_events events should_run)
      = should_run && negb (existsb Main.requests_quit events).
Proof.
  induction events as [| event rest IH]; intros should_run; simpl.
  - now rewrite andb_true_r.
  - specialize (IH (Main.process_event event should_run)).
    destruct (Main.process_events rest _) as [b calls]. simpl in *.
    rewrite IH, process_event_spec, negb_orb, andb_assoc. reflexivity.
Qed.

Lemma process_events_polls (events : list Main.SDL_Event) :
  forall should_run,
    snd (Main.process_events events should_run)
      = repeat (Main.SDL_PollEvent true) (List.length events)
        ++ [Main.SDL_PollEvent false].
Proof.
  induction events as [| event rest IH]; intros should_run; simpl.
  - reflexivity.
  - specialize (IH (Main.process_event event should_run)).
    destruct (Main.process_events rest _) as [b calls]. simpl in *.
    now rewrite IH.
Qed.

(** X20.  Draining the events of one pass.  The loop is told to stop
    exactly when one of the delivered events is [SDL_QUIT] or a key
    press of [q]; a key release of [q], mouse events and events of any
    other type never stop it, and nothing sets it running again.
    Every delivered event is fetched, also those that come after the
    quit request: as many successful [SDL_PollEvent] calls as events,
    then the one that finds the queue empty. *)
Theorem events_are_drained_and_quit_is_sticky :
  forall (events : list Main.SDL_Event) (should_run : bool),
    let r := Main.process_events events should_run in
    fst r = should_run && negb (existsb Main.requests_quit events) /\
    snd r = repeat (Main.SDL_PollEvent true) (List.length events)
            ++ [Main.SDL_PollEvent false] /\
    Main.requests_quit
      {| Main.type := Main.SDL_KEYUP; Main.key_sym := Main.SDLK_q;
         Main.button := 0 |} = false.
Proof.
  intros events should_run. cbv zeta.
  split; [apply process_events_should_run | ].
  split; [apply process_events_polls | reflexivity].
Qed.

Lemma pass_should_run (window : Z) (f : Main.frame) :
  fst (Main.pass window f) = negb (existsb Main.requests_quit (Main.polled f)).
Proof.
  unfold Main.pass.
  assert (H := process_events_should_run (Main.polled f) true).
  destruct (Main.process_events (Main.polled f) true) as [b polls].
  simpl in *. exact H.
Qed.

Lemma filter_repeat_false (A : Type) (f : A -> bool) (x : A) (n : nat) :
  f x = false -> filter f (repeat x n) = [].
Proof.
  intros H. induction n as [| n IH]; simpl; [reflexivity | ].
  now rewrite H.
Qed.

Lemma pass_sleeps_once (window : Z) (f : Main.frame) :
  List.length (filter Main.is_sleep (snd (Main.pass window f))) = 1%nat.
Proof.
  unfold Main.pass.
  assert (H := process_events_polls (Main.polled f) true).
  destruct (Main.process_events (Main.polled f) true) as [b polls].
  simpl in H. subst polls. cbn [snd].
  rewrite !filter_app.
  rewrite (filter_repeat_false _ Main.is_sleep (Main.SDL_PollEvent true) _
             eq_refl).
  unfold Main.render, Main.pace.
  destruct (Main.window_size f) as [w h].
  destruct (negb (wrap_signed 32 w =? 0) && negb (wrap_signed 32 h =? 0));
    destruct (Main.elapsed f <? 16); reflexivity.
Qed.

(** X21.  The event loop makes passes over the script up to and
    including the first pass whose events hold a quit request, and no
    further: that last pass is still rendered and slept, one sleep per
    pass made, and the frames after it are not touched.  On a script
    without a quit request the loop does not end. *)
Theorem event_loop_runs_until_quit :
  forall (window : Z) (fs : list Main.frame),
    match Main.passes_made fs with
    | Some n =>
        exists calls,
          Main.event_loop window fs = Some calls /\
          calls = List.concat (map (fun f => snd (Main.pass window f))
                            (firstn n fs)) /\
          List.length (filter Main.is_sleep calls) = n /\
          (1 <= n <= List.length fs)%nat /\
          existsb (fun f => existsb Main.requests_quit (Main.polled f))
            (firstn (n - 1) fs) = false
    | None =>
        Main.event_loop window fs = None /\
        existsb (fun f => existsb Main.requests_quit (Main.polled f)) fs
          = false
    end.
Proof.
  intros window fs. induction fs as [| f rest IH]; [now split | ].
  cbn [Main.passes_made Main.event_loop].
  assert (Hrun := pass_should_run window f).
  assert (Hsleep := pass_sleeps_once window f).
  destruct (Main.pass window f) as [b calls] eqn:Hpass. cbn [fst snd] in *.
  destruct (existsb Main.requests_quit (Main.polled f)) eqn:Hquit;
    cbn [negb] in Hrun; subst b.
  - exists calls. split; [reflexivity | ].
    cbn [firstn map List.concat]. rewrite Hpass. cbn [snd].
    rewrite app_nil_r. split; [reflexivity | ].
    split; [exact Hsleep | ]. split; [simpl; lia | reflexivity].
  - destruct (Main.passes_made rest) as [n | ].
    + destruct IH as (later & Hloop & Hcalls & Hlen & Hn & Hnone).
      rewrite Hloop. exists (calls ++ later).
      split; [reflexivity | ].
      cbn [firstn map List.concat]. rewrite Hpass. cbn [snd].
      split; [now rewrite Hcalls | ].
      split; [rewrite filter_app, length_app, Hsleep, Hlen; reflexivity | ].
      split; [simpl; lia | ].
      destruct n as [| n]; [lia | ].
      replace (S (S n) - 1)%nat with (S n) by lia.
      replace (S n - 1)%nat with n in Hnone by lia.
      cbn [firstn existsb]. rewrite Hquit. exact Hnone.
    + destruct IH as [Hloop Hnone]. rewrite Hloop.
      split; [reflexivity | ].
      cbn [existsb]. now rewrite Hquit, Hnone.
Qed.

(** X22.  Frame pacing.  A pass that took [elapsed] milliseconds
    (a count that fits 63 bits) sleeps exactly once, for
    [16 - elapsed] milliseconds when it took less than 16 and for 2
    otherwise: the sleep is between 1 and 16 milliseconds, a pass
    never lasts less than 16 milliseconds in all, a fast one lasts
    exactly 16 and a slow one 2 more than it took.  A frame is drawn in the pass exactly when neither
    extent of the window is zero. *)
Theorem pass_lasts_sixteen_milliseconds :
  forall (window : Z) (f : Main.frame),
    0 <= Main.elapsed f < 2 ^ 63 ->
    exists d,
      filter Main.is_sleep (snd (Main.pass window f)) = [Main.sleep_for d] /\
      1 <= d <= 16 /\
      Main.elapsed f + d
        = (if Main.elapsed f <? 16 then 16 else Main.elapsed f + 2) /\
      16 <= Main.elapsed f + d /\
      List.length (filter Main.is_frame_drawn (snd (Main.pass window f))) =
        (if (wrap_signed 32 (fst (Main.window_size f)) =? 0)
            || (wrap_signed 32 (snd (Main.window_size f)) =? 0)
         then 0%nat else 1%nat).
Proof.
  intros window f He.
  unfold Main.pass.
  assert (H := process_events_polls (Main.polled f) true).
  destruct (Main.process_events (Main.polled f) true) as [b polls].
  simpl in H. subst polls. cbn [snd].
  rewrite !filter_app.
  rewrite (filter_repeat_false _ Main.is_sleep (Main.SDL_PollEvent true) _
             eq_refl).
  rewrite (filter_repeat_false _ Main.is_frame_drawn
             (Main.SDL_PollEvent true) _ eq_refl).
  unfold Main.render, Main.pace.
  destruct (Main.window_size f) as [w h]. cbn [fst snd].
  destruct (Z.ltb_spec (Main.elapsed f) 16) as [Hfast | Hslow].
  - exists (16 - Main.elapsed f).
    assert (Hdt : wrap_signed 64 (16 - Main.elapsed f) = 16 - Main.elapsed f)
      by (apply to_GLsizeiptr_small; lia).
    rewrite Hdt.
    destruct (wrap_signed 32 w =? 0); destruct (wrap_signed 32 h =? 0);
      (split; [reflexivity
              | split; [lia | split; [lia | split; [lia | reflexivity]]]]).
  - exists 2.
    destruct (wrap_signed 32 w =? 0); destruct (wrap_signed 32 h =? 0);
      (split; [reflexivity
              | split; [lia | split; [lia | split; [lia | reflexivity]]]]).
Qed.

Lemma pass_lasts_sixteen_milliseconds_witness :
  let f := {| Main.polled := []; Main.window_size := (1280, 720);
              Main.elapsed := 5 |} in
  exists d,
    filter Main.is_sleep (snd (Main.pass 4096 f)) = [Main.sleep_for d] /\
    1 <= d <= 16 /\
    5 + d = 16 /\
    16 <= 5 + d /\
    List.length (filter Main.is_frame_drawn (snd (Main.pass 4096 f))) = 1%nat.
Proof.
  apply (pass_lasts_sixteen_milliseconds 4096
           {| Main.polled := []; Main.window_size := (1280, 720);
              Main.elapsed := 5 |}).
  simpl. lia.
Defined.

Lemma pass_no_teardown (window : Z) (f : Main.frame) :
  filter Main.is_teardown (snd (Main.pass window f)) = [].
Proof.
  unfold Main.pass.
  assert (H := process_events_polls (Main.polled f) true).
  destruct (Main.process_events (Main.polled f) true) as [b polls].
  simpl in H. subst polls. cbn [snd].
  rewrite !filter_app.
  rewrite (filter_repeat_false _ Main.is_teardown (Main.SDL_PollEvent true) _
             eq_refl).
  unfold Main.render, Main.pace.
  destruct (Main.window_size f) as [w h].
  destruct (negb (wrap_signed 32 w =? 0) && negb (wrap_signed 32 h =? 0));
    destruct (Main.elapsed f <? 16); reflexivity.
Qed.

Lemma event_loop_no_teardown (window : Z) (fs : list Main.frame) :
  forall calls,
    Main.event_loop window fs = Some calls ->
    filter Main.is_teardown calls = [].
Proof.
  induction fs as [| f rest IH]; intros calls H; [discriminate | ].
  cbn [Main.event_loop] in H.
  assert (Hpass := pass_no_teardown window f).
  destruct (Main.pass window f) as [b now_calls]. cbn [snd] in Hpass.
  destruct b.
  - destruct (Main.event_loop window rest) as [later | ]; [ | discriminate].
    injection H as <-. rewrite filter_app, Hpass. now apply IH.
  - now injection H as <-.
Qed.

Lemma event_loop_ends_iff (window : Z) (fs : list Main.frame) :
  Main.event_loop window fs = None <-> Main.passes_made fs = None.
Proof.
  induction fs as [| f rest IH]; [now split | ].
  cbn [Main.passes_made Main.event_loop].
  assert (Hrun := pass_should_run window f).
  destruct (Main.pass window f) as [b calls]. cbn [fst] in Hrun. subst b.
  destruct (existsb Main.requests_quit (Main.polled f)); cbn [negb].
  - split; discriminate.
  - destruct (Main.event_loop window rest), (Main.passes_made rest);
      split; intros H; try reflexivity; try discriminate;
      destruct IH as [IH1 IH2];
      try (specialize (IH1 eq_refl)); try (specialize (IH2 eq_refl));
      discriminate.
Qed.

Lemma ends_with_cons (A : Type) (x y : A) (l : list A) :
  (exists before, l = before ++ [x]) ->
  exists before, y :: l = before ++ [x].
Proof. intros [b ->]. now exists (y :: b). Qed.

Lemma ends_with_app (A : Type) (x : A) (l1 l2 : list A) :
  (exists before, l2 = before ++ [x]) ->
  exists before, l1 ++ l2 = before ++ [x].
Proof. intros [b ->]. exists (l1 ++ b). now rewrite app_assoc. Qed.

Ltac ends_with_last :=
  repeat first
    [ exists []; reflexivity
    | apply ends_with_cons
    | apply ends_with_app ].

(** X23.  Leaving [main].  When [SDL_Init] fails, nothing else is
    called, [SDL_Quit] included.  Otherwise every return, early or
    after the event loop, tears down what was set up, in reverse order
    and once each: the OpenGL context when there is one, then the
    window when there is one, then [SDL_Quit], which is the last call
    made; nothing before that point destroys or prints anything.  The
    exit code is [EXIT_SUCCESS] exactly when window, context and
    [glewInit] all succeeded, and the program does not return exactly
    when they did and no pass of the script holds a quit request. *)
Theorem main_tears_down_in_reverse_order :
  forall s : Main.script,
    let window := Main.window_pointer s in
    let context := Main.context_pointer s in
    let set_up :=
      negb (window =? nullptr) && negb (context =? nullptr)
      && (wrap_unsigned 32 (Main.glew_result s) =? Main.GLEW_OK) in
    if negb (wrap_signed 32 (Main.init_result s) =? 0) then
      Main.main s = Some (Main.EXIT_FAILURE, [Main.SDL_Init "SDL_INIT_VIDEO"])
    else
      match Main.main s with
      | Some (code, calls) =>
          filter Main.is_teardown calls
            = (if negb (window =? nullptr) && negb (context =? nullptr)
               then [Main.print ("Deleting OpenGL context" ++ Main.endl);
                     Main.SDL_GL_DeleteContext context]
               else [])
              ++ (if negb (window =? nullptr)
                  then [Main.print ("Deleting SDL window" ++ Main.endl);
                        Main.SDL_DestroyWindow window]
                  else [])
              ++ [Main.print ("Cleaning-up SDL state" ++ Main.endl);
                  Main.SDL_Quit] /\
          (exists before, calls = before ++ [Main.SDL_Quit]) /\
          code = (if set_up then Main.EXIT_SUCCESS else Main.EXIT_FAILURE) /\
          (set_up = true -> Main.passes_made (Main.frames s) <> None)
      | None =>
          set_up = true /\ Main.passes_made (Main.frames s) = None
      end.
Proof.
  intros s. cbv zeta. unfold Main.main.
  destruct (negb (wrap_signed 32 (Main.init_result s) =? 0));
    [reflexivity | ].
  assert (Hnone := event_loop_no_teardown (Main.window_pointer s)
                     (Main.frames s)).
  assert (Hend := event_loop_ends_iff (Main.window_pointer s)
                    (Main.frames s)).
  destruct (Main.event_loop (Main.window_pointer s) (Main.frames s))
    as [calls | ];
    [specialize (Hnone calls eq_refl) | clear Hnone];
    destruct (wrap_unsigned 32 (Main.glew_result s) =? Main.GLEW_OK);
    unfold Main.unique_ptr_destroy, Main.window_deleter,
      Main.opengl_context_deleter, Main.context_setup, Main.state_setup,
      Main.guard;
    destruct (Main.window_pointer s =? nullptr);
    destruct (Main.context_pointer s =? nullptr);
    cbn [negb andb app filter Main.is_teardown];
    try (rewrite filter_app, Hnone; cbn [app filter Main.is_teardown]);
    try (split; [reflexivity | now apply Hend]);
    (split; [reflexivity | ]);
    (split; [ends_with_last | ]);
    (split; [reflexivity | ]);
    try discriminate;
    intros _ H; apply Hend in H; discriminate.
Qed.
